(** * CPU feature detection (albertony/cpufeatures): a shallow embedding

    The repository queries the processor with the [cpuid] instruction and
    decodes the returned register bit masks.  It contains several
    independent decoders:

    - the cross-platform decoder [_intel_cpu_features] (derived from
      libsodium), which also checks the operating system's enablement of
      the AVX register state through [xgetbv];
    - the Microsoft-specific decoder, class [InstructionSet];
    - the AVX-only decoder [_get_avx_features];
    - the single-feature library, built on [CheckFeature];
    - the dynamic library [cpuid.dll], exporting [cpuid] and [cpuidex].

    Each is embedded below in its own module.  The processor is a pair of
    functions (a stub for the two instructions); every executed instruction
    is logged, so that statements about which selectors were queried can be
    made.  Behaviour that C++ leaves undefined (an array index out of
    range, a shift by the width of the type or more, overflow of a signed
    loop counter) is a [fault]. *)

From Stdlib Require Import ZArith List String Ascii Bool Lia Permutation.
Import ListNotations.
Local Open Scope Z_scope.

(** ** Machine integers *)

(** [unsigned int]: a value modulo [2^32]. *)
Definition wrap32 (z : Z) : Z := z mod 2 ^ 32.

(** [int]: the two's complement reading of the low 32 bits. *)
Definition to_int (z : Z) : Z :=
  let u := wrap32 z in if u <? 2 ^ 31 then u else u - 2 ^ 32.

Definition INT_MAX : Z := 2 ^ 31 - 1.
Definition INT_MIN : Z := - 2 ^ 31.

(** The result of a comparison or of [!= 0], stored in an [int]. *)
Definition b2i (b : bool) : Z := if b then 1 else 0.

(** ** The processor *)

(** The four result registers of one identification query. *)
Record RegisterQuad : Type := mkQuad {
  EAX : Z;
  EBX : Z;
  ECX : Z;
  EDX : Z
}.

(** The machine the program runs on (or a test stub of it): what [cpuid]
    answers for a function selector and sub-selector, what [xgetbv]
    answers for an extended control register index, and how many register
    arrays a [std::vector] can hold before [push_back] throws.  That
    number is at most [max_size()], which is 2^28 - 1 in the 32-bit build,
    and less when the memory runs out first. *)
Record Processor : Type := mkProcessor {
  cpuid_insn : Z -> Z -> RegisterQuad;
  xgetbv_insn : Z -> Z;
  vector_capacity : Z
}.

(** ** Effects: a log of executed instructions, and faults *)

Inductive event : Type :=
| Cpuid (selector subselector : Z)
| Xgetbv (index : Z).

Inductive fault : Type :=
| OutOfBounds      (* array or vector index out of range *)
| ShiftTooWide     (* shift count not below the width of int *)
| CounterOverflow  (* a signed loop counter incremented past INT_MAX *)
| AllocationFailure. (* std::bad_alloc or std::length_error, not caught *)

Definition M (A : Type) : Type := (fault + A) * list event.

Definition ret {A} (a : A) : M A := (inr a, []).

Definition raise {A} (e : fault) : M A := (inl e, []).

Definition bind {A B} (m : M A) (f : A -> M B) : M B :=
  match m with
  | (inl e, t) => (inl e, t)
  | (inr a, t) => let (r, t') := f a in (r, t ++ t')
  end.

Definition emit (e : event) : M unit := (inr tt, [e]).

Notation "x <- m ;; k" := (bind m (fun x => k))
  (at level 61, m at next level, right associativity).
Notation "' pat <- m ;; k" := (bind m (fun x => match x with pat => k end))
  (at level 61, pat pattern, m at next level, right associativity).
Notation "m ;;; k" := (bind m (fun _ => k))
  (at level 61, right associativity).

(** What a computation returned, and which selectors it queried. *)
Definition result {A} (m : M A) : fault + A := fst m.
Definition trace {A} (m : M A) : list event := snd m.

Definition queried {A} (m : M A) (selector : Z) : Prop :=
  exists sub, In (Cpuid selector sub) (trace m).

(** ** The compiler intrinsics *)

Section Intrinsics.
Variable hw : Processor.

  (** [__cpuidex(int cpuInfo[4], int function_id, int subfunction_id)]:
      fills the array with EAX, EBX, ECX, EDX, in that order, as [int]s. *)
Definition __cpuidex (function_id subfunction_id : Z) : M (list Z) :=
    emit (Cpuid (wrap32 function_id) (wrap32 subfunction_id)) ;;;
    let q := cpuid_insn hw (wrap32 function_id) (wrap32 subfunction_id) in
    ret [to_int (EAX q); to_int (EBX q); to_int (ECX q); to_int (EDX q)].

  (** [__cpuid(int cpuInfo[4], int function_id)]: the same with the
      sub-selector register cleared. *)
Definition __cpuid (function_id : Z) : M (list Z) :=
    __cpuidex function_id 0.

  (** [_xgetbv(unsigned int)], a 64-bit value. *)
Definition _xgetbv (index : Z) : M Z :=
    emit (Xgetbv index) ;;;
    ret (xgetbv_insn hw index mod 2 ^ 64).
End Intrinsics.

(** [a[k]] for an index computed at run time. *)
Definition index (a : list Z) (k : Z) : M Z :=
  if k <? 0 then raise OutOfBounds
  else match nth_error a (Z.to_nat k) with
       | Some v => ret v
       | None => raise OutOfBounds
       end.

(** [a[k]] for a literal index within the declared size of the array. *)
Definition at_ (a : list Z) (k : nat) : Z := nth k a 0.

(** [1 << n] on [int]. *)
Definition shl1 (n : Z) : M Z :=
  if (0 <=? n) && (n <? 32) then ret (to_int (Z.shiftl 1 n))
  else raise ShiftTooWide.

(** * The single-feature library (CPUFeaturesLibrary.cpp)

    The installer custom action (CPUFeaturesCustomAction.cpp) contains the
    same [CheckFeature], character for character. *)

Module Library.
Section WithProcessor.
Variable hw : Processor.

Definition CheckFeature (functionId registerNumber bitNumber : Z) : M bool :=
    let support := false in
    if functionId >? 0 then
      cpu_info <- __cpuid hw 0 ;;
      if functionId <=? at_ cpu_info 0 then
        cpu_info <- __cpuid hw functionId ;;
        r <- index cpu_info registerNumber ;;
        m <- shl1 bitNumber ;;
        ret (negb (Z.land r m =? 0))
      else ret support
    else if functionId <? 0 then
      cpu_info <- __cpuid hw (to_int 0x80000000) ;;
      if functionId <=? at_ cpu_info 0 then
        cpu_info <- __cpuid hw functionId ;;
        r <- index cpu_info registerNumber ;;
        m <- shl1 bitNumber ;;
        ret (negb (Z.land r m =? 0))
      else ret support
    else ret support.

Definition SupportLongMode : M bool := CheckFeature (to_int 0x80000001) 3 29.
Definition SupportSSE : M bool := CheckFeature 1 3 25.
Definition SupportSSE2 : M bool := CheckFeature 1 3 26.
Definition SupportSSE3 : M bool := CheckFeature 1 2 0.
Definition SupportSSSE3 : M bool := CheckFeature 1 2 9.
Definition SupportSSE41 : M bool := CheckFeature 1 2 19.
Definition SupportSSE42 : M bool := CheckFeature 1 2 20.
Definition SupportAVX : M bool := CheckFeature 1 2 28.
Definition SupportAVX2 : M bool := CheckFeature 7 1 5.
Definition SupportAVX512 : M bool := CheckFeature 7 1 16.
Definition SupportAES : M bool := CheckFeature 1 2 25.
Definition SupportRDRND : M bool := CheckFeature 1 2 30.
Definition SupportVMX : M bool := CheckFeature 1 2 25.
End WithProcessor.
End Library.

(** * The dynamic library (cpuid.cpp) *)

Module CpuidDll.

  (** The two file-scope statics. *)
Record Statics : Type := mkStatics {
    max_function_id : Z;
    max_extended_function_id : Z
  }.

  (** Statics are zero-initialised when the library is loaded. *)
Definition initial : Statics := mkStatics 0 0.

Definition DLL_PROCESS_DETACH : Z := 0.
Definition DLL_PROCESS_ATTACH : Z := 1.
Definition DLL_THREAD_ATTACH : Z := 2.
Definition DLL_THREAD_DETACH : Z := 3.
Definition TRUE : Z := 1.

Section WithProcessor.
Variable hw : Processor.

Definition DllMain (ul_reason_for_call : Z) (st : Statics) : M (Z * Statics) :=
    if ul_reason_for_call =? DLL_PROCESS_ATTACH then
      cpu_info <- __cpuid hw 0 ;;
      let max_id := at_ cpu_info 0 in
      cpu_info <- __cpuid hw (to_int 0x80000000) ;;
      let max_ext := at_ cpu_info 0 in
      ret (TRUE, mkStatics max_id max_ext)
    else ret (TRUE, st).

Definition cpuid (st : Statics)
      (function_id register_number bit_number : Z) : M Z :=
    let support := 0 in
    if ((function_id >? 0) && (function_id <=? max_function_id st))
       || ((function_id <? 0) && (function_id <=? max_extended_function_id st))
    then
      if register_number <? 4 then
        cpu_info <- __cpuid hw function_id ;;
        r <- index cpu_info register_number ;;
        m <- shl1 bit_number ;;
        ret (Z.land r m)
      else ret support
    else ret support.

Definition cpuidex (st : Statics)
      (function_id subfunction_id register_number bit_number : Z) : M Z :=
    let support := 0 in
    if ((function_id >? 0) && (function_id <=? max_function_id st))
       || ((function_id <? 0) && (function_id <=? max_extended_function_id st))
    then
      if register_number <? 4 then
        cpu_info <- __cpuidex hw function_id subfunction_id ;;
        r <- index cpu_info register_number ;;
        m <- shl1 bit_number ;;
        ret (Z.land r m)
      else ret support
    else ret support.
End WithProcessor.
End CpuidDll.

(** * The cross-platform decoder (derived from libsodium's runtime.c) *)

Module CrossPlatform.

Record CPUFeatures : Type := mkCPUFeatures {
    has_neon : Z;
    has_sse2 : Z;
    has_sse3 : Z;
    has_ssse3 : Z;
    has_sse41 : Z;
    has_avx : Z;
    has_avx2 : Z;
    has_avx512f : Z;
    has_pclmul : Z;
    has_aesni : Z;
    has_rdrand : Z
  }.

Definition set_has_neon v f := mkCPUFeatures v (has_sse2 f) (has_sse3 f) (has_ssse3 f) (has_sse41 f) (has_avx f) (has_avx2 f) (has_avx512f f) (has_pclmul f) (has_aesni f) (has_rdrand f).
Definition set_has_sse2 v f := mkCPUFeatures (has_neon f) v (has_sse3 f) (has_ssse3 f) (has_sse41 f) (has_avx f) (has_avx2 f) (has_avx512f f) (has_pclmul f) (has_aesni f) (has_rdrand f).
Definition set_has_sse3 v f := mkCPUFeatures (has_neon f) (has_sse2 f) v (has_ssse3 f) (has_sse41 f) (has_avx f) (has_avx2 f) (has_avx512f f) (has_pclmul f) (has_aesni f) (has_rdrand f).
Definition set_has_ssse3 v f := mkCPUFeatures (has_neon f) (has_sse2 f) (has_sse3 f) v (has_sse41 f) (has_avx f) (has_avx2 f) (has_avx512f f) (has_pclmul f) (has_aesni f) (has_rdrand f).
Definition set_has_sse41 v f := mkCPUFeatures (has_neon f) (has_sse2 f) (has_sse3 f) (has_ssse3 f) v (has_avx f) (has_avx2 f) (has_avx512f f) (has_pclmul f) (has_aesni f) (has_rdrand f).
Definition set_has_avx v f := mkCPUFeatures (has_neon f) (has_sse2 f) (has_sse3 f) (has_ssse3 f) (has_sse41 f) v (has_avx2 f) (has_avx512f f) (has_pclmul f) (has_aesni f) (has_rdrand f).
Definition set_has_avx2 v f := mkCPUFeatures (has_neon f) (has_sse2 f) (has_sse3 f) (has_ssse3 f) (has_sse41 f) (has_avx f) v (has_avx512f f) (has_pclmul f) (has_aesni f) (has_rdrand f).
Definition set_has_avx512f v f := mkCPUFeatures (has_neon f) (has_sse2 f) (has_sse3 f) (has_ssse3 f) (has_sse41 f) (has_avx f) (has_avx2 f) v (has_pclmul f) (has_aesni f) (has_rdrand f).
Definition set_has_pclmul v f := mkCPUFeatures (has_neon f) (has_sse2 f) (has_sse3 f) (has_ssse3 f) (has_sse41 f) (has_avx f) (has_avx2 f) (has_avx512f f) v (has_aesni f) (has_rdrand f).
Definition set_has_aesni v f := mkCPUFeatures (has_neon f) (has_sse2 f) (has_sse3 f) (has_ssse3 f) (has_sse41 f) (has_avx f) (has_avx2 f) (has_avx512f f) (has_pclmul f) v (has_rdrand f).
Definition set_has_rdrand v f := mkCPUFeatures (has_neon f) (has_sse2 f) (has_sse3 f) (has_ssse3 f) (has_sse41 f) (has_avx f) (has_avx2 f) (has_avx512f f) (has_pclmul f) (has_aesni f) v.

Definition CPUID_EBX_AVX2 : Z := 0x00000020.
Definition CPUID_EBX_AVX512F : Z := 0x00010000.

Definition CPUID_ECX_SSE3 : Z := 0x00000001.
Definition CPUID_ECX_PCLMUL : Z := 0x00000002.
Definition CPUID_ECX_SSSE3 : Z := 0x00000200.
Definition CPUID_ECX_SSE41 : Z := 0x00080000.
Definition CPUID_ECX_AESNI : Z := 0x02000000.
Definition CPUID_ECX_XSAVE : Z := 0x04000000.
Definition CPUID_ECX_OSXSAVE : Z := 0x08000000.
Definition CPUID_ECX_AVX : Z := 0x10000000.
Definition CPUID_ECX_RDRAND : Z := 0x40000000.

Definition CPUID_EDX_SSE2 : Z := 0x04000000.

Definition XCR0_SSE : Z := 0x00000002.
Definition XCR0_AVX : Z := 0x00000004.

  (** The preprocessor configuration of a build.  The file itself defines
      the [HAVE_..._H] macros for a Microsoft x86 build; for other
      compilers they come from the build system. *)
Record Config : Type := mkConfig {
    (* _MSC_VER on x86/x64, or HAVE_CPUID: the cpuid instruction is issued *)
    cpuid_available : bool;
    HAVE_EMMINTRIN_H : bool;
    HAVE_PMMINTRIN_H : bool;
    HAVE_TMMINTRIN_H : bool;
    HAVE_SMMINTRIN_H : bool;
    HAVE_AVXINTRIN_H : bool;
    HAVE_AVX2INTRIN_H : bool;
    HAVE_AVX512FINTRIN_H : bool;
    HAVE_WMMINTRIN_H : bool;
    HAVE_RDRAND : bool;
    (* one of the three ways of executing xgetbv is compiled in *)
    xgetbv_available : bool;
    (* __arm__ is defined, and then what the platform says about NEON *)
    arm_neon : option bool
  }.

  (** Visual C++ 2012 or later targeting x86 or x64, the build the
      repository's project files produce. *)
Definition msvc : Config :=
    mkConfig true true true true true true true false true true true None.

Section WithProcessor.
Variable cfg : Config.
Variable hw : Processor.

Definition _arm_cpu_features (cpu_features : CPUFeatures) : Z * CPUFeatures :=
    match arm_neon cfg with
    | None => (-1, set_has_neon 0 cpu_features)
    | Some neon => (0, set_has_neon (b2i neon) cpu_features)
    end.

  (** [_cpuid(unsigned int cpu_info[4], const unsigned int cpu_info_type)] *)
Definition _cpuid (cpu_info_type : Z) : M (list Z) :=
    if cpuid_available cfg then
      emit (Cpuid (wrap32 cpu_info_type) 0) ;;;
      let q := cpuid_insn hw (wrap32 cpu_info_type) 0 in
      ret [wrap32 (EAX q); wrap32 (EBX q); wrap32 (ECX q); wrap32 (EDX q)]
    else ret [0; 0; 0; 0].

Definition _intel_cpu_features (cpu_features : CPUFeatures)
    : M (Z * CPUFeatures) :=
    cpu_info <- _cpuid 0x0 ;;
    let id := at_ cpu_info 0 in
    if id =? 0 then ret (-1, cpu_features) else
    cpu_info <- _cpuid 0x00000001 ;;
    let cpu_features :=
      set_has_sse2
        (if HAVE_EMMINTRIN_H cfg
         then b2i (negb (Z.land (at_ cpu_info 3) CPUID_EDX_SSE2 =? 0x0)) else 0)
        cpu_features in
    let cpu_features :=
      set_has_sse3
        (if HAVE_PMMINTRIN_H cfg
         then b2i (negb (Z.land (at_ cpu_info 2) CPUID_ECX_SSE3 =? 0x0)) else 0)
        cpu_features in
    let cpu_features :=
      set_has_ssse3
        (if HAVE_TMMINTRIN_H cfg
         then b2i (negb (Z.land (at_ cpu_info 2) CPUID_ECX_SSSE3 =? 0x0)) else 0)
        cpu_features in
    let cpu_features :=
      set_has_sse41
        (if HAVE_SMMINTRIN_H cfg
         then b2i (negb (Z.land (at_ cpu_info 2) CPUID_ECX_SSE41 =? 0x0)) else 0)
        cpu_features in

    let cpu_features := set_has_avx 0 cpu_features in
    cpu_features <-
      (if HAVE_AVXINTRIN_H cfg then
         if Z.land (at_ cpu_info 2)
              (Z.lor (Z.lor CPUID_ECX_AVX CPUID_ECX_XSAVE) CPUID_ECX_OSXSAVE)
            =? Z.lor (Z.lor CPUID_ECX_AVX CPUID_ECX_XSAVE) CPUID_ECX_OSXSAVE
         then
           xcr0 <- (if xgetbv_available cfg
                    then v <- _xgetbv hw 0 ;; ret (wrap32 v)
                    else ret 0) ;;
           if Z.land xcr0 (Z.lor XCR0_SSE XCR0_AVX) =? Z.lor XCR0_SSE XCR0_AVX
           then ret (set_has_avx 1 cpu_features)
           else ret cpu_features
         else ret cpu_features
       else ret cpu_features) ;;

    let cpu_features := set_has_avx2 0 cpu_features in
    cpu_features <-
      (if HAVE_AVX2INTRIN_H cfg then
         if negb (has_avx cpu_features =? 0) then
           cpu_info7 <- _cpuid 0x00000007 ;;
           ret (set_has_avx2
                  (b2i (negb (Z.land (at_ cpu_info7 1) CPUID_EBX_AVX2 =? 0x0)))
                  cpu_features)
         else ret cpu_features
       else ret cpu_features) ;;

    let cpu_features := set_has_avx512f 0 cpu_features in
    cpu_features <-
      (if HAVE_AVX512FINTRIN_H cfg then
         if negb (has_avx2 cpu_features =? 0) then
           cpu_info7 <- _cpuid 0x00000007 ;;
           ret (set_has_avx512f
                  (b2i (negb (Z.land (at_ cpu_info7 1) CPUID_EBX_AVX512F =? 0x0)))
                  cpu_features)
         else ret cpu_features
       else ret cpu_features) ;;

    let cpu_features :=
      if HAVE_WMMINTRIN_H cfg then
        set_has_aesni
          (b2i (negb (Z.land (at_ cpu_info 2) CPUID_ECX_AESNI =? 0x0)))
          (set_has_pclmul
             (b2i (negb (Z.land (at_ cpu_info 2) CPUID_ECX_PCLMUL =? 0x0)))
             cpu_features)
      else set_has_aesni 0 (set_has_pclmul 0 cpu_features) in

    let cpu_features :=
      set_has_rdrand
        (if HAVE_RDRAND cfg
         then b2i (negb (Z.land (at_ cpu_info 2) CPUID_ECX_RDRAND =? 0x0)) else 0)
        cpu_features in

    ret (0, cpu_features).

Definition _get_cpu_features (cpu_features : CPUFeatures)
    : M (Z * CPUFeatures) :=
    let ret_ := -1 in
    let '(r, cpu_features) := _arm_cpu_features cpu_features in
    let ret_ := Z.land ret_ r in
    '(r, cpu_features) <- _intel_cpu_features cpu_features ;;
    let ret_ := Z.land ret_ r in
    ret (ret_, cpu_features).

  (** One line of the report: the feature's name and the flag printed
      for it by [_print_feature_support] ([is_supported] is a [bool]
      parameter, so any non-zero [int] prints as supported). *)
Definition report (cpu_features : CPUFeatures) : list (string * bool) :=
    let yes v := negb (v =? 0) in
    [ ("NEON", yes (has_neon cpu_features));
      ("SSE2", yes (has_sse2 cpu_features));
      ("SSE3", yes (has_sse3 cpu_features));
      ("SSSE3", yes (has_ssse3 cpu_features));
      ("SSE4.1", yes (has_sse41 cpu_features));
      ("AVX", yes (has_avx cpu_features));
      ("AVX2", yes (has_avx2 cpu_features));
      ("AVX512F", yes (has_avx512f cpu_features));
      ("PCLMUL", yes (has_pclmul cpu_features));
      ("AES-NI", yes (has_aesni cpu_features));
      ("RDRAND", yes (has_rdrand cpu_features)) ]%string.

  (** [print_cpu_features] declares [CPUFeatures cpu_features;] without an
      initialiser, so the structure starts with whatever the stack holds:
      the parameter [stack].  The status returned by [_get_cpu_features]
      is discarded.  The result is the list of features handed to the
      printer. *)
Definition print_cpu_features (stack : CPUFeatures) : M (list (string * bool)) :=
    '(_, cpu_features) <- _get_cpu_features stack ;;
    ret (report cpu_features).
End WithProcessor.
End CrossPlatform.

(** [x & 1<<k] != 0, for a literal [k] below 32, on [int]s. *)
Definition bit_set (x : Z) (k : Z) : bool :=
  negb (Z.land x (to_int (Z.shiftl 1 k)) =? 0).

(** * The AVX-only decoder (AVXFeatures.cpp) *)

Module AvxOnly.

Record AVXFeatures : Type := mkAVXFeatures {
    avx : bool; avx2 : bool; avx512f : bool; avx512pf : bool;
    avx512er : bool; avx512cd : bool;
    avx512bw : bool; avx512dq : bool; avx512vl : bool;
    avx512ifma : bool; avx512vbmi : bool;
    avx512vnni : bool; avx512vbmi2 : bool; avx512popcntdq : bool;
    avx512bitalg : bool;
    avx5124vnniw : bool; avx5124fmaps : bool
  }.

  (** The default member initialisers: every flag starts as [false]. *)
Definition default : AVXFeatures :=
    mkAVXFeatures false false false false false false false false false
                  false false false false false false false false.

Section WithProcessor.
Variable hw : Processor.

Definition _get_avx_features : M AVXFeatures :=
    let features := default in
    cpu_info <- __cpuid hw 0x0 ;;
    let nIds := at_ cpu_info 0 in
    if nIds >=? 1 then
      cpu_info <- __cpuid hw 0x1 ;;
      let a := bit_set (at_ cpu_info 2) 28 in
      if nIds >=? 7 then
        cpu_info <- __cpuid hw 0x7 ;;
        ret {| avx := a;
               avx2 := bit_set (at_ cpu_info 1) 5;
               avx512f := bit_set (at_ cpu_info 1) 16;
               avx512pf := bit_set (at_ cpu_info 1) 26;
               avx512er := bit_set (at_ cpu_info 1) 27;
               avx512cd := bit_set (at_ cpu_info 1) 28;
               avx512bw := bit_set (at_ cpu_info 1) 30;
               avx512dq := bit_set (at_ cpu_info 1) 17;
               avx512vl := bit_set (at_ cpu_info 1) 31;
               avx512ifma := bit_set (at_ cpu_info 1) 21;
               avx512vbmi := bit_set (at_ cpu_info 2) 1;
               avx512vnni := bit_set (at_ cpu_info 2) 11;
               avx512vbmi2 := bit_set (at_ cpu_info 2) 6;
               avx512popcntdq := bit_set (at_ cpu_info 2) 14;
               avx512bitalg := bit_set (at_ cpu_info 2) 12;
               avx5124vnniw := bit_set (at_ cpu_info 3) 2;
               avx5124fmaps := bit_set (at_ cpu_info 3) 3 |}
      else
        ret {| avx := a;
               avx2 := avx2 features;
               avx512f := avx512f features;
               avx512pf := avx512pf features;
               avx512er := avx512er features;
               avx512cd := avx512cd features;
               avx512bw := avx512bw features;
               avx512dq := avx512dq features;
               avx512vl := avx512vl features;
               avx512ifma := avx512ifma features;
               avx512vbmi := avx512vbmi features;
               avx512vnni := avx512vnni features;
               avx512vbmi2 := avx512vbmi2 features;
               avx512popcntdq := avx512popcntdq features;
               avx512bitalg := avx512bitalg features;
               avx5124vnniw := avx5124vnniw features;
               avx5124fmaps := avx5124fmaps features |}
    else ret features.
End WithProcessor.
End AvxOnly.

(** * The Microsoft-specific decoder (class InstructionSet) *)

(** ** Character buffers *)

(** The four bytes of a 32-bit value as x86 stores them: low byte first. *)
Definition bytes_of_int (v : Z) : list Z :=
  [ wrap32 v mod 256;
    (wrap32 v / 2 ^ 8) mod 256;
    (wrap32 v / 2 ^ 16) mod 256;
    (wrap32 v / 2 ^ 24) mod 256 ].

(** [memcpy(buf + off, bs, sizeof bs)] within the buffer. *)
Definition write_at (off : nat) (bs buf : list Z) : list Z :=
  (firstn off buf ++ bs ++ skipn (off + List.length bs) buf)%list.

(** The characters of a NUL-terminated string held in a buffer. *)
Fixpoint c_str (buf : list Z) : list Z :=
  match buf with
  | [] => []
  | b :: rest => if b =? 0 then [] else b :: c_str rest
  end.

Definition string_of_bytes (bs : list Z) : string :=
  fold_right (fun b s => String (ascii_of_N (Z.to_N b)) s) EmptyString bs.

(** [std::string s = buf;] *)
Definition std_string (buf : list Z) : string := string_of_bytes (c_str buf).

(** [v[k]] on a [std::vector], which does not check its index. *)
Definition vindex (v : list (list Z)) (k : nat) : M (list Z) :=
  match nth_error v k with
  | Some a => ret a
  | None => raise OutOfBounds
  end.

Module InstructionSet.

Record InstructionSet_Internal : Type := mkInternal {
    nIds_ : Z;
    nExIds_ : Z;
    vendor_ : string;
    brand_ : string;
    isIntel_ : bool;
    isAMD_ : bool;
    f_1_ECX_ : Z;          (* std::bitset<32>: a value below 2^32 *)
    f_1_EDX_ : Z;
    f_7_EBX_ : Z;
    f_7_ECX_ : Z;
    f_81_ECX_ : Z;
    f_81_EDX_ : Z;
    data_ : list (list Z);
    extdata_ : list (list Z)
  }.

Section WithProcessor.
Variable hw : Processor.

  (** [v.push_back(cpui)]: the vector grows by one element, or throws
      when it cannot grow any more. *)
Definition push_back (v : list (list Z)) (cpui : list Z)
  : M (list (list Z)) :=
    if Z.of_nat (List.length v) <? vector_capacity hw
    then ret (v ++ [cpui])%list
    else raise AllocationFailure.

  (** [n] passes through the body [__cpuidex(cpui.data(), i, 0);
      v.push_back(cpui);], the counter starting at [i] and the vector
      holding [v]. *)
Fixpoint query_range (n : nat) (i : Z) (v : list (list Z))
  : M (list (list Z)) :=
    match n with
    | O => ret v
    | S n' =>
        cpui <- __cpuidex hw i 0 ;;
        v <- push_back v cpui ;;
        query_range n' (i + 1) v
    end.

  (** [for (int i = first; i <= last; ++i) { ... }] on a vector that is
      empty at first.  When [last] is [INT_MAX] the condition never fails
      and the increment overflows, unless [push_back] has thrown before. *)
Definition for_each_id (first last : Z) : M (list (list Z)) :=
    v <- query_range (Z.to_nat (last - first + 1)) first [] ;;
    if last =? INT_MAX then raise CounterOverflow else ret v.

  (** The constructor of [InstructionSet_Internal], which builds the
      static [CPU_Rep]. *)
Definition CPU_Rep : M InstructionSet_Internal :=
    cpui <- __cpuid hw 0 ;;
    let nIds_ := at_ cpui 0 in
    data_ <- for_each_id 0 nIds_ ;;
    (* Capture vendor string *)
    let vendor := repeat 0 0x20 in
    d0 <- vindex data_ 0 ;;
    let vendor := write_at 0 (bytes_of_int (at_ d0 1)) vendor in
    d0 <- vindex data_ 0 ;;
    let vendor := write_at 4 (bytes_of_int (at_ d0 3)) vendor in
    d0 <- vindex data_ 0 ;;
    let vendor := write_at 8 (bytes_of_int (at_ d0 2)) vendor in
    let vendor_ := std_string vendor in
    let isIntel_ := (vendor_ =? "GenuineIntel")%string in
    let isAMD_ := negb isIntel_ && (vendor_ =? "AuthenticAMD")%string in
    (* load bitset with flags for function 0x00000001 *)
    '(f_1_ECX_, f_1_EDX_) <-
      (if nIds_ >=? 1 then
         d1 <- vindex data_ 1 ;;
         d1' <- vindex data_ 1 ;;
         ret (wrap32 (at_ d1 2), wrap32 (at_ d1' 3))
       else ret (0, 0)) ;;
    (* load bitset with flags for function 0x00000007 *)
    '(f_7_EBX_, f_7_ECX_) <-
      (if nIds_ >=? 7 then
         d7 <- vindex data_ 7 ;;
         d7' <- vindex data_ 7 ;;
         ret (wrap32 (at_ d7 1), wrap32 (at_ d7' 2))
       else ret (0, 0)) ;;
    cpui <- __cpuid hw (to_int 0x80000000) ;;
    let nExIds_ := at_ cpui 0 in
    let brand := repeat 0 0x40 in
    extdata_ <- for_each_id (to_int 0x80000000) nExIds_ ;;
    (* load bitset with flags for function 0x80000001; the literal is an
       unsigned int, so the comparison is unsigned *)
    '(f_81_ECX_, f_81_EDX_) <-
      (if wrap32 nExIds_ >=? 0x80000001 then
         e1 <- vindex extdata_ 1 ;;
         e1' <- vindex extdata_ 1 ;;
         ret (wrap32 (at_ e1 2), wrap32 (at_ e1' 3))
       else ret (0, 0)) ;;
    (* Interpret CPU brand string if reported *)
    brand_ <-
      (if wrap32 nExIds_ >=? 0x80000004 then
         e2 <- vindex extdata_ 2 ;;
         let brand := write_at 0 (flat_map bytes_of_int e2) brand in
         e3 <- vindex extdata_ 3 ;;
         let brand := write_at 16 (flat_map bytes_of_int e3) brand in
         e4 <- vindex extdata_ 4 ;;
         let brand := write_at 32 (flat_map bytes_of_int e4) brand in
         ret (std_string brand)
       else ret EmptyString) ;;
    ret (mkInternal nIds_ nExIds_ vendor_ brand_ isIntel_ isAMD_
           f_1_ECX_ f_1_EDX_ f_7_EBX_ f_7_ECX_ f_81_ECX_ f_81_EDX_
           data_ extdata_).
End WithProcessor.

  (** ** The getters.  [b[k]] on a bitset is [Z.testbit]. *)
Section Getters.
Variable CPU_Rep : InstructionSet_Internal.

Definition Vendor : string := vendor_ CPU_Rep.
Definition Brand : string := brand_ CPU_Rep.
Definition SSE3 : bool := Z.testbit (f_1_ECX_ CPU_Rep) 0.
Definition PCLMULQDQ : bool := Z.testbit (f_1_ECX_ CPU_Rep) 1.
Definition MONITOR : bool := Z.testbit (f_1_ECX_ CPU_Rep) 3.
Definition VMX : bool := Z.testbit (f_1_ECX_ CPU_Rep) 5.
Definition SSSE3 : bool := Z.testbit (f_1_ECX_ CPU_Rep) 9.
Definition FMA : bool := Z.testbit (f_1_ECX_ CPU_Rep) 12.
Definition CMPXCHG16B : bool := Z.testbit (f_1_ECX_ CPU_Rep) 13.
Definition SSE41 : bool := Z.testbit (f_1_ECX_ CPU_Rep) 19.
Definition SSE42 : bool := Z.testbit (f_1_ECX_ CPU_Rep) 20.
Definition MOVBE : bool := Z.testbit (f_1_ECX_ CPU_Rep) 22.
Definition POPCNT : bool := Z.testbit (f_1_ECX_ CPU_Rep) 23.
Definition AES : bool := Z.testbit (f_1_ECX_ CPU_Rep) 25.
Definition XSAVE : bool := Z.testbit (f_1_ECX_ CPU_Rep) 26.
Definition OSXSAVE : bool := Z.testbit (f_1_ECX_ CPU_Rep) 27.
Definition AVX : bool := Z.testbit (f_1_ECX_ CPU_Rep) 28.
Definition F16C : bool := Z.testbit (f_1_ECX_ CPU_Rep) 29.
Definition RDRAND : bool := Z.testbit (f_1_ECX_ CPU_Rep) 30.
Definition MSR : bool := Z.testbit (f_1_EDX_ CPU_Rep) 5.
Definition CX8 : bool := Z.testbit (f_1_EDX_ CPU_Rep) 8.
Definition SEP : bool := Z.testbit (f_1_EDX_ CPU_Rep) 11.
Definition CMOV : bool := Z.testbit (f_1_EDX_ CPU_Rep) 15.
Definition CLFSH : bool := Z.testbit (f_1_EDX_ CPU_Rep) 19.
Definition MMX : bool := Z.testbit (f_1_EDX_ CPU_Rep) 23.
Definition FXSR : bool := Z.testbit (f_1_EDX_ CPU_Rep) 24.
Definition SSE : bool := Z.testbit (f_1_EDX_ CPU_Rep) 25.
Definition SSE2 : bool := Z.testbit (f_1_EDX_ CPU_Rep) 26.
Definition FSGSBASE : bool := Z.testbit (f_7_EBX_ CPU_Rep) 0.
Definition BMI1 : bool := Z.testbit (f_7_EBX_ CPU_Rep) 3.
Definition HLE : bool := isIntel_ CPU_Rep && Z.testbit (f_7_EBX_ CPU_Rep) 4.
Definition AVX2 : bool := Z.testbit (f_7_EBX_ CPU_Rep) 5.
Definition BMI2 : bool := Z.testbit (f_7_EBX_ CPU_Rep) 8.
Definition ERMS : bool := Z.testbit (f_7_EBX_ CPU_Rep) 9.
Definition INVPCID : bool := Z.testbit (f_7_EBX_ CPU_Rep) 10.
Definition RTM : bool := isIntel_ CPU_Rep && Z.testbit (f_7_EBX_ CPU_Rep) 11.
Definition AVX512F : bool := Z.testbit (f_7_EBX_ CPU_Rep) 16.
Definition RDSEED : bool := Z.testbit (f_7_EBX_ CPU_Rep) 18.
Definition ADX : bool := Z.testbit (f_7_EBX_ CPU_Rep) 19.
Definition AVX512PF : bool := Z.testbit (f_7_EBX_ CPU_Rep) 26.
Definition AVX512ER : bool := Z.testbit (f_7_EBX_ CPU_Rep) 27.
Definition AVX512CD : bool := Z.testbit (f_7_EBX_ CPU_Rep) 28.
Definition SHA : bool := Z.testbit (f_7_EBX_ CPU_Rep) 29.
Definition PREFETCHWT1 : bool := Z.testbit (f_7_ECX_ CPU_Rep) 0.
Definition LAHF : bool := Z.testbit (f_81_ECX_ CPU_Rep) 0.
Definition LZCNT : bool := isIntel_ CPU_Rep && Z.testbit (f_81_ECX_ CPU_Rep) 5.
Definition ABM : bool := isAMD_ CPU_Rep && Z.testbit (f_81_ECX_ CPU_Rep) 5.
Definition SSE4a : bool := isAMD_ CPU_Rep && Z.testbit (f_81_ECX_ CPU_Rep) 6.
Definition XOP : bool := isAMD_ CPU_Rep && Z.testbit (f_81_ECX_ CPU_Rep) 11.
Definition TBM : bool := isAMD_ CPU_Rep && Z.testbit (f_81_ECX_ CPU_Rep) 21.
Definition SYSCALL : bool := isIntel_ CPU_Rep && Z.testbit (f_81_EDX_ CPU_Rep) 11.
Definition MMXEXT : bool := isAMD_ CPU_Rep && Z.testbit (f_81_EDX_ CPU_Rep) 22.
Definition RDTSCP : bool := isIntel_ CPU_Rep && Z.testbit (f_81_EDX_ CPU_Rep) 27.
Definition LongMode : bool := Z.testbit (f_81_EDX_ CPU_Rep) 29.
Definition _3DNOWEXT : bool := isAMD_ CPU_Rep && Z.testbit (f_81_EDX_ CPU_Rep) 30.
Definition _3DNOW : bool := isAMD_ CPU_Rep && Z.testbit (f_81_EDX_ CPU_Rep) 31.
End Getters.
End InstructionSet.

(** * Vocabulary of the statements *)

(** The maxima as the Microsoft-compiled decoders read them: register A
    of the base selector of each range, as an [int]. *)
Definition max_standard (hw : Processor) : Z :=
  to_int (EAX (cpuid_insn hw 0 0)).

Definition max_extended (hw : Processor) : Z :=
  to_int (EAX (cpuid_insn hw 0x80000000 0)).

(** ** The cross-platform decoder in closed form

    What [_intel_cpu_features] computes once it is past its selector-0
    guard, written as plain boolean expressions over the registers.  The
    lemma [intel_cpu_features_run] below proves that the decoder computes
    exactly this. *)

Module Summary.
Import CrossPlatform.
Section WithProcessor.
Variable cfg : Config.
Variable hw : Processor.

  (** Registers as the decoder holds them, in [unsigned int]s. *)
Definition ecx1 : Z := wrap32 (ECX (cpuid_insn hw 1 0)).
Definition edx1 : Z := wrap32 (EDX (cpuid_insn hw 1 0)).
Definition ebx7 : Z := wrap32 (EBX (cpuid_insn hw 7 0)).

Definition xcr0 : Z :=
    if xgetbv_available cfg then wrap32 (xgetbv_insn hw 0 mod 2 ^ 64) else 0.

  (** AVX, XSAVE and OSXSAVE are all reported. *)
Definition avx_and_xsave_reported : bool :=
    Z.land ecx1 (Z.lor (Z.lor CPUID_ECX_AVX CPUID_ECX_XSAVE) CPUID_ECX_OSXSAVE)
    =? Z.lor (Z.lor CPUID_ECX_AVX CPUID_ECX_XSAVE) CPUID_ECX_OSXSAVE.

Definition avx_usable : bool :=
    HAVE_AVXINTRIN_H cfg && avx_and_xsave_reported
    && (Z.land xcr0 (Z.lor XCR0_SSE XCR0_AVX) =? Z.lor XCR0_SSE XCR0_AVX).

Definition avx2_usable : bool :=
    HAVE_AVX2INTRIN_H cfg && avx_usable
    && negb (Z.land ebx7 CPUID_EBX_AVX2 =? 0).

Definition avx512f_usable : bool :=
    HAVE_AVX512FINTRIN_H cfg && avx2_usable
    && negb (Z.land ebx7 CPUID_EBX_AVX512F =? 0).

Definition decoded (stack : CPUFeatures) : CPUFeatures :=
    {| has_neon := has_neon stack;
       has_sse2 := if HAVE_EMMINTRIN_H cfg
                   then b2i (negb (Z.land edx1 CPUID_EDX_SSE2 =? 0)) else 0;
       has_sse3 := if HAVE_PMMINTRIN_H cfg
                   then b2i (negb (Z.land ecx1 CPUID_ECX_SSE3 =? 0)) else 0;
       has_ssse3 := if HAVE_TMMINTRIN_H cfg
                    then b2i (negb (Z.land ecx1 CPUID_ECX_SSSE3 =? 0)) else 0;
       has_sse41 := if HAVE_SMMINTRIN_H cfg
                    then b2i (negb (Z.land ecx1 CPUID_ECX_SSE41 =? 0)) else 0;
       has_avx := b2i avx_usable;
       has_avx2 := b2i avx2_usable;
       has_avx512f := b2i avx512f_usable;
       has_pclmul := if HAVE_WMMINTRIN_H cfg
                     then b2i (negb (Z.land ecx1 CPUID_ECX_PCLMUL =? 0)) else 0;
       has_aesni := if HAVE_WMMINTRIN_H cfg
                    then b2i (negb (Z.land ecx1 CPUID_ECX_AESNI =? 0)) else 0;
       has_rdrand := if HAVE_RDRAND cfg
                     then b2i (negb (Z.land ecx1 CPUID_ECX_RDRAND =? 0)) else 0 |}.

  (** The instructions executed, in order. *)
Definition executed : list event :=
    ([Cpuid 0 0; Cpuid 1 0]
     ++ (if HAVE_AVXINTRIN_H cfg && avx_and_xsave_reported
            && xgetbv_available cfg
         then [Xgetbv 0] else [])
     ++ (if HAVE_AVX2INTRIN_H cfg && avx_usable then [Cpuid 7 0] else [])
     ++ (if HAVE_AVX512FINTRIN_H cfg && avx2_usable then [Cpuid 7 0] else []))%list.

  (** Every field the decoder is responsible for holds 0 or 1. *)
Definition is_flag (v : Z) : bool := (v =? 0) || (v =? 1).

Definition all_flags (f : CPUFeatures) : bool :=
    forallb is_flag
      [ has_sse2 f; has_sse3 f; has_ssse3 f; has_sse41 f; has_avx f;
        has_avx2 f; has_avx512f f; has_pclmul f; has_aesni f; has_rdrand f ].
End WithProcessor.
End Summary.

(** ** The Microsoft-specific decoder in closed form

    What the constructor of [InstructionSet_Internal] leaves in [CPU_Rep]
    when it returns; [CPU_Rep_result] below proves it. *)

Module Rep.
Import InstructionSet.
Section WithProcessor.
Variable hw : Processor.

  (** The array [__cpuidex] fills for a selector, sub-selector 0. *)
Definition registers (selector : Z) : list Z :=
    let q := cpuid_insn hw (wrap32 selector) 0 in
    [to_int (EAX q); to_int (EBX q); to_int (ECX q); to_int (EDX q)].

  (** The arrays for [n] consecutive selectors from [i]. *)
Fixpoint answers (n : nat) (i : Z) : list (list Z) :=
    match n with
    | O => []
    | S n' => registers i :: answers n' (i + 1)
    end.

Definition vendor_buffer : list Z :=
    write_at 8 (bytes_of_int (at_ (registers 0) 2))
      (write_at 4 (bytes_of_int (at_ (registers 0) 3))
         (write_at 0 (bytes_of_int (at_ (registers 0) 1)) (repeat 0 0x20))).

Definition brand_buffer : list Z :=
    write_at 32 (flat_map bytes_of_int (registers 0x80000004))
      (write_at 16 (flat_map bytes_of_int (registers 0x80000003))
         (write_at 0 (flat_map bytes_of_int (registers 0x80000002))
            (repeat 0 0x40))).

Definition closed_form : InstructionSet_Internal :=
    let nIds := max_standard hw in
    let nEx := max_extended hw in
    let vendor := std_string vendor_buffer in
    {| nIds_ := nIds;
       nExIds_ := nEx;
       vendor_ := vendor;
       brand_ := if wrap32 nEx >=? 0x80000004
                 then std_string brand_buffer else EmptyString;
       isIntel_ := (vendor =? "GenuineIntel")%string;
       isAMD_ := negb (vendor =? "GenuineIntel")%string
                 && (vendor =? "AuthenticAMD")%string;
       f_1_ECX_ := if nIds >=? 1 then wrap32 (at_ (registers 1) 2) else 0;
       f_1_EDX_ := if nIds >=? 1 then wrap32 (at_ (registers 1) 3) else 0;
       f_7_EBX_ := if nIds >=? 7 then wrap32 (at_ (registers 7) 1) else 0;
       f_7_ECX_ := if nIds >=? 7 then wrap32 (at_ (registers 7) 2) else 0;
       f_81_ECX_ := if wrap32 nEx >=? 0x80000001
                    then wrap32 (at_ (registers 0x80000001) 2) else 0;
       f_81_EDX_ := if wrap32 nEx >=? 0x80000001
                    then wrap32 (at_ (registers 0x80000001) 3) else 0;
       data_ := answers (Z.to_nat (nIds - 0 + 1)) 0;
       extdata_ := answers (Z.to_nat (nEx - INT_MIN + 1)) INT_MIN |}.
End WithProcessor.
End Rep.

(** ** Test processors

    Each has the vector capacity of the 32-bit build. *)

(** A recent Intel processor: maximum standard selector 0x16, AVX and
    AVX2 present and enabled by the operating system. *)
Definition genuine_intel : Processor :=
  mkProcessor
    (fun selector _ =>
       if selector =? 0 then mkQuad 0x16 0x756e6547 0x6c65746e 0x49656e69
       else if selector =? 1 then mkQuad 0x000906ea 0 0x1e000201 0x06000000
       else if selector =? 7 then mkQuad 0 0x00000830 0 0
       else if selector =? 0x80000000 then mkQuad 0x80000004 0 0 0
       else if selector =? 0x80000001 then mkQuad 0 0 0x00000021 0x28000800
       else if selector =? 0x80000002 then mkQuad 0x65746e49 0x2952286c 0 0
       else mkQuad 0 0 0 0)
    (fun _ => 7)
    0x0fffffff.

(** An AMD processor with the vendor-specific bits of selector
    0x80000001 set. *)
Definition authentic_amd : Processor :=
  mkProcessor
    (fun selector _ =>
       if selector =? 0 then mkQuad 0x0d 0x68747541 0x444d4163 0x69746e65
       else if selector =? 1 then mkQuad 0 0 0x00000001 0x06000000
       else if selector =? 7 then mkQuad 0 0x00000810 0 0
       else if selector =? 0x80000000 then mkQuad 0x80000008 0 0 0
       else if selector =? 0x80000001 then mkQuad 0 0 0x00200860 0xc0400000
       else mkQuad 0 0 0 0)
    (fun _ => 7)
    0x0fffffff.

(** A stub that reports 1 as its maximum standard selector, AVX as
    present and enabled, and answers selector 7 all the same. *)
Definition max1_with_avx : Processor :=
  mkProcessor
    (fun selector _ =>
       if selector =? 0 then mkQuad 1 0 0 0
       else if selector =? 1 then mkQuad 0 0 0x1c000000 0
       else if selector =? 7 then mkQuad 0 0x00010020 0 0
       else mkQuad 0 0 0 0)
    (fun _ => 6)
    0x0fffffff.

(** A stub that answers 0 as its maximum extended selector, and has the
    long-mode bit set in what it answers for selector 0x80000001. *)
Definition zero_extended_maximum : Processor :=
  mkProcessor
    (fun selector _ =>
       if selector =? 0 then mkQuad 1 0 0 0
       else if selector =? 0x80000001 then mkQuad 0 0 0 0x20000000
       else mkQuad 0 0 0 0)
    (fun _ => 0)
    0x0fffffff.

(** A stub whose selector-0 register A is 0, every feature bit set. *)
Definition max0 : Processor :=
  mkProcessor
    (fun selector _ =>
       if selector =? 0 then mkQuad 0 0 0 0
       else mkQuad 0xffffffff 0xffffffff 0xffffffff 0xffffffff)
    (fun _ => 7)
    0x0fffffff.

(** A processor with VMX (bit 5 of register C, selector 1) but
    without AES (bit 25). *)
Definition vmx_without_aes : Processor :=
  mkProcessor
    (fun selector _ =>
       if selector =? 0 then mkQuad 0x16 0x756e6547 0x6c65746e 0x49656e69
       else if selector =? 1 then mkQuad 0 0 0x00000020 0
       else if selector =? 0x80000000 then mkQuad 0x80000000 0 0 0
       else mkQuad 0 0 0 0)
    (fun _ => 0)
    0x0fffffff.

(** What an uninitialised [CPUFeatures] on the stack may hold: a debug
    build of Visual C++ fills the frame with bytes 0xCC. *)
Definition stack_garbage : CrossPlatform.CPUFeatures :=
  let g := to_int 0xcccccccc in
  CrossPlatform.mkCPUFeatures g g g g g g g g g g g.

Definition stack_zero : CrossPlatform.CPUFeatures :=
  CrossPlatform.mkCPUFeatures 0 0 0 0 0 0 0 0 0 0 0.

(** * The front ends *)

(** ** Wide strings and output *)

(** A [wchar_t] string: its characters before the terminating NUL. *)
Definition wstring : Type := list Z.

(** A string literal, wide or a narrow one inserted into a wide stream,
    which widens each character. *)
Definition wide (s : string) : wstring :=
  map (fun c => Z.of_N (N_of_ascii c)) (list_ascii_of_string s).

(** The double quote character. *)
Definition dquote : wstring := [34].

(** Where a line is written: [std::wcout], or another stream the caller
    passed. *)
Inductive sink : Type :=
| Wcout
| Stream (n : nat).

(** One [stream << ... << std::endl;] statement. *)
Definition line : Type := (sink * wstring)%type.

Definition written_to (s : sink) (l : line) : bool :=
  match fst l, s with
  | Wcout, Wcout => true
  | Stream n, Stream m => Nat.eqb n m
  | _, _ => false
  end.

(** ** The client of the dynamic library (in src/unnamed/part_001) *)

Module CpuidClient.
Section WithLibrary.
Variable hw : Processor.
Variable st : CpuidDll.Statics.

(** [return cpuid(...);] in a function returning [bool]: the [int] is
    converted, non-zero to [true]. *)
Definition to_bool (m : M Z) : M bool := v <- m ;; ret (negb (v =? 0)).

Definition SupportLongMode : M bool :=
  to_bool (CpuidDll.cpuid hw st (to_int 0x80000001) 3 29).
Definition SupportSSE : M bool := to_bool (CpuidDll.cpuid hw st 1 3 25).
Definition SupportSSE2 : M bool := to_bool (CpuidDll.cpuid hw st 1 3 26).
Definition SupportSSE3 : M bool := to_bool (CpuidDll.cpuid hw st 1 2 0).
Definition SupportSSSE3 : M bool := to_bool (CpuidDll.cpuid hw st 1 2 9).
Definition SupportSSE41 : M bool := to_bool (CpuidDll.cpuid hw st 1 2 19).
Definition SupportSSE42 : M bool := to_bool (CpuidDll.cpuid hw st 1 2 20).
Definition SupportAVX : M bool := to_bool (CpuidDll.cpuid hw st 1 2 28).
Definition SupportAVX2 : M bool := to_bool (CpuidDll.cpuid hw st 7 1 5).
Definition SupportAVX512 : M bool := to_bool (CpuidDll.cpuid hw st 7 1 16).
Definition SupportAES : M bool := to_bool (CpuidDll.cpuid hw st 1 2 25).
End WithLibrary.
End CpuidClient.

(** ** The installer custom action (CPUFeaturesCustomAction.cpp)

    Its [CheckFeature] is the library's.  [MsiSetProperty] belongs to the
    installer; its result is discarded by every entry point. *)

Module CustomAction.

Definition ERROR_SUCCESS : Z := 0.
Definition ERROR_INSTALL_FAILURE : Z := 1603.

Section WithInstaller.
Variable hw : Processor.
Variable Session : Type.
Variable MsiSetProperty : Session -> wstring -> wstring -> Z * Session.

(** The body shared by all entry points:
    [if (CheckFeature(f, r, b)) { MsiSetProperty(hInstall, name, one);
    return ERROR_SUCCESS; } else return ERROR_INSTALL_FAILURE;], where
    [one] is the wide string of the digit 1. *)
Definition entry_point (functionId registerNumber bitNumber : Z)
    (name : wstring) (hInstall : Session) : M (Z * Session) :=
  ok <- Library.CheckFeature hw functionId registerNumber bitNumber ;;
  if ok then
    let '(_, hInstall) := MsiSetProperty hInstall name (wide "1") in
    ret (ERROR_SUCCESS, hInstall)
  else ret (ERROR_INSTALL_FAILURE, hInstall).

Definition SupportSSE := entry_point 1 3 25 (wide "CPUFEATURE_SSE").
Definition SupportSSE2 := entry_point 1 3 26 (wide "CPUFEATURE_SSE2").
Definition SupportSSE3 := entry_point 1 2 0 (wide "CPUFEATURE_SSE3").
Definition SupportSSSE3 := entry_point 1 2 9 (wide "CPUFEATURE_SSSE3").
Definition SupportSSE41 := entry_point 1 2 19 (wide "CPUFEATURE_SSE41").
Definition SupportSSE42 := entry_point 1 2 20 (wide "CPUFEATURE_SSE42").
Definition SupportAVX := entry_point 1 2 28 (wide "CPUFEATURE_AVX").
Definition SupportAVX2 := entry_point 7 1 5 (wide "CPUFEATURE_AVX2").
Definition SupportAVX512 := entry_point 7 1 16 (wide "CPUFEATURE_AVX512").
Definition SupportAES := entry_point 1 2 25 (wide "CPUFEATURE_AES").
Definition SupportRDRND := entry_point 1 2 30 (wide "CPUFEATURE_RDRND").
End WithInstaller.
End CustomAction.

(** ** Printing in the default mode (the cross-platform decoder) *)

Module DefaultMode.
Import CrossPlatform.

Definition _print_feature_support (stream : sink) (feature_name : wstring)
    (is_supported print_if_supported print_if_unsupported print_xml : bool)
  : list line :=
  if (is_supported && print_if_supported)
     || (negb is_supported && print_if_unsupported)
  then
    if print_xml then
      [(stream,
        wide "<feature name=" ++ dquote ++ feature_name ++ dquote
        ++ wide " supported=" ++ dquote
        ++ (if is_supported then wide "true" else wide "false")
        ++ dquote ++ wide "/>")]
    else if print_if_supported && print_if_unsupported then
      [(stream,
        feature_name
        ++ (if is_supported then wide " supported" else wide " not supported"))]
    else [(stream, feature_name)]
  else [].

(** The [int] fields convert to the [bool] parameter.  Every call names
    [std::wcout]; the parameter [stream] is not used. *)
Definition _print_cpu_features (stream : sink) (cpu_features : CPUFeatures)
    (print_supported print_unsupported print_xml : bool) : list line :=
  let yes v := negb (v =? 0) in
  _print_feature_support Wcout (wide "NEON") (yes (has_neon cpu_features)) print_supported print_unsupported print_xml
  ++ _print_feature_support Wcout (wide "SSE2") (yes (has_sse2 cpu_features)) print_supported print_unsupported print_xml
  ++ _print_feature_support Wcout (wide "SSE3") (yes (has_sse3 cpu_features)) print_supported print_unsupported print_xml
  ++ _print_feature_support Wcout (wide "SSSE3") (yes (has_ssse3 cpu_features)) print_supported print_unsupported print_xml
  ++ _print_feature_support Wcout (wide "SSE4.1") (yes (has_sse41 cpu_features)) print_supported print_unsupported print_xml
  ++ _print_feature_support Wcout (wide "AVX") (yes (has_avx cpu_features)) print_supported print_unsupported print_xml
  ++ _print_feature_support Wcout (wide "AVX2") (yes (has_avx2 cpu_features)) print_supported print_unsupported print_xml
  ++ _print_feature_support Wcout (wide "AVX512F") (yes (has_avx512f cpu_features)) print_supported print_unsupported print_xml
  ++ _print_feature_support Wcout (wide "PCLMUL") (yes (has_pclmul cpu_features)) print_supported print_unsupported print_xml
  ++ _print_feature_support Wcout (wide "AES-NI") (yes (has_aesni cpu_features)) print_supported print_unsupported print_xml
  ++ _print_feature_support Wcout (wide "RDRAND") (yes (has_rdrand cpu_features)) print_supported print_unsupported print_xml.

Section WithProcessor.
Variable cfg : Config.
Variable hw : Processor.

(** [stack] is what the uninitialised local [cpu_features] holds. *)
Definition print_cpu_features (stream : sink) (stack : CPUFeatures)
    (print_supported print_unsupported print_xml : bool) : M (list line) :=
  '(_, cpu_features) <- _get_cpu_features cfg hw stack ;;
  ret ((if print_xml
        then [(stream, wide "<cpu>"); (stream, wide "<features>")] else [])
       ++ _print_cpu_features Wcout cpu_features
            print_supported print_unsupported print_xml
       ++ (if print_xml
           then [(stream, wide "</features>"); (stream, wide "</cpu>")]
           else [])).
End WithProcessor.
End DefaultMode.

(** ** Printing in the AVX mode (AVXFeatures.cpp) *)

Module AvxMode.
Import AvxOnly.

Definition _print_feature_support (stream : sink) (feature_name : wstring)
    (is_supported print_if_supported print_if_unsupported print_xml : bool)
  : list line :=
  if (is_supported && print_if_supported)
     || (negb is_supported && print_if_unsupported)
  then
    if print_xml then
      [(stream,
        wide "<feature name=" ++ dquote ++ feature_name ++ dquote
        ++ wide " supported=" ++ dquote
        ++ (if is_supported then wide "true" else wide "false")
        ++ dquote ++ wide "/>")]
    else
      [(stream,
        feature_name
        ++ (if is_supported then wide " supported" else wide " not supported"))]
  else [].

(** Every call names [std::wcout]; the parameter [stream] is not used. *)
Definition _print_avx_features (stream : sink) (features : AVXFeatures)
    (print_supported print_unsupported print_xml : bool) : list line :=
  _print_feature_support Wcout (wide "AVX") (avx features) print_supported print_unsupported print_xml
  ++ _print_feature_support Wcout (wide "AVX2") (avx2 features) print_supported print_unsupported print_xml
  ++ _print_feature_support Wcout (wide "AVX-512 (F)") (avx512f features) print_supported print_unsupported print_xml
  ++ _print_feature_support Wcout (wide "AVX-512 CD") (avx512cd features) print_supported print_unsupported print_xml
  ++ _print_feature_support Wcout (wide "AVX-512 ER") (avx512er features) print_supported print_unsupported print_xml
  ++ _print_feature_support Wcout (wide "AVX-512 PF") (avx512pf features) print_supported print_unsupported print_xml
  ++ _print_feature_support Wcout (wide "AVX-512 VL") (avx512vl features) print_supported print_unsupported print_xml
  ++ _print_feature_support Wcout (wide "AVX-512 BW") (avx512bw features) print_supported print_unsupported print_xml
  ++ _print_feature_support Wcout (wide "AVX-512 DQ") (avx512dq features) print_supported print_unsupported print_xml
  ++ _print_feature_support Wcout (wide "AVX-512 IFMA") (avx512ifma features) print_supported print_unsupported print_xml
  ++ _print_feature_support Wcout (wide "AVX-512 VBMI") (avx512vbmi features) print_supported print_unsupported print_xml
  ++ _print_feature_support Wcout (wide "AVX-512 VNNI") (avx512vnni features) print_supported print_unsupported print_xml
  ++ _print_feature_support Wcout (wide "AVX-512 VBMI2") (avx512vbmi2 features) print_supported print_unsupported print_xml
  ++ _print_feature_support Wcout (wide "AVX-512 POPCNTDQ") (avx512popcntdq features) print_supported print_unsupported print_xml
  ++ _print_feature_support Wcout (wide "AVX-512 BITALG") (avx512bitalg features) print_supported print_unsupported print_xml
  ++ _print_feature_support Wcout (wide "AVX-512 4VNNIW") (avx5124vnniw features) print_supported print_unsupported print_xml
  ++ _print_feature_support Wcout (wide "AVX-512 4FMAPS") (avx5124fmaps features) print_supported print_unsupported print_xml.

Section WithProcessor.
Variable hw : Processor.

Definition print_avx_features (stream : sink)
    (print_supported print_unsupported print_xml : bool) : M (list line) :=
  features <- _get_avx_features hw ;;
  ret ((if print_xml
        then [(stream, wide "<cpu>"); (stream, wide "<features>")] else [])
       ++ _print_avx_features Wcout features
            print_supported print_unsupported print_xml
       ++ (if print_xml
           then [(stream, wide "</features>"); (stream, wide "</cpu>")]
           else [])).
End WithProcessor.
End AvxMode.

(** ** Printing in the Microsoft mode (class InstructionSet) *)

Module MicrosoftMode.
Import InstructionSet.

Section WithRep.
Variable CPU_Rep : InstructionSet_Internal.

(** The lambda [support_message], which captures [stream]. *)
Definition support_message (stream : sink) (feature_name : wstring)
    (is_supported print_if_supported print_if_unsupported print_xml : bool)
  : list line :=
  if (is_supported && print_if_supported)
     || (negb is_supported && print_if_unsupported)
  then
    if print_xml then
      [(stream,
        wide "<feature name=" ++ dquote ++ feature_name ++ dquote
        ++ wide " supported=" ++ dquote
        ++ (if is_supported then wide "true" else wide "false")
        ++ dquote ++ wide "/>")]
    else
      [(stream,
        feature_name
        ++ (if is_supported then wide " supported" else wide " not supported"))]
  else [].

(** The features in the order they are printed, with their getters. *)
Definition table : list (string * bool) :=
  [ ("3DNOW", _3DNOW CPU_Rep); ("3DNOWEXT", _3DNOWEXT CPU_Rep);
    ("ABM", ABM CPU_Rep); ("ADX", ADX CPU_Rep); ("AES", AES CPU_Rep);
    ("AVX", AVX CPU_Rep); ("AVX2", AVX2 CPU_Rep);
    ("AVX512CD", AVX512CD CPU_Rep); ("AVX512ER", AVX512ER CPU_Rep);
    ("AVX512F", AVX512F CPU_Rep); ("AVX512PF", AVX512PF CPU_Rep);
    ("BMI1", BMI1 CPU_Rep); ("BMI2", BMI2 CPU_Rep);
    ("CLFSH", CLFSH CPU_Rep); ("CMPXCHG16B", CMPXCHG16B CPU_Rep);
    ("CX8", CX8 CPU_Rep); ("ERMS", ERMS CPU_Rep); ("F16C", F16C CPU_Rep);
    ("FMA", FMA CPU_Rep); ("FSGSBASE", FSGSBASE CPU_Rep);
    ("FXSR", FXSR CPU_Rep); ("HLE", HLE CPU_Rep);
    ("INVPCID", INVPCID CPU_Rep); ("LAHF", LAHF CPU_Rep);
    ("LZCNT", LZCNT CPU_Rep); ("MMX", MMX CPU_Rep);
    ("MMXEXT", MMXEXT CPU_Rep); ("MONITOR", MONITOR CPU_Rep);
    ("VMX", VMX CPU_Rep); ("MOVBE", MOVBE CPU_Rep); ("MSR", MSR CPU_Rep);
    ("OSXSAVE", OSXSAVE CPU_Rep); ("PCLMULQDQ", PCLMULQDQ CPU_Rep);
    ("POPCNT", POPCNT CPU_Rep); ("PREFETCHWT1", PREFETCHWT1 CPU_Rep);
    ("RDRAND", RDRAND CPU_Rep); ("RDSEED", RDSEED CPU_Rep);
    ("RDTSCP", RDTSCP CPU_Rep); ("RTM", RTM CPU_Rep); ("SEP", SEP CPU_Rep);
    ("SHA", SHA CPU_Rep); ("SSE", SSE CPU_Rep); ("SSE2", SSE2 CPU_Rep);
    ("SSE3", SSE3 CPU_Rep); ("SSE4.1", SSE41 CPU_Rep);
    ("SSE4.2", SSE42 CPU_Rep); ("SSE4a", SSE4a CPU_Rep);
    ("SSSE3", SSSE3 CPU_Rep); ("SYSCALL", SYSCALL CPU_Rep);
    ("TBM", TBM CPU_Rep); ("XOP", XOP CPU_Rep); ("XSAVE", XSAVE CPU_Rep) ]%string.

(** One [support_message] call per entry, in order. *)
Definition _print_cpu_features (stream : sink)
    (print_supported print_unsupported print_xml : bool) : list line :=
  flat_map
    (fun entry =>
       support_message stream (wide (fst entry)) (snd entry)
         print_supported print_unsupported print_xml)
    table.

Definition print_cpu_features_microsoft (stream : sink)
    (print_supported print_unsupported print_xml : bool) : list line :=
  (if print_xml then
     [ (stream, wide "<cpu>");
       (stream, wide "<information>");
       (stream, wide "<vendor>" ++ wide (Vendor CPU_Rep) ++ wide "</vendor>");
       (stream, wide "<brand>" ++ wide (Brand CPU_Rep) ++ wide "</brand>");
       (stream, wide "<64bit>"
                ++ (if LongMode CPU_Rep then wide "true" else wide "false")
                ++ wide "</64bit>");
       (stream, wide "</information>");
       (stream, wide "<features>") ]
   else
     [ (stream, wide "[" ++ wide (Vendor CPU_Rep) ++ wide ", "
                ++ wide (Brand CPU_Rep) ++ wide ", "
                ++ (if LongMode CPU_Rep then wide "64-bit" else wide "32-bit")
                ++ wide "]") ])
  ++ _print_cpu_features stream print_supported print_unsupported print_xml
  ++ (if print_xml
      then [(stream, wide "</features>"); (stream, wide "</cpu>")]
      else []).
End WithRep.
End MicrosoftMode.

(** ** The command line (wmain) *)

Module Main.

Definition EXIT_SUCCESS : Z := 0.

(** The C runtime's [towlower] for the C locale, which the program never
    changes: only the letters A to Z change. *)
Definition towlower (c : Z) : Z :=
  if (65 <=? c) && (c <=? 90) then c + 32 else c.

(** The C runtime's [_wcsicmp]: the difference of the first pair of
    lower-cased characters that differ, 0 when there is none. *)
Fixpoint _wcsicmp (a b : wstring) : Z :=
  match a, b with
  | [], [] => 0
  | [], y :: _ => 0 - towlower y
  | x :: _, [] => towlower x - 0
  | x :: a', y :: b' =>
      if towlower x =? towlower y then _wcsicmp a' b'
      else towlower x - towlower y
  end.

(** The C runtime's [wcsrchr]: the string from the last occurrence of
    [c] on. *)
Fixpoint wcsrchr (s : wstring) (c : Z) : option wstring :=
  match s with
  | [] => None
  | x :: rest =>
      match wcsrchr rest c with
      | Some found => Some found
      | None => if x =? c then Some s else None
      end
  end.

(** [arg[k]]: past the last character stands the terminating NUL. *)
Definition char_at (arg : wstring) (k : nat) : Z := nth k arg 0.

Definition is_option (arg : wstring) : bool :=
  ((char_at arg 0 =? 45) || (char_at arg 0 =? 47))
  && negb (char_at arg 1 =? 0).

(** [option_name] may be [nullptr].  [&arg[1]] is the argument without
    its first character. *)
Definition match_option_name (arg : wstring) (option_name : option wstring)
  : bool :=
  match option_name with
  | None => false
  | Some name => _wcsicmp (tl arg) name =? 0
  end.

Definition match_option (arg : wstring)
    (option_full option_short option_alternative : option wstring) : bool :=
  is_option arg
  && (match_option_name arg option_full
      || match_option_name arg option_short
      || match_option_name arg option_alternative).

Inductive Method : Type := Default | Microsoft | AVX.

(** The option parsing of [wmain]: the method and the three flags that
    reach the printer. *)
Definition options (argv : list wstring) : Method * bool * bool * bool :=
  let argc := List.length argv in
  let argv_ k := nth k argv [] in
  let '(method, print_supported, print_unsupported, print_xml) :=
    if Nat.ltb 1 argc then
      let argi := 1%nat in
      let '(method, argi) :=
        if match_option (argv_ argi) (Some (wide "microsoft"))
             (Some (wide "m")) (Some (wide "ms"))
        then (Microsoft, S argi)
        else if match_option (argv_ argi) (Some (wide "avx"))
                  (Some (wide "a")) None
        then (AVX, S argi)
        else (Default, argi) in
      let '(print_supported, argi) :=
        if Nat.ltb argi argc
           && match_option (argv_ argi) (Some (wide "supported"))
                (Some (wide "s")) None
        then (true, S argi) else (false, argi) in
      let '(print_unsupported, argi) :=
        if Nat.ltb argi argc
           && match_option (argv_ argi) (Some (wide "unsupported"))
                (Some (wide "u")) None
        then (true, S argi) else (false, argi) in
      let print_xml :=
        Nat.ltb argi argc
        && match_option (argv_ argi) (Some (wide "xml"))
             (Some (wide "x")) None in
      (method, print_supported, print_unsupported, print_xml)
    else (Default, false, false, false) in
  if negb print_supported && negb print_unsupported
  then (method, true, true, print_xml)
  else (method, print_supported, print_unsupported, print_xml).

Section WithProcessor.
Variable cfg : CrossPlatform.Config.
Variable hw : Processor.
(** The static [InstructionSet::CPU_Rep], constructed before [wmain]. *)
Variable CPU_Rep : InstructionSet.InstructionSet_Internal.
(** The macro of Version.h. *)
Variable VERSION_STRING : wstring.

Definition usage (exeName : wstring) : list line :=
  map (fun text => (Wcout, text))
    [ [];
      exeName ++ wide " version " ++ VERSION_STRING;
      [];
      wide "Application for checking which CPU features (extended instruction sets) the";
      wide "processor it runs on support. Can run different functions: Default is to use";
      wide "a cross-platform method showing only the most important features. By specifying";
      wide "command line argument -microsoft (-m or -ms) it will use a Microsoft-specific";
      wide "variant instead, which reports a more complete set of features. Then there is";
      wide "a special variant for showing complete set of AVX features (but nothing else),";
      wide "triggered with argument -avx (-a). This is also a Microsoft-specific variant.";
      wide "By default all known features are listed and marked as supported or unsupported";
      wide "but can instead list only the supported or unsupported by specifying either";
      wide "argument -supported (-s) or -unsupported (-u). Optionally the result can be";
      wide "presented as XML instead of the default human readable format, by specifying";
      wide "argument -xml (-x). This can be useful when called from for example PowerShell.";
      wide "has suffix 32 or 64 according to platform architecture, and debug builds have";
      wide "additional suffix d.";
      [];
      wide "Usage:";
      wide "  CPUFeatures[32|64][d] [-help|-h|-?]";
      wide "  CPUFeatures[32|64][d] [[-microsoft|-ms|-m]|[-avx|-a]] [[-supported|-s]|[-unsupported|-u]] [-xml|-x]" ].

(** [stack] is what the uninitialised local of [print_cpu_features]
    holds. *)
Definition wmain (argv : list wstring) (stack : CrossPlatform.CPUFeatures)
  : M (Z * list line) :=
  let argc := List.length argv in
  if Nat.ltb 1 argc
     && match_option (nth 1 argv []) (Some (wide "help")) (Some (wide "h"))
          (Some (wide "?"))
  then
    let exeName :=
      match wcsrchr (nth 0 argv []) 92 with
      | Some found => tl found
      | None => nth 0 argv []
      end in
    ret (EXIT_SUCCESS, usage exeName)
  else
    let '(method, print_supported, print_unsupported, print_xml) :=
      options argv in
    out <-
      match method with
      | Microsoft =>
          ret (MicrosoftMode.print_cpu_features_microsoft CPU_Rep Wcout
                 print_supported print_unsupported print_xml)
      | AVX =>
          AvxMode.print_avx_features hw Wcout
            print_supported print_unsupported print_xml
      | Default =>
          DefaultMode.print_cpu_features cfg hw Wcout stack
            print_supported print_unsupported print_xml
      end ;;
    ret (EXIT_SUCCESS, out).
End WithProcessor.

(** The program.  The static member [InstructionSet::CPU_Rep] is
    constructed before [wmain] is entered, whatever the arguments; a fault
    or an exception in its constructor ends the program there. *)
Definition program (cfg : CrossPlatform.Config) (hw : Processor)
    (VERSION_STRING : wstring) (argv : list wstring)
    (stack : CrossPlatform.CPUFeatures) : M (Z * list line) :=
  CPU_Rep <- InstructionSet.CPU_Rep hw ;;
  wmain cfg hw CPU_Rep VERSION_STRING argv stack.
End Main.

(** ** Vocabulary for the front ends *)

(** Register [k] of a result, in the order of the [cpu_info] array. *)
Definition register (q : RegisterQuad) (k : Z) : Z :=
  if k =? 0 then EAX q
  else if k =? 1 then EBX q
  else if k =? 2 then ECX q
  else EDX q.

(** The range test of [CheckFeature] and of the dynamic library, on the
    maxima the processor reports. *)
Definition selector_in_range (hw : Processor) (f : Z) : bool :=
  ((0 <? f) && (f <=? max_standard hw))
  || ((f <? 0) && (f <=? max_extended hw)).

(** The bit a feature query is about, when its selector is in range. *)
Definition feature_bit (hw : Processor) (f r b : Z) : bool :=
  selector_in_range hw f
  && Z.testbit (register (cpuid_insn hw (wrap32 f) 0) r) b.

(** The statics of the dynamic library once it has been loaded. *)
Definition attached (hw : Processor) : CpuidDll.Statics :=
  CpuidDll.mkStatics (max_standard hw) (max_extended hw).

(** The queries a loop of [n] passes makes, the counter starting at [i]. *)
Definition asked (n : nat) (i : Z) : list event :=
  map (fun k => Cpuid (wrap32 (i + Z.of_nat k)) 0) (seq 0 n).

(** The command line as the usage text lays it out: after the program
    name an optional method, then an optional supported flag, then an
    optional unsupported flag, then an optional XML flag.  Each is
    recognised in its place only, and what follows the first argument
    that is not the next one expected is ignored. *)
Definition accept (p : wstring -> bool) (args : list wstring)
  : bool * list wstring :=
  match args with
  | x :: rest => if p x then (true, rest) else (false, args)
  | [] => (false, [])
  end.

Definition options_in_order (argv : list wstring)
  : Main.Method * bool * bool * bool :=
  let args := tl argv in
  let '(method, args) :=
    match args with
    | x :: rest =>
        if Main.match_option x (Some (wide "microsoft")) (Some (wide "m"))
             (Some (wide "ms"))
        then (Main.Microsoft, rest)
        else if Main.match_option x (Some (wide "avx")) (Some (wide "a")) None
        then (Main.AVX, rest)
        else (Main.Default, args)
    | [] => (Main.Default, [])
    end in
  let '(supported, args) :=
    accept (fun x => Main.match_option x (Some (wide "supported"))
                       (Some (wide "s")) None) args in
  let '(unsupported, args) :=
    accept (fun x => Main.match_option x (Some (wide "unsupported"))
                       (Some (wide "u")) None) args in
  let '(xml, _) :=
    accept (fun x => Main.match_option x (Some (wide "xml"))
                       (Some (wide "x")) None) args in
  if negb supported && negb unsupported
  then (method, true, true, xml)
  else (method, supported, unsupported, xml).


(** A processor whose vendor string has three characters, QVM. *)
Definition short_vendor : Processor :=
  mkProcessor
    (fun selector _ =>
       if selector =? 0 then mkQuad 1 0x004d5651 0 0
       else if selector =? 0x80000000 then mkQuad 0x80000000 0 0 0
       else mkQuad 0 0 0 0)
    (fun _ => 0)
    0x0fffffff.

(** A processor whose maximum standard selector has the top bit set. *)
Definition negative_maximum : Processor :=
  mkProcessor
    (fun selector _ =>
       if selector =? 0 then mkQuad 0x80000001 0 0 0
       else mkQuad 0 0 0xffffffff 0xffffffff)
    (fun _ => 0)
    0x0fffffff.

(** * Properties *)

(** ** Bits of machine integers *)

Lemma wrap32_range v : 0 <= wrap32 v < 2 ^ 32.
Proof. unfold wrap32. apply Z.mod_pos_bound. lia. Qed.

Lemma wrap32_idem v : wrap32 (wrap32 v) = wrap32 v.
Proof. unfold wrap32. apply Z.mod_mod. lia. Qed.

Lemma wrap32_to_int v : wrap32 (to_int v) = wrap32 v.
Proof.
  unfold to_int. destruct (wrap32 v <? 2 ^ 31).
  - apply wrap32_idem.
  - unfold wrap32.
    replace (v mod 2 ^ 32 - 2 ^ 32) with (v mod 2 ^ 32 + (-1) * 2 ^ 32) by lia.
    rewrite Z_mod_plus_full. apply Z.mod_mod. lia.
Qed.

Lemma to_int_range v : INT_MIN <= to_int v <= INT_MAX.
Proof.
  unfold to_int, INT_MIN, INT_MAX. pose proof (wrap32_range v).
  destruct (wrap32 v <? 2 ^ 31) eqn:E.
  - apply Z.ltb_lt in E. lia.
  - apply Z.ltb_ge in E. lia.
Qed.

Lemma testbit_wrap32 v k : 0 <= k < 32 -> Z.testbit (wrap32 v) k = Z.testbit v k.
Proof. intros. unfold wrap32. apply Z.mod_pow2_bits_low. lia. Qed.

Lemma testbit_to_int v k : 0 <= k < 32 -> Z.testbit (to_int v) k = Z.testbit v k.
Proof.
  intros. rewrite <- (testbit_wrap32 (to_int v)) by assumption.
  rewrite wrap32_to_int. apply testbit_wrap32. assumption.
Qed.

(** Masking with a single bit selects that bit. *)
Lemma land_pow2 x k :
  0 <= k -> Z.land x (2 ^ k) = if Z.testbit x k then 2 ^ k else 0.
Proof.
  intros Hk. apply Z.bits_inj'. intros n Hn.
  rewrite Z.land_spec, Z.pow2_bits_eqb by assumption.
  destruct (Z.eqb_spec k n) as [->|Hne].
  - destruct (Z.testbit x n); simpl.
    + rewrite Z.pow2_bits_eqb, Z.eqb_refl by assumption. reflexivity.
    + symmetry. apply Z.bits_0.
  - rewrite andb_false_r.
    destruct (Z.testbit x k).
    + rewrite Z.pow2_bits_eqb by assumption.
      symmetry. apply Z.eqb_neq. assumption.
    + symmetry. apply Z.bits_0.
Qed.

Lemma land_pow2_nonzero x k :
  0 <= k -> negb (Z.land x (2 ^ k) =? 0) = Z.testbit x k.
Proof.
  intros Hk. rewrite land_pow2 by assumption.
  assert (0 < 2 ^ k) by (apply Z.pow_pos_nonneg; lia).
  destruct (Z.testbit x k).
  - destruct (Z.eqb_spec (2 ^ k) 0); [lia | reflexivity].
  - reflexivity.
Qed.

Lemma land_pow2_full x k :
  0 <= k -> (Z.land x (2 ^ k) =? 2 ^ k) = Z.testbit x k.
Proof.
  intros Hk. rewrite land_pow2 by assumption.
  assert (0 < 2 ^ k) by (apply Z.pow_pos_nonneg; lia).
  destruct (Z.testbit x k).
  - apply Z.eqb_refl.
  - apply Z.eqb_neq. lia.
Qed.

(** A mask made of two parts is covered exactly when both parts are. *)
Lemma land_lor_full x a b :
  (Z.land x (Z.lor a b) =? Z.lor a b)
  = (Z.land x a =? a) && (Z.land x b =? b).
Proof.
  apply eq_true_iff_eq. rewrite andb_true_iff, !Z.eqb_eq. split.
  - intros H. split; apply Z.bits_inj'; intros n _;
      apply (f_equal (fun z => Z.testbit z n)) in H;
      rewrite Z.land_spec, Z.lor_spec in H; rewrite Z.land_spec;
      destruct (Z.testbit x n), (Z.testbit a n), (Z.testbit b n);
      simpl in *; congruence.
  - intros [Ha Hb]. apply Z.bits_inj'. intros n _.
    apply (f_equal (fun z => Z.testbit z n)) in Ha.
    apply (f_equal (fun z => Z.testbit z n)) in Hb.
    rewrite Z.land_spec in Ha, Hb. rewrite Z.land_spec, Z.lor_spec.
    destruct (Z.testbit x n), (Z.testbit a n), (Z.testbit b n);
      simpl in *; congruence.
Qed.

(** [bit_set] on the [int] a register was stored in reads the
    register's bit. *)
Lemma bit_set_to_int v k :
  0 <= k < 31 -> bit_set (to_int v) k = Z.testbit v k.
Proof.
  intros Hk. unfold bit_set.
  assert (E : to_int (Z.shiftl 1 k) = 2 ^ k).
  { rewrite Z.shiftl_1_l. unfold to_int, wrap32.
    assert (2 ^ k < 2 ^ 31) by (apply Z.pow_lt_mono_r; lia).
    assert (0 < 2 ^ k) by (apply Z.pow_pos_nonneg; lia).
    rewrite Z.mod_small by lia.
    destruct (Z.ltb_spec (2 ^ k) (2 ^ 31)); [reflexivity | lia]. }
  rewrite E, land_pow2_nonzero by lia. apply testbit_to_int. lia.
Qed.

(** ** Running computations *)

Lemma result_bind_inr {A B} (m : M A) (f : A -> M B) a :
  result m = inr a -> result (bind m f) = result (f a).
Proof.
  unfold result, bind. destruct m as [[e|a'] t]; simpl; intros H.
  - discriminate.
  - injection H as ->. destruct (f a); reflexivity.
Qed.

Lemma result_bind_inl {A B} (m : M A) (f : A -> M B) e :
  result m = inl e -> result (bind m f) = inl e.
Proof.
  unfold result, bind. destruct m as [[e'|a] t]; simpl; intros H.
  - injection H as ->. reflexivity.
  - discriminate.
Qed.

Lemma bind_ret_l {A B} (a : A) (f : A -> M B) : bind (ret a) f = f a.
Proof. unfold bind, ret. destruct (f a). reflexivity. Qed.

(** ** The single-feature library and the dynamic library *)

#[local] Arguments Z.testbit : simpl never.
#[local] Arguments Z.land : simpl never.
#[local] Arguments Z.lor : simpl never.
#[local] Arguments index : simpl never.
#[local] Arguments bit_set : simpl never.

Lemma index_0 a0 a1 a2 a3 : index [a0; a1; a2; a3] 0 = ret a0.
Proof. reflexivity. Qed.

Lemma index_1 a0 a1 a2 a3 : index [a0; a1; a2; a3] 1 = ret a1.
Proof. reflexivity. Qed.

Lemma index_2 a0 a1 a2 a3 : index [a0; a1; a2; a3] 2 = ret a2.
Proof. reflexivity. Qed.

Lemma index_3 a0 a1 a2 a3 : index [a0; a1; a2; a3] 3 = ret a3.
Proof. reflexivity. Qed.

Create Rewrite HintDb registers.
#[local] Hint Rewrite index_0 index_1 index_2 index_3 : registers.

Lemma index_in_bounds a0 a1 a2 a3 k :
  0 <= k < 4 -> exists v, index [a0; a1; a2; a3] k = ret v.
Proof.
  intros Hk.
  assert (E : k = 0 \/ k = 1 \/ k = 2 \/ k = 3) by lia.
  destruct E as [-> | [-> | [-> | ->]]]; eexists; reflexivity.
Qed.

Lemma shl1_no_out_of_bounds n : result (shl1 n) <> inl OutOfBounds.
Proof.
  unfold shl1. destruct ((0 <=? n) && (n <? 32)); cbn; discriminate.
Qed.

(** Once the register index is known to be below 4, the remainder of
    [cpuid]/[cpuidex] cannot index outside the four registers. *)
Lemma read_bit_no_out_of_bounds (m : M (list Z)) a0 a1 a2 a3 t r b :
  m = (inr [a0; a1; a2; a3], t) -> 0 <= r < 4 ->
  result (cpu_info <- m ;;
          v <- index cpu_info r ;;
          s <- shl1 b ;;
          ret (Z.land v s)) <> inl OutOfBounds.
Proof.
  intros -> Hr. destruct (index_in_bounds a0 a1 a2 a3 r Hr) as [v Hv].
  cbn [bind]. rewrite Hv. cbn [bind ret].
  pose proof (shl1_no_out_of_bounds b) as Hs.
  destruct (shl1 b) as [[e|s] ts]; cbn in *; congruence.
Qed.

Lemma read_bit_returns (m : M (list Z)) a0 a1 a2 a3 t r b :
  m = (inr [a0; a1; a2; a3], t) -> 0 <= r < 4 -> 0 <= b < 32 ->
  exists v,
    result (cpu_info <- m ;;
            v <- index cpu_info r ;;
            s <- shl1 b ;;
            ret (Z.land v s)) = inr v.
Proof.
  intros -> Hr Hb. destruct (index_in_bounds a0 a1 a2 a3 r Hr) as [v Hv].
  cbn [bind]. rewrite Hv. cbn [bind ret]. unfold shl1.
  destruct (Z.leb_spec 0 b); [|lia]. destruct (Z.ltb_spec b 32); [|lia].
  cbn. eexists. reflexivity.
Qed.

(** Loading the library caches the two maxima, as [int]s. *)
Lemma DllMain_caches_maxima hw st :
  CpuidDll.DllMain hw CpuidDll.DLL_PROCESS_ATTACH st
  = (inr (CpuidDll.TRUE,
          CpuidDll.mkStatics (max_standard hw) (max_extended hw)),
     [Cpuid 0 0; Cpuid 0x80000000 0]).
Proof. reflexivity. Qed.

(** C9.  Through the dynamic library's [cpuid] and [cpuidex], and through
    the library's [CheckFeature], function selector 0 is never queried for
    a feature bit: the range guards require a strictly positive (or a
    negative) selector, so for every register number and bit number the
    answer is 0 (false) and no instruction is executed. *)
Theorem cpuid_selector_zero_reads_nothing hw st sub r b :
  CpuidDll.cpuid hw st 0 r b = (inr 0, [])
  /\ CpuidDll.cpuidex hw st 0 sub r b = (inr 0, [])
  /\ Library.CheckFeature hw 0 r b = (inr false, []).
Proof. repeat split. Qed.

(** C10.  For every function selector and every byte-valued register
    number, [cpuid] and [cpuidex] never index outside the four result
    registers, and return a value whenever the bit number is one [int] can
    be shifted by; when the register number is 4 or more they return 0
    without executing the identification instruction. *)
Theorem cpuid_register_index_checked hw st f sub r b :
  0 <= r < 256 ->
  result (CpuidDll.cpuid hw st f r b) <> inl OutOfBounds
  /\ result (CpuidDll.cpuidex hw st f sub r b) <> inl OutOfBounds
  /\ (0 <= b < 32 ->
      (exists v, result (CpuidDll.cpuid hw st f r b) = inr v)
      /\ (exists v, result (CpuidDll.cpuidex hw st f sub r b) = inr v))
  /\ (4 <= r ->
      CpuidDll.cpuid hw st f r b = (inr 0, [])
      /\ CpuidDll.cpuidex hw st f sub r b = (inr 0, [])).
Proof.
  intros Hr. unfold CpuidDll.cpuid, CpuidDll.cpuidex.
  destruct (((f >? 0) && (f <=? CpuidDll.max_function_id st))
            || ((f <? 0) && (f <=? CpuidDll.max_extended_function_id st))).
  - destruct (Z.ltb_spec r 4) as [Hlt|Hge].
    + split; [|split; [|split]].
      * eapply read_bit_no_out_of_bounds; [reflexivity | lia].
      * eapply read_bit_no_out_of_bounds; [reflexivity | lia].
      * intros Hb. split; eapply read_bit_returns; (reflexivity || lia).
      * lia.
    + repeat split; cbn; (discriminate || (eexists; reflexivity)).
  - destruct (r <? 4); repeat split; cbn;
      (discriminate || (eexists; reflexivity)).
Qed.

Lemma cpuid_register_index_checked_witness :
  0 <= 4 < 256
  /\ 4 <= 4
  /\ CpuidDll.cpuid genuine_intel (CpuidDll.mkStatics 0x16 (to_int 0x80000004))
       7 4 5 = (inr 0, []).
Proof.
  split; [lia|]. split; [lia|].
  apply (cpuid_register_index_checked genuine_intel
           (CpuidDll.mkStatics 0x16 (to_int 0x80000004)) 7 0 4 5); lia.
Defined.

(** C4.  [SupportVMX] is the same computation as [SupportAES]: both test
    bit 25 of register C of selector 1 (after checking the maximum
    selector), although the comment on [SupportVMX] names bit 5. *)
Theorem SupportVMX_reads_the_AES_bit hw :
  Library.SupportVMX hw = Library.SupportAES hw
  /\ Library.SupportVMX hw
     = if 1 <=? max_standard hw
       then (inr (Z.testbit (ECX (cpuid_insn hw 1 0)) 25),
             [Cpuid 0 0; Cpuid 1 0])
       else (inr false, [Cpuid 0 0]).
Proof.
  split; [reflexivity|].
  unfold Library.SupportVMX, Library.CheckFeature, max_standard. cbn.
  destruct (1 <=? to_int (EAX (cpuid_insn hw 0 0))); [|reflexivity].
  cbn. autorewrite with registers. cbn. change 33554432 with (2 ^ 25).
  rewrite land_pow2_nonzero, testbit_to_int by lia. reflexivity.
Qed.

(** On a processor with VMX but without AES the library answers that VMX
    is absent, while the Microsoft-specific decoder, which reads bit 5,
    reports it. *)
Example SupportVMX_misses_VMX :
  result (Library.SupportVMX vmx_without_aes) = inr false
  /\ exists rep, result (InstructionSet.CPU_Rep vmx_without_aes) = inr rep
                 /\ InstructionSet.VMX rep = true.
Proof.
  split; [reflexivity|]. eexists. split; [vm_compute; reflexivity|reflexivity].
Qed.

(** ** The cross-platform decoder *)

Section CrossPlatformRun.
Import CrossPlatform Summary.
Variable cfg : Config.
Variable hw : Processor.

  (** Past the guard on selector 0 the decoder succeeds, and computes the
      closed form. *)
Lemma intel_cpu_features_run stack :
    cpuid_available cfg = true ->
    wrap32 (EAX (cpuid_insn hw 0 0)) <> 0 ->
    _intel_cpu_features cfg hw stack
    = (inr (0, decoded cfg hw stack), executed cfg hw).
Proof.
    intros Hc Hid. apply Z.eqb_neq in Hid.
    unfold _intel_cpu_features, _cpuid, decoded, executed,
      avx512f_usable, avx2_usable, avx_usable, avx_and_xsave_reported,
      xcr0, ebx7, ecx1, edx1.
    rewrite Hc. cbn. rewrite Hid. cbn.
    destruct (HAVE_WMMINTRIN_H cfg).
    all: destruct (HAVE_AVXINTRIN_H cfg); cbn.
    all: try (destruct (Z.land _ (Z.lor (Z.lor CPUID_ECX_AVX _) _) =? _); cbn).
    all: try (destruct (xgetbv_available cfg); cbn).
    all: try (destruct (Z.land _ (Z.lor XCR0_SSE _) =? _); cbn).
    all: destruct (HAVE_AVX2INTRIN_H cfg); cbn.
    all: try (destruct (negb (Z.land _ CPUID_EBX_AVX2 =? 0)); cbn).
    all: destruct (HAVE_AVX512FINTRIN_H cfg); cbn; reflexivity.
Qed.

  (** At the guard the decoder stops: it returns -1 and leaves the
      structure as it found it. *)
Lemma intel_cpu_features_guard stack :
    negb (cpuid_available cfg) || (wrap32 (EAX (cpuid_insn hw 0 0)) =? 0) = true ->
    _intel_cpu_features cfg hw stack
    = (inr (-1, stack), if cpuid_available cfg then [Cpuid 0 0] else []).
Proof.
    intros H. unfold _intel_cpu_features, _cpuid.
    destruct (cpuid_available cfg); cbn in *.
    - rewrite H. reflexivity.
    - reflexivity.
Qed.

  (** A run that returned status 0 went past the guard. *)
Lemma intel_cpu_features_status_0 stack f :
    result (_intel_cpu_features cfg hw stack) = inr (0, f) ->
    f = decoded cfg hw stack
    /\ trace (_intel_cpu_features cfg hw stack) = executed cfg hw.
Proof.
    intros H.
    destruct (negb (cpuid_available cfg)
              || (wrap32 (EAX (cpuid_insn hw 0 0)) =? 0)) eqn:G.
    - rewrite intel_cpu_features_guard in H by assumption. discriminate.
    - apply orb_false_iff in G. destruct G as [Gc Gi].
      apply negb_false_iff in Gc. apply Z.eqb_neq in Gi.
      rewrite intel_cpu_features_run in * by assumption.
      cbn in *. split; congruence.
Qed.

Lemma is_flag_b2i b : is_flag (b2i b) = true.
Proof. destruct b; reflexivity. Qed.

Lemma all_flags_decoded stack : all_flags (decoded cfg hw stack) = true.
Proof.
    unfold all_flags, decoded. cbn [forallb has_sse2 has_sse3 has_ssse3
      has_sse41 has_avx has_avx2 has_avx512f has_pclmul has_aesni has_rdrand].
    destruct (HAVE_EMMINTRIN_H cfg), (HAVE_PMMINTRIN_H cfg),
      (HAVE_TMMINTRIN_H cfg), (HAVE_SMMINTRIN_H cfg),
      (HAVE_WMMINTRIN_H cfg), (HAVE_RDRAND cfg);
      rewrite ?is_flag_b2i; reflexivity.
Qed.
End CrossPlatformRun.

(** The two mask comparisons of the AVX check, bit by bit. *)
Lemma avx_and_xsave_reported_bits hw :
  Summary.avx_and_xsave_reported hw
  = Z.testbit (ECX (cpuid_insn hw 1 0)) 28
    && Z.testbit (ECX (cpuid_insn hw 1 0)) 26
    && Z.testbit (ECX (cpuid_insn hw 1 0)) 27.
Proof.
  unfold Summary.avx_and_xsave_reported, Summary.ecx1.
  rewrite !land_lor_full.
  change CrossPlatform.CPUID_ECX_AVX with (2 ^ 28).
  change CrossPlatform.CPUID_ECX_XSAVE with (2 ^ 26).
  change CrossPlatform.CPUID_ECX_OSXSAVE with (2 ^ 27).
  rewrite !land_pow2_full, !testbit_wrap32 by lia. reflexivity.
Qed.

Lemma xcr0_enabled_bits cfg hw :
  CrossPlatform.xgetbv_available cfg = true ->
  (Z.land (Summary.xcr0 cfg hw)
     (Z.lor CrossPlatform.XCR0_SSE CrossPlatform.XCR0_AVX)
   =? Z.lor CrossPlatform.XCR0_SSE CrossPlatform.XCR0_AVX)
  = Z.testbit (xgetbv_insn hw 0) 1 && Z.testbit (xgetbv_insn hw 0) 2.
Proof.
  intros Hx. unfold Summary.xcr0. rewrite Hx, land_lor_full.
  change CrossPlatform.XCR0_SSE with (2 ^ 1).
  change CrossPlatform.XCR0_AVX with (2 ^ 2).
  rewrite !land_pow2_full, !testbit_wrap32 by lia.
  rewrite !Z.mod_pow2_bits_low by lia. reflexivity.
Qed.

Lemma b2i_1 b : b2i b = 1 <-> b = true.
Proof. destruct b; cbn; split; (reflexivity || discriminate). Qed.

Lemma b2i_0 b : b2i b = 0 <-> b = false.
Proof. destruct b; cbn; split; (reflexivity || discriminate). Qed.

(** [xgetbv] is executed exactly when the AVX check is compiled in, the
    three bits of selector 1 are reported, and the build can execute it. *)
Lemma xgetbv_executed cfg hw :
  In (Xgetbv 0) (Summary.executed cfg hw)
  <-> CrossPlatform.HAVE_AVXINTRIN_H cfg && Summary.avx_and_xsave_reported hw
      && CrossPlatform.xgetbv_available cfg = true.
Proof.
  unfold Summary.executed.
  destruct (CrossPlatform.HAVE_AVXINTRIN_H cfg
            && Summary.avx_and_xsave_reported hw
            && CrossPlatform.xgetbv_available cfg).
  - split; [reflexivity|]. intros _. cbn. right. right. left. reflexivity.
  - split; [|discriminate]. intros H.
    destruct (CrossPlatform.HAVE_AVX2INTRIN_H cfg && Summary.avx_usable cfg hw),
      (CrossPlatform.HAVE_AVX512FINTRIN_H cfg && Summary.avx2_usable cfg hw);
      cbn in H; intuition discriminate.
Qed.

(** C2.  For a build with the AVX check and [xgetbv] compiled in, the
    [has_avx] result of a successful run of the cross-platform decoder is
    1 if and only if bits 28 (AVX), 26 (XSAVE) and 27 (OSXSAVE) of register
    C of selector 1 are all set and the extended control register has both
    bit 1 (SSE state) and bit 2 (AVX state) set; otherwise it is 0.  In
    particular it is 0 whenever the AVX bit is clear, and 0 whenever the
    OSXSAVE bit or one of the two state bits is clear; and the extended
    control register is read only when the three bits of selector 1 are
    set. *)
Theorem has_avx_iff_hardware_and_os cfg hw stack f :
  CrossPlatform.HAVE_AVXINTRIN_H cfg = true ->
  CrossPlatform.xgetbv_available cfg = true ->
  result (CrossPlatform._intel_cpu_features cfg hw stack) = inr (0, f) ->
  let c := ECX (cpuid_insn hw 1 0) in
  let x := xgetbv_insn hw 0 in
  (CrossPlatform.has_avx f = 1 <->
     Z.testbit c 28 = true /\ Z.testbit c 26 = true /\ Z.testbit c 27 = true
     /\ Z.testbit x 1 = true /\ Z.testbit x 2 = true)
  /\ CrossPlatform.has_avx f
     = b2i (Z.testbit c 28 && Z.testbit c 26 && Z.testbit c 27
            && Z.testbit x 1 && Z.testbit x 2)
  /\ (Z.testbit c 28 = false -> CrossPlatform.has_avx f = 0)
  /\ (Z.testbit c 27 = false \/ Z.testbit x 1 = false \/ Z.testbit x 2 = false ->
      CrossPlatform.has_avx f = 0)
  /\ (In (Xgetbv 0) (trace (CrossPlatform._intel_cpu_features cfg hw stack))
      <-> Z.testbit c 28 = true /\ Z.testbit c 26 = true
          /\ Z.testbit c 27 = true).
Proof.
  intros Ha Hx H c x.
  apply intel_cpu_features_status_0 in H. destruct H as [-> Ht].
  assert (E : CrossPlatform.has_avx (Summary.decoded cfg hw stack)
              = b2i (Z.testbit c 28 && Z.testbit c 26 && Z.testbit c 27
                     && Z.testbit x 1 && Z.testbit x 2)).
  { cbn. unfold Summary.avx_usable.
    rewrite Ha, avx_and_xsave_reported_bits, xcr0_enabled_bits by assumption.
    cbn. rewrite !andb_assoc. reflexivity. }
  rewrite E. split; [|split; [reflexivity|split; [|split]]].
  - rewrite b2i_1, !andb_true_iff. tauto.
  - intros ->. reflexivity.
  - intros [-> | [-> | ->]]; rewrite ?andb_false_r; reflexivity.
  - rewrite Ht, xgetbv_executed, Ha, Hx, avx_and_xsave_reported_bits.
    cbn [andb]. rewrite andb_true_r, !andb_true_iff. fold c. tauto.
Qed.

Lemma has_avx_iff_hardware_and_os_witness :
  CrossPlatform.HAVE_AVXINTRIN_H CrossPlatform.msvc = true
  /\ CrossPlatform.xgetbv_available CrossPlatform.msvc = true
  /\ exists f,
       result (CrossPlatform._intel_cpu_features CrossPlatform.msvc
                 genuine_intel stack_garbage) = inr (0, f)
       /\ CrossPlatform.has_avx f = 1.
Proof.
  split; [reflexivity|]. split; [reflexivity|].
  eexists. split; [vm_compute; reflexivity|].
  pose proof (has_avx_iff_hardware_and_os CrossPlatform.msvc genuine_intel
                stack_garbage _ eq_refl eq_refl eq_refl) as T.
  destruct T as [T _]. apply T. repeat split.
Defined.

(** Selector 7 is queried exactly when the AVX2 block is compiled in and
    AVX was found usable. *)
Lemma selector_7_executed cfg hw :
  (exists sub, In (Cpuid 7 sub) (Summary.executed cfg hw))
  <-> CrossPlatform.HAVE_AVX2INTRIN_H cfg && Summary.avx_usable cfg hw = true.
Proof.
  unfold Summary.executed, Summary.avx2_usable.
  destruct (CrossPlatform.HAVE_AVX2INTRIN_H cfg && Summary.avx_usable cfg hw).
  - split; [reflexivity|]. intros _. exists 0.
    apply in_or_app. right. apply in_or_app. right. left. reflexivity.
  - cbn [andb]. rewrite andb_false_r.
    split; [|discriminate]. intros [sub H].
    destruct (CrossPlatform.HAVE_AVXINTRIN_H cfg
              && Summary.avx_and_xsave_reported hw
              && CrossPlatform.xgetbv_available cfg);
      cbn in H; intuition discriminate.
Qed.

(** C3.  In a successful run of the cross-platform decoder, whenever
    [has_avx] is 0 the decoder reports AVX2 as 0 and AVX-512F as 0 and does
    not query selector 7 at all, whatever the processor would answer
    there. *)
Theorem avx2_and_avx512f_gated_on_avx cfg hw stack f :
  result (CrossPlatform._intel_cpu_features cfg hw stack) = inr (0, f) ->
  CrossPlatform.has_avx f = 0 ->
  CrossPlatform.has_avx2 f = 0
  /\ CrossPlatform.has_avx512f f = 0
  /\ ~ queried (CrossPlatform._intel_cpu_features cfg hw stack) 7.
Proof.
  intros H Havx. apply intel_cpu_features_status_0 in H.
  destruct H as [-> Ht]. cbn in Havx. apply b2i_0 in Havx.
  assert (E2 : Summary.avx2_usable cfg hw = false).
  { unfold Summary.avx2_usable. rewrite Havx, andb_false_r. reflexivity. }
  split; [|split].
  - cbn. rewrite E2. reflexivity.
  - cbn. unfold Summary.avx512f_usable. rewrite E2, andb_false_r. reflexivity.
  - unfold queried. rewrite Ht, selector_7_executed, Havx, andb_false_r.
    discriminate.
Qed.

Lemma avx2_and_avx512f_gated_on_avx_witness :
  exists f,
    result (CrossPlatform._intel_cpu_features CrossPlatform.msvc
              vmx_without_aes stack_garbage) = inr (0, f)
    /\ CrossPlatform.has_avx f = 0
    /\ CrossPlatform.has_avx2 f = 0.
Proof.
  eexists. split; [vm_compute; reflexivity|]. split; [reflexivity|].
  apply (avx2_and_avx512f_gated_on_avx CrossPlatform.msvc vmx_without_aes
           stack_garbage _ eq_refl eq_refl).
Defined.

Lemma mask_bit x k :
  0 <= k < 32 -> negb (Z.land (wrap32 x) (2 ^ k) =? 0) = Z.testbit x k.
Proof.
  intros Hk. rewrite land_pow2_nonzero by lia. apply testbit_wrap32. lia.
Qed.

(** The check of the extended control register, for any build: without
    [xgetbv] the register is taken to be 0. *)
Lemma xcr0_enabled cfg hw :
  (Z.land (Summary.xcr0 cfg hw)
     (Z.lor CrossPlatform.XCR0_SSE CrossPlatform.XCR0_AVX)
   =? Z.lor CrossPlatform.XCR0_SSE CrossPlatform.XCR0_AVX)
  = CrossPlatform.xgetbv_available cfg
    && Z.testbit (xgetbv_insn hw 0) 1 && Z.testbit (xgetbv_insn hw 0) 2.
Proof.
  destruct (CrossPlatform.xgetbv_available cfg) eqn:Hx.
  - rewrite xcr0_enabled_bits by exact Hx. reflexivity.
  - unfold Summary.xcr0. rewrite Hx. reflexivity.
Qed.

(** What the decoder computes past its guard, bit by bit. *)
Lemma decoded_fields cfg hw stack :
  let c := ECX (cpuid_insn hw 1 0) in
  let d := EDX (cpuid_insn hw 1 0) in
  let b := EBX (cpuid_insn hw 7 0) in
  let x := xgetbv_insn hw 0 in
  let f := Summary.decoded cfg hw stack in
  CrossPlatform.has_sse2 f
  = b2i (CrossPlatform.HAVE_EMMINTRIN_H cfg && Z.testbit d 26)
  /\ CrossPlatform.has_sse3 f
     = b2i (CrossPlatform.HAVE_PMMINTRIN_H cfg && Z.testbit c 0)
  /\ CrossPlatform.has_ssse3 f
     = b2i (CrossPlatform.HAVE_TMMINTRIN_H cfg && Z.testbit c 9)
  /\ CrossPlatform.has_sse41 f
     = b2i (CrossPlatform.HAVE_SMMINTRIN_H cfg && Z.testbit c 19)
  /\ CrossPlatform.has_pclmul f
     = b2i (CrossPlatform.HAVE_WMMINTRIN_H cfg && Z.testbit c 1)
  /\ CrossPlatform.has_aesni f
     = b2i (CrossPlatform.HAVE_WMMINTRIN_H cfg && Z.testbit c 25)
  /\ CrossPlatform.has_rdrand f
     = b2i (CrossPlatform.HAVE_RDRAND cfg && Z.testbit c 30)
  /\ CrossPlatform.has_avx f
     = b2i (CrossPlatform.HAVE_AVXINTRIN_H cfg
            && (Z.testbit c 28 && Z.testbit c 26 && Z.testbit c 27)
            && (CrossPlatform.xgetbv_available cfg
                && Z.testbit x 1 && Z.testbit x 2))
  /\ CrossPlatform.has_avx2 f
     = b2i (CrossPlatform.HAVE_AVX2INTRIN_H cfg
            && (CrossPlatform.has_avx f =? 1) && Z.testbit b 5)
  /\ CrossPlatform.has_avx512f f
     = b2i (CrossPlatform.HAVE_AVX512FINTRIN_H cfg
            && (CrossPlatform.has_avx2 f =? 1) && Z.testbit b 16)
  /\ CrossPlatform.has_neon f = CrossPlatform.has_neon stack.
Proof.
  intros c d b x f. subst f.
  assert (B : forall v : bool, (b2i v =? 1) = v) by (intros []; reflexivity).
  cbn [CrossPlatform.has_sse2 CrossPlatform.has_sse3 CrossPlatform.has_ssse3
       CrossPlatform.has_sse41 CrossPlatform.has_pclmul
       CrossPlatform.has_aesni CrossPlatform.has_rdrand
       CrossPlatform.has_avx CrossPlatform.has_avx2
       CrossPlatform.has_avx512f CrossPlatform.has_neon Summary.decoded].
  rewrite !B.
  unfold Summary.avx512f_usable, Summary.avx2_usable, Summary.avx_usable,
    Summary.ebx7, Summary.ecx1, Summary.edx1.
  rewrite avx_and_xsave_reported_bits, xcr0_enabled.
  change CrossPlatform.CPUID_EDX_SSE2 with (2 ^ 26).
  change CrossPlatform.CPUID_ECX_SSE3 with (2 ^ 0).
  change CrossPlatform.CPUID_ECX_SSSE3 with (2 ^ 9).
  change CrossPlatform.CPUID_ECX_SSE41 with (2 ^ 19).
  change CrossPlatform.CPUID_ECX_PCLMUL with (2 ^ 1).
  change CrossPlatform.CPUID_ECX_AESNI with (2 ^ 25).
  change CrossPlatform.CPUID_ECX_RDRAND with (2 ^ 30).
  change CrossPlatform.CPUID_EBX_AVX2 with (2 ^ 5).
  change CrossPlatform.CPUID_EBX_AVX512F with (2 ^ 16).
  rewrite !mask_bit by lia. fold c d b x.
  destruct (CrossPlatform.HAVE_EMMINTRIN_H cfg),
    (CrossPlatform.HAVE_PMMINTRIN_H cfg), (CrossPlatform.HAVE_TMMINTRIN_H cfg),
    (CrossPlatform.HAVE_SMMINTRIN_H cfg), (CrossPlatform.HAVE_WMMINTRIN_H cfg),
    (CrossPlatform.HAVE_RDRAND cfg); repeat split.
Qed.

(** C5 (counterexample).  When the selector-0 query reports 0 in register
    A the decoder returns the status -1 without writing any field, and
    [print_cpu_features] then reports whatever the uninitialised structure
    held: here every x86 feature as supported. *)
Lemma selector_0_zero_is_an_error_state :
  CrossPlatform._intel_cpu_features CrossPlatform.msvc max0 stack_garbage
  = (inr (-1, stack_garbage), [Cpuid 0 0])
  /\ result (CrossPlatform._get_cpu_features CrossPlatform.msvc max0
               stack_garbage)
     = inr (-1, CrossPlatform.set_has_neon 0 stack_garbage)
  /\ result (CrossPlatform.print_cpu_features CrossPlatform.msvc max0
               stack_garbage)
     = inr [ ("NEON", false); ("SSE2", true); ("SSE3", true);
             ("SSSE3", true); ("SSE4.1", true); ("AVX", true);
             ("AVX2", true); ("AVX512F", true); ("PCLMUL", true);
             ("AES-NI", true); ("RDRAND", true) ]%string.
Proof. repeat split. Qed.

(** C5 (as amended).  The cross-platform decoder always returns.  When
    the selector-0 query reports a non-zero register A it returns status 0
    and every x86 feature field holds 0 or 1, a feature it could not
    confirm being 0: a field is 1 exactly when the header macro of its
    block is defined and the bit of the feature is set (bit 26 of register
    D of selector 1 for SSE2; bits 0, 9, 19, 1, 25, 30 of register C for
    SSE3, SSSE3, SSE4.1, PCLMUL, AES-NI, RDRAND); for AVX, when moreover
    the XSAVE and OSXSAVE bits are set, [xgetbv] can be executed and the
    extended control register has bits 1 and 2 set; for AVX2, when AVX was
    confirmed and bit 5 of register B of selector 7 is set; for AVX-512F,
    when AVX2 was confirmed and bit 16 is set.  When the selector-0 query
    reports 0 in register A (or the build cannot issue cpuid) it returns
    the distinct status -1 after at most that one query, without writing
    any feature field. *)
Theorem decoder_status_and_flags cfg hw stack :
  let c := ECX (cpuid_insn hw 1 0) in
  let d := EDX (cpuid_insn hw 1 0) in
  let b := EBX (cpuid_insn hw 7 0) in
  let x := xgetbv_insn hw 0 in
  if negb (CrossPlatform.cpuid_available cfg)
     || (wrap32 (EAX (cpuid_insn hw 0 0)) =? 0)
  then
    CrossPlatform._intel_cpu_features cfg hw stack
    = (inr (-1, stack),
       if CrossPlatform.cpuid_available cfg then [Cpuid 0 0] else [])
  else
    exists f,
      result (CrossPlatform._intel_cpu_features cfg hw stack) = inr (0, f)
      /\ Summary.all_flags f = true
      /\ CrossPlatform.has_sse2 f
         = b2i (CrossPlatform.HAVE_EMMINTRIN_H cfg && Z.testbit d 26)
      /\ CrossPlatform.has_sse3 f
         = b2i (CrossPlatform.HAVE_PMMINTRIN_H cfg && Z.testbit c 0)
      /\ CrossPlatform.has_ssse3 f
         = b2i (CrossPlatform.HAVE_TMMINTRIN_H cfg && Z.testbit c 9)
      /\ CrossPlatform.has_sse41 f
         = b2i (CrossPlatform.HAVE_SMMINTRIN_H cfg && Z.testbit c 19)
      /\ CrossPlatform.has_pclmul f
         = b2i (CrossPlatform.HAVE_WMMINTRIN_H cfg && Z.testbit c 1)
      /\ CrossPlatform.has_aesni f
         = b2i (CrossPlatform.HAVE_WMMINTRIN_H cfg && Z.testbit c 25)
      /\ CrossPlatform.has_rdrand f
         = b2i (CrossPlatform.HAVE_RDRAND cfg && Z.testbit c 30)
      /\ CrossPlatform.has_avx f
         = b2i (CrossPlatform.HAVE_AVXINTRIN_H cfg
                && (Z.testbit c 28 && Z.testbit c 26 && Z.testbit c 27)
                && (CrossPlatform.xgetbv_available cfg
                    && Z.testbit x 1 && Z.testbit x 2))
      /\ CrossPlatform.has_avx2 f
         = b2i (CrossPlatform.HAVE_AVX2INTRIN_H cfg
                && (CrossPlatform.has_avx f =? 1) && Z.testbit b 5)
      /\ CrossPlatform.has_avx512f f
         = b2i (CrossPlatform.HAVE_AVX512FINTRIN_H cfg
                && (CrossPlatform.has_avx2 f =? 1) && Z.testbit b 16)
      /\ CrossPlatform.has_neon f = CrossPlatform.has_neon stack.
Proof.
  intros c d b x.
  destruct (negb (CrossPlatform.cpuid_available cfg)
            || (wrap32 (EAX (cpuid_insn hw 0 0)) =? 0)) eqn:G.
  - apply intel_cpu_features_guard. assumption.
  - apply orb_false_iff in G. destruct G as [Gc Gi].
    apply negb_false_iff in Gc. apply Z.eqb_neq in Gi.
    rewrite intel_cpu_features_run by assumption.
    exists (Summary.decoded cfg hw stack).
    split; [reflexivity|]. split; [apply all_flags_decoded|].
    apply decoded_fields.
Qed.

(** ** Selectors beyond the reported maximum *)

Lemma CheckFeature_beyond_standard hw f r b :
  0 < f -> max_standard hw < f ->
  Library.CheckFeature hw f r b = (inr false, [Cpuid 0 0]).
Proof.
  intros Hpos Hmax. unfold Library.CheckFeature, max_standard in *.
  destruct (Z.gtb_spec f 0); [|lia]. cbn.
  destruct (Z.leb_spec f (to_int (EAX (cpuid_insn hw 0 0)))); [lia|].
  reflexivity.
Qed.

Lemma CheckFeature_beyond_extended hw f r b :
  f < 0 -> max_extended hw < f ->
  Library.CheckFeature hw f r b = (inr false, [Cpuid 0x80000000 0]).
Proof.
  intros Hneg Hmax. unfold Library.CheckFeature, max_extended in *.
  destruct (Z.gtb_spec f 0); [lia|].
  destruct (Z.ltb_spec f 0); [|lia]. cbn.
  destruct (Z.leb_spec f (to_int (EAX (cpuid_insn hw 2147483648 0)))); [lia|].
  reflexivity.
Qed.

(** The AVX-only decoder on a processor whose maximum is below 7: the
    sixteen flags of selector 7 keep their initial value, false, and
    selector 7 is not queried. *)
Lemma get_avx_features_below_7 hw :
  max_standard hw < 7 ->
  AvxOnly._get_avx_features hw
  = (inr {| AvxOnly.avx := (1 <=? max_standard hw)
                           && Z.testbit (ECX (cpuid_insn hw 1 0)) 28;
            AvxOnly.avx2 := false; AvxOnly.avx512f := false;
            AvxOnly.avx512pf := false; AvxOnly.avx512er := false;
            AvxOnly.avx512cd := false; AvxOnly.avx512bw := false;
            AvxOnly.avx512dq := false; AvxOnly.avx512vl := false;
            AvxOnly.avx512ifma := false; AvxOnly.avx512vbmi := false;
            AvxOnly.avx512vnni := false; AvxOnly.avx512vbmi2 := false;
            AvxOnly.avx512popcntdq := false; AvxOnly.avx512bitalg := false;
            AvxOnly.avx5124vnniw := false; AvxOnly.avx5124fmaps := false |},
     Cpuid 0 0 :: (if 1 <=? max_standard hw then [Cpuid 1 0] else [])).
Proof.
  intros Hmax. unfold AvxOnly._get_avx_features, max_standard in *.
  cbn.
  destruct (Z.geb_spec (to_int (EAX (cpuid_insn hw 0 0))) 1);
    destruct (Z.leb_spec 1 (to_int (EAX (cpuid_insn hw 0 0)))); try lia.
  - cbn.
    destruct (Z.geb_spec (to_int (EAX (cpuid_insn hw 0 0))) 7); [lia|]. cbn.
    rewrite bit_set_to_int by lia. reflexivity.
  - reflexivity.
Qed.

(** C1 (counterexample).  The stub reports 1 as its maximum standard
    selector, yet the cross-platform decoder queries selector 7 and
    reports AVX2 from the answer. *)
Lemma selector_7_queried_beyond_maximum :
  wrap32 (EAX (cpuid_insn max1_with_avx 0 0)) < 7
  /\ queried (CrossPlatform._intel_cpu_features CrossPlatform.msvc
                max1_with_avx stack_zero) 7
  /\ exists f,
       result (CrossPlatform._intel_cpu_features CrossPlatform.msvc
                 max1_with_avx stack_zero) = inr (0, f)
       /\ CrossPlatform.has_avx2 f = 1.
Proof.
  split; [reflexivity|]. split.
  - exists 0. vm_compute. intuition.
  - eexists. split; vm_compute; reflexivity.
Qed.

(** C1 (as amended).  Through [CheckFeature] a feature whose selector
    exceeds the maximum reported for its range (both taken as [int]s, as
    the code compares them) is reported false, and the only instruction
    executed is the query for that maximum.  In the AVX-only decoder, when
    the reported maximum is below 7 each of the sixteen flags of selector
    7 is false and selector 7 is not queried: the decoder executes the
    query for the maximum and, when the maximum is at least 1, selector 1
    for the AVX flag; when the maximum is below 1 every flag is false and
    the query for the maximum is the only instruction.  In particular when
    register A of selector 0 is below 7, AVX2 and AVX-512 are reported
    false and selector 7 is not queried.  The cross-platform decoder does
    not compare selector 7 with the reported maximum: a successful run
    queries selector 7 exactly when the AVX2 block is compiled in and AVX
    was found usable, and reports AVX2 and AVX-512F as 0 when it does not
    query it. *)
Theorem beyond_maximum_not_queried hw :
  (forall f r b, 0 < f -> max_standard hw < f ->
     Library.CheckFeature hw f r b = (inr false, [Cpuid 0 0]))
  /\ (forall f r b, f < 0 -> max_extended hw < f ->
     Library.CheckFeature hw f r b = (inr false, [Cpuid 0x80000000 0]))
  /\ (max_standard hw < 7 ->
      Library.SupportAVX2 hw = (inr false, [Cpuid 0 0])
      /\ Library.SupportAVX512 hw = (inr false, [Cpuid 0 0])
      /\ AvxOnly._get_avx_features hw
         = (inr {| AvxOnly.avx := (1 <=? max_standard hw)
                                  && Z.testbit (ECX (cpuid_insn hw 1 0)) 28;
                   AvxOnly.avx2 := false; AvxOnly.avx512f := false;
                   AvxOnly.avx512pf := false; AvxOnly.avx512er := false;
                   AvxOnly.avx512cd := false; AvxOnly.avx512bw := false;
                   AvxOnly.avx512dq := false; AvxOnly.avx512vl := false;
                   AvxOnly.avx512ifma := false; AvxOnly.avx512vbmi := false;
                   AvxOnly.avx512vnni := false; AvxOnly.avx512vbmi2 := false;
                   AvxOnly.avx512popcntdq := false;
                   AvxOnly.avx512bitalg := false;
                   AvxOnly.avx5124vnniw := false;
                   AvxOnly.avx5124fmaps := false |},
            Cpuid 0 0 :: (if 1 <=? max_standard hw then [Cpuid 1 0] else []))
      /\ ~ queried (AvxOnly._get_avx_features hw) 7)
  /\ (max_standard hw < 1 ->
      Library.SupportAVX hw = (inr false, [Cpuid 0 0])
      /\ AvxOnly._get_avx_features hw = (inr AvxOnly.default, [Cpuid 0 0]))
  /\ (forall cfg stack f,
        result (CrossPlatform._intel_cpu_features cfg hw stack) = inr (0, f) ->
        (queried (CrossPlatform._intel_cpu_features cfg hw stack) 7
         <-> CrossPlatform.HAVE_AVX2INTRIN_H cfg = true
             /\ CrossPlatform.has_avx f = 1)
        /\ (~ queried (CrossPlatform._intel_cpu_features cfg hw stack) 7 ->
            CrossPlatform.has_avx2 f = 0 /\ CrossPlatform.has_avx512f f = 0)).
Proof.
  split; [|split; [|split; [|split]]].
  - intros. apply CheckFeature_beyond_standard; assumption.
  - intros. apply CheckFeature_beyond_extended; assumption.
  - intros Hmax. split; [|split; [|split]].
    + apply CheckFeature_beyond_standard; lia.
    + apply CheckFeature_beyond_standard; lia.
    + apply get_avx_features_below_7. assumption.
    + unfold queried. rewrite get_avx_features_below_7 by assumption.
      cbn [trace snd]. intros [sub Hq].
      destruct (1 <=? max_standard hw); cbn [In] in Hq;
        intuition discriminate.
  - intros Hmax. split.
    + apply CheckFeature_beyond_standard; lia.
    + rewrite get_avx_features_below_7 by lia.
      destruct (Z.leb_spec 1 (max_standard hw)); [lia|]. reflexivity.
  - intros cfg stack f H. apply intel_cpu_features_status_0 in H.
    destruct H as [-> Ht]. unfold queried. rewrite Ht, selector_7_executed.
    cbn [CrossPlatform.has_avx CrossPlatform.has_avx2
         CrossPlatform.has_avx512f Summary.decoded].
    rewrite andb_true_iff, b2i_1. split; [reflexivity|].
    intros Hn. unfold Summary.avx512f_usable, Summary.avx2_usable.
    destruct (CrossPlatform.HAVE_AVX2INTRIN_H cfg), (Summary.avx_usable cfg hw);
      cbn; rewrite ?andb_false_r; try (split; reflexivity).
    exfalso. apply Hn. split; reflexivity.
Qed.

Lemma beyond_maximum_not_queried_witness :
  0 < 7 /\ max_standard max1_with_avx < 7
  /\ Library.SupportAVX2 max1_with_avx = (inr false, [Cpuid 0 0])
  /\ Library.CheckFeature max1_with_avx 7 1 5 = (inr false, [Cpuid 0 0])
  /\ trace (AvxOnly._get_avx_features max1_with_avx) = [Cpuid 0 0; Cpuid 1 0].
Proof.
  split; [lia|]. split; [reflexivity|]. split; [|split].
  - apply (proj1 (proj2 (proj2 (beyond_maximum_not_queried max1_with_avx)))).
    reflexivity.
  - apply (proj1 (beyond_maximum_not_queried max1_with_avx)); [lia|reflexivity].
  - rewrite (proj1 (proj2 (proj2 (proj1 (proj2 (proj2
               (beyond_maximum_not_queried max1_with_avx))) eq_refl)))).
    reflexivity.
Defined.

(** The comparison with the maximum is one of [int]s.  An extended
    selector is negative as an [int], so it does not exceed a maximum that
    the processor reports as a non-negative value: here the maximum
    extended selector is reported as 0, and [SupportLongMode] still
    queries selector 0x80000001. *)
Example extended_selector_below_nonnegative_maximum :
  max_extended zero_extended_maximum = 0
  /\ Library.SupportLongMode zero_extended_maximum
     = (inr true, [Cpuid 0x80000000 0; Cpuid 0x80000001 0]).
Proof. split; reflexivity. Qed.

(** ** The Microsoft-specific decoder *)

Section InstructionSetRun.
Import InstructionSet Rep.
Variable hw : Processor.

Lemma push_back_ok v cpui :
    Z.of_nat (List.length v) < vector_capacity hw ->
    push_back hw v cpui = ret (v ++ [cpui])%list.
Proof.
    intros H. unfold push_back.
    destruct (Z.ltb_spec (Z.of_nat (List.length v)) (vector_capacity hw));
      [reflexivity | lia].
Qed.

Lemma push_back_full v cpui :
    vector_capacity hw <= Z.of_nat (List.length v) ->
    push_back hw v cpui = raise AllocationFailure.
Proof.
    intros H. unfold push_back.
    destruct (Z.ltb_spec (Z.of_nat (List.length v)) (vector_capacity hw));
      [lia | reflexivity].
Qed.

  (** A loop whose vector stays within the capacity appends one answer
      per pass. *)
Lemma query_range_run n : forall i v,
    Z.of_nat (List.length v) + Z.of_nat n <= vector_capacity hw ->
    result (query_range hw n i v) = inr (v ++ answers hw n i)%list.
Proof.
    induction n as [|n IH]; intros i v Hc; cbn [query_range answers].
    - rewrite app_nil_r. reflexivity.
    - rewrite (result_bind_inr _ _ (registers hw i)) by reflexivity.
      rewrite push_back_ok by lia. rewrite bind_ret_l.
      rewrite IH by (rewrite length_app; cbn [List.length]; lia).
      rewrite <- app_assoc. reflexivity.
Qed.

  (** A loop that needs more than the capacity ends in [push_back]. *)
Lemma query_range_full n : forall i v,
    (0 < n)%nat ->
    vector_capacity hw < Z.of_nat (List.length v) + Z.of_nat n ->
    result (query_range hw n i v) = inl AllocationFailure.
Proof.
    induction n as [|n IH]; intros i v Hn Hc; [lia|].
    cbn [query_range].
    rewrite (result_bind_inr _ _ (registers hw i)) by reflexivity.
    destruct (Z.ltb_spec (Z.of_nat (List.length v)) (vector_capacity hw))
      as [Hlt|Hge].
    - rewrite push_back_ok by exact Hlt. rewrite bind_ret_l.
      apply IH; [lia|]. rewrite length_app. cbn [List.length]. lia.
    - rewrite push_back_full by exact Hge. reflexivity.
Qed.

Lemma for_each_id_run first last :
    result (for_each_id hw first last)
    = if (first <=? last) && (vector_capacity hw <? last - first + 1)
      then inl AllocationFailure
      else if last =? INT_MAX then inl CounterOverflow
      else inr (answers hw (Z.to_nat (last - first + 1)) first).
Proof.
    unfold for_each_id.
    destruct (Z.leb_spec first last) as [Hle|Hgt]; cbn [andb].
    - destruct (Z.ltb_spec (vector_capacity hw) (last - first + 1)) as [Hc|Hc].
      + apply result_bind_inl. apply query_range_full; cbn [List.length]; lia.
      + assert (Hq : result (query_range hw (Z.to_nat (last - first + 1))
                               first [])
                     = inr (answers hw (Z.to_nat (last - first + 1)) first)).
        { apply (query_range_run _ first []). cbn [List.length]. lia. }
        rewrite (result_bind_inr _ _ _ Hq).
        destruct (last =? INT_MAX); reflexivity.
    - replace (Z.to_nat (last - first + 1)) with O by lia.
      cbn [query_range]. rewrite bind_ret_l.
      destruct (last =? INT_MAX); reflexivity.
Qed.

Lemma nth_error_answers n : forall i k,
    (k < n)%nat ->
    nth_error (answers hw n i) k = Some (registers hw (i + Z.of_nat k)).
Proof.
    induction n as [|n IH]; intros i k Hk; [lia|].
    destruct k as [|k]; cbn [answers nth_error].
    - rewrite Z.add_0_r. reflexivity.
    - rewrite IH by lia. f_equal. f_equal. lia.
Qed.

Lemma vindex_answers n i k :
    (k < n)%nat ->
    vindex (answers hw n i) k = ret (registers hw (i + Z.of_nat k)).
Proof.
    intros Hk. unfold vindex. rewrite nth_error_answers by assumption.
    reflexivity.
Qed.

Ltac step_ret := repeat (rewrite bind_ret_l; cbv beta).
Ltac in_bounds k := rewrite (vindex_answers _ _ k) by lia.

Lemma wrap32_of_int x :
    INT_MIN <= x <= INT_MAX ->
    wrap32 x = if x <? 0 then x + 2 ^ 32 else x.
Proof.
    unfold INT_MIN, INT_MAX, wrap32. intros Hx.
    destruct (Z.ltb_spec x 0).
    - replace x with (x + 2 ^ 32 + (-1) * 2 ^ 32) at 1 by lia.
      rewrite Z_mod_plus_full. apply Z.mod_small. lia.
    - apply Z.mod_small. lia.
Qed.

Lemma CPU_Rep_result :
    result (CPU_Rep hw)
    = if max_standard hw <? 0 then inl OutOfBounds
      else if vector_capacity hw <? max_standard hw + 1
      then inl AllocationFailure
      else if max_standard hw =? INT_MAX then inl CounterOverflow
      else if vector_capacity hw <? max_extended hw - INT_MIN + 1
      then inl AllocationFailure
      else if max_extended hw =? INT_MAX then inl CounterOverflow
      else inr (closed_form hw).
Proof.
    unfold CPU_Rep, closed_form.
    rewrite (result_bind_inr _ _ (registers hw 0)) by reflexivity.
    change (at_ (registers hw 0) 0) with (max_standard hw).
    pose proof (to_int_range (EAX (cpuid_insn hw 0 0))) as R0.
    fold (max_standard hw) in R0.
    pose proof (for_each_id_run 0 (max_standard hw)) as Hd.
    destruct (Z.ltb_spec (max_standard hw) 0) as [Hneg|Hpos].
    { destruct (Z.leb_spec 0 (max_standard hw)); [lia|]. cbn [andb] in Hd.
      destruct (Z.eqb_spec (max_standard hw) INT_MAX) as [E|_];
        [unfold INT_MAX in E; lia|].
      rewrite (result_bind_inr _ _ _ Hd).
      replace (Z.to_nat (max_standard hw - 0 + 1)) with O by lia.
      reflexivity. }
    destruct (Z.leb_spec 0 (max_standard hw)); [|lia]. cbn [andb] in Hd.
    destruct (Z.ltb_spec (vector_capacity hw) (max_standard hw + 1))
      as [Hfull|Hroom];
      (destruct (Z.ltb_spec (vector_capacity hw) (max_standard hw - 0 + 1));
       [|try lia]); try lia.
    { apply result_bind_inl. exact Hd. }
    destruct (Z.eqb_spec (max_standard hw) INT_MAX) as [E|Hmax].
    { apply result_bind_inl. exact Hd. }
    rewrite (result_bind_inr _ _ _ Hd). clear Hd.
    cbv beta. in_bounds 0%nat. step_ret.
    destruct (Z.geb_spec (max_standard hw) 1) as [H1|H1];
      [in_bounds 1%nat; step_ret | step_ret ];
      cbv beta iota;
      (destruct (Z.geb_spec (max_standard hw) 7) as [H7|H7];
       [in_bounds 7%nat; step_ret | step_ret ]);
      cbv beta iota.
    all: rewrite (result_bind_inr _ _ (registers hw 0x80000000)) by reflexivity.
    all: change (at_ (registers hw 0x80000000) 0) with (max_extended hw).
    all: change (to_int 2147483648) with INT_MIN.
    all: pose proof (to_int_range (EAX (cpuid_insn hw 0x80000000 0))) as R1.
    all: fold (max_extended hw) in R1.
    all: pose proof (for_each_id_run INT_MIN (max_extended hw)) as He.
    all: destruct (Z.leb_spec INT_MIN (max_extended hw)); [|lia];
      cbn [andb] in He.
    all: destruct (Z.ltb_spec (vector_capacity hw)
                     (max_extended hw - INT_MIN + 1)) as [Hefull|Heroom];
      [apply result_bind_inl; exact He|].
    all: destruct (Z.eqb_spec (max_extended hw) INT_MAX) as [E|Hemax];
      [apply result_bind_inl; exact He|].
    all: rewrite (result_bind_inr _ _ _ He); clear He; cbv beta.
    all: pose proof (wrap32_of_int _ R1) as Hw.
    all: unfold INT_MIN, INT_MAX in R1, Hemax.
    all: destruct (Z.geb_spec (wrap32 (max_extended hw)) 2147483649) as [G1|G1];
      [ destruct (Z.ltb_spec (max_extended hw) 0); [|lia];
        rewrite (vindex_answers _ _ 1%nat) by (unfold INT_MIN; lia); step_ret
      | step_ret ];
      cbv beta iota.
    all: destruct (Z.geb_spec (wrap32 (max_extended hw)) 2147483652) as [G4|G4];
      [ destruct (Z.ltb_spec (max_extended hw) 0); [|lia];
        rewrite (vindex_answers _ _ 2%nat) by (unfold INT_MIN; lia);
        rewrite (vindex_answers _ _ 3%nat) by (unfold INT_MIN; lia);
        rewrite (vindex_answers _ _ 4%nat) by (unfold INT_MIN; lia); step_ret
      | step_ret ].
    all: reflexivity.
Qed.

(** The constructor returns when the processor reports a maximum standard
    selector that is not negative, neither maximum is [INT_MAX], and both
    vectors stay within the capacity. *)
Lemma CPU_Rep_returns :
  0 <= max_standard hw < INT_MAX ->
  max_standard hw + 1 <= vector_capacity hw ->
  max_extended hw <> INT_MAX ->
  max_extended hw - INT_MIN + 1 <= vector_capacity hw ->
  result (CPU_Rep hw) = inr (closed_form hw).
Proof.
  intros [Hlo Hhi] Hc He Hec. rewrite CPU_Rep_result.
  destruct (Z.ltb_spec (max_standard hw) 0); [lia|].
  destruct (Z.ltb_spec (vector_capacity hw) (max_standard hw + 1)); [lia|].
  destruct (Z.eqb_spec (max_standard hw) INT_MAX); [lia|].
  destruct (Z.ltb_spec (vector_capacity hw) (max_extended hw - INT_MIN + 1));
    [lia|].
  destruct (Z.eqb_spec (max_extended hw) INT_MAX); [contradiction|].
  reflexivity.
Qed.

(** What is known of a constructor that returned. *)
Lemma CPU_Rep_returned_within rep :
  result (CPU_Rep hw) = inr rep ->
  rep = closed_form hw
  /\ 0 <= max_standard hw < INT_MAX
  /\ max_standard hw + 1 <= vector_capacity hw
  /\ max_extended hw <> INT_MAX
  /\ max_extended hw - INT_MIN + 1 <= vector_capacity hw.
Proof.
  pose proof (to_int_range (EAX (cpuid_insn hw 0 0))) as R0.
  fold (max_standard hw) in R0.
  rewrite CPU_Rep_result.
  destruct (Z.ltb_spec (max_standard hw) 0) as [|Hpos]; [discriminate|].
  destruct (Z.ltb_spec (vector_capacity hw) (max_standard hw + 1));
    [discriminate|].
  destruct (Z.eqb_spec (max_standard hw) INT_MAX); [discriminate|].
  destruct (Z.ltb_spec (vector_capacity hw) (max_extended hw - INT_MIN + 1));
    [discriminate|].
  destruct (Z.eqb_spec (max_extended hw) INT_MAX); [discriminate|].
  intros E. injection E as <-. repeat split; try assumption; lia.
Qed.

(** A constructor that returned built the closed form. *)
Lemma CPU_Rep_returned rep :
  result (CPU_Rep hw) = inr rep ->
  rep = closed_form hw /\ 0 <= max_standard hw.
Proof.
  intros H. apply CPU_Rep_returned_within in H.
  destruct H as (-> & [Hpos _] & _). split; [reflexivity | exact Hpos].
Qed.
End InstructionSetRun.

(** ** The vendor string *)

Lemma c_str_app_nul l r : c_str (l ++ 0 :: r) = c_str l.
Proof.
  induction l as [|b l IH]; cbn [c_str app].
  - reflexivity.
  - destruct (b =? 0); [reflexivity | rewrite IH; reflexivity].
Qed.

Lemma c_str_length l : (List.length (c_str l) <= List.length l)%nat.
Proof.
  induction l as [|b l IH]; cbn [c_str List.length].
  - lia.
  - destruct (b =? 0); cbn [List.length]; lia.
Qed.

Lemma string_of_bytes_length l :
  String.length (string_of_bytes l) = List.length l.
Proof.
  induction l as [|b l IH]; cbn [string_of_bytes fold_right String.length List.length].
  - reflexivity.
  - f_equal. exact IH.
Qed.

Lemma bytes_of_int_to_int v : bytes_of_int (to_int v) = bytes_of_int v.
Proof. unfold bytes_of_int. rewrite wrap32_to_int. reflexivity. Qed.

Lemma bytes_of_int_wrap32 v w : wrap32 v = wrap32 w -> bytes_of_int v = bytes_of_int w.
Proof. unfold bytes_of_int. intros ->. reflexivity. Qed.

(** The three stores through [int] pointers lay the buffer out as the
    bytes of B, then of D, then of C, followed by the zeroes [memset]
    left. *)
Lemma vendor_buffer_layout hw :
  Rep.vendor_buffer hw
  = (bytes_of_int (EBX (cpuid_insn hw 0 0))
     ++ bytes_of_int (EDX (cpuid_insn hw 0 0))
     ++ bytes_of_int (ECX (cpuid_insn hw 0 0))
     ++ 0 :: repeat 0 19)%list.
Proof.
  unfold Rep.vendor_buffer, Rep.registers, at_. cbn [nth].
  rewrite !bytes_of_int_to_int. reflexivity.
Qed.

(** C7.  When the constructor returns, the vendor string is the
    NUL-terminated string held in the 12 bytes made of the four
    little-endian bytes of register B, then of register D, then of
    register C of selector 0; it has at most 12 characters; and for
    B = 0x756e6547, D = 0x49656e69, C = 0x6c65746e it is "GenuineIntel". *)
Theorem vendor_string_layout hw rep :
  result (InstructionSet.CPU_Rep hw) = inr rep ->
  let q := cpuid_insn hw 0 0 in
  InstructionSet.Vendor rep
  = std_string (bytes_of_int (EBX q) ++ bytes_of_int (EDX q)
                ++ bytes_of_int (ECX q))
  /\ (String.length (InstructionSet.Vendor rep) <= 12)%nat
  /\ (wrap32 (EBX q) = 0x756e6547 -> wrap32 (EDX q) = 0x49656e69 ->
      wrap32 (ECX q) = 0x6c65746e ->
      InstructionSet.Vendor rep = "GenuineIntel"%string
      /\ InstructionSet.isIntel_ rep = true).
Proof.
  intros H q. apply CPU_Rep_returned in H. destruct H as [-> _].
  assert (E : InstructionSet.Vendor (Rep.closed_form hw)
              = std_string (bytes_of_int (EBX q) ++ bytes_of_int (EDX q)
                            ++ bytes_of_int (ECX q))).
  { unfold InstructionSet.Vendor, Rep.closed_form, std_string.
    cbn [InstructionSet.vendor_]. rewrite vendor_buffer_layout.
    rewrite !app_assoc, c_str_app_nul, <- !app_assoc. reflexivity. }
  split; [exact E|]. split.
  - rewrite E. unfold std_string. rewrite string_of_bytes_length.
    etransitivity; [apply c_str_length|]. reflexivity.
  - intros HB HD HC.
    assert (V : InstructionSet.Vendor (Rep.closed_form hw)
                = "GenuineIntel"%string).
    { rewrite E.
      rewrite (bytes_of_int_wrap32 (EBX q) 0x756e6547) by exact HB.
      rewrite (bytes_of_int_wrap32 (EDX q) 0x49656e69) by exact HD.
      rewrite (bytes_of_int_wrap32 (ECX q) 0x6c65746e) by exact HC.
      reflexivity. }
    split; [exact V|].
    unfold InstructionSet.Vendor in V. unfold Rep.closed_form.
    cbn [InstructionSet.isIntel_]. unfold Rep.closed_form in V.
    cbn [InstructionSet.vendor_] in V. rewrite V. reflexivity.
Qed.

Lemma vendor_string_layout_witness :
  exists rep,
    result (InstructionSet.CPU_Rep genuine_intel) = inr rep
    /\ wrap32 (EBX (cpuid_insn genuine_intel 0 0)) = 0x756e6547
    /\ wrap32 (EDX (cpuid_insn genuine_intel 0 0)) = 0x49656e69
    /\ wrap32 (ECX (cpuid_insn genuine_intel 0 0)) = 0x6c65746e
    /\ InstructionSet.Vendor rep = "GenuineIntel"%string.
Proof.
  eexists. split; [vm_compute; reflexivity|].
  split; [reflexivity|]. split; [reflexivity|]. split; [reflexivity|].
  apply (vendor_string_layout genuine_intel _ eq_refl); reflexivity.
Defined.

(** ** Vendor-gated features *)

(** The bitsets of selectors 7 and 0x80000001 hold the registers the
    processor answered, when the selector is within the reported maximum,
    and are empty otherwise. *)
Lemma gated_bitsets hw :
  InstructionSet.f_7_EBX_ (Rep.closed_form hw)
  = (if max_standard hw >=? 7
     then wrap32 (EBX (cpuid_insn hw 7 0)) else 0)
  /\ InstructionSet.f_81_ECX_ (Rep.closed_form hw)
     = (if wrap32 (max_extended hw) >=? 0x80000001
        then wrap32 (ECX (cpuid_insn hw 0x80000001 0)) else 0)
  /\ InstructionSet.f_81_EDX_ (Rep.closed_form hw)
     = (if wrap32 (max_extended hw) >=? 0x80000001
        then wrap32 (EDX (cpuid_insn hw 0x80000001 0)) else 0).
Proof.
  unfold Rep.closed_form, Rep.registers, at_.
  cbn [InstructionSet.f_7_EBX_ InstructionSet.f_81_ECX_
       InstructionSet.f_81_EDX_ nth].
  rewrite !wrap32_to_int. repeat split.
Qed.

(** C6.  When the constructor returns: each Intel-only getter (HLE, RTM,
    LZCNT, SYSCALL, RDTSCP) is false unless the vendor string is
    "GenuineIntel", and then it is exactly the feature's bit of the
    decoded register; each AMD-only getter (ABM, SSE4a, XOP, TBM, MMXEXT,
    3DNOWEXT, 3DNOW) is false unless the vendor string is "AuthenticAMD",
    and then it is exactly the feature's bit.  The decoded registers are
    those the processor answered for selectors 7 and 0x80000001 when
    these are within the reported maxima. *)
Theorem vendor_gated_features hw rep :
  result (InstructionSet.CPU_Rep hw) = inr rep ->
  let vendor := InstructionSet.Vendor rep in
  let b7 := InstructionSet.f_7_EBX_ rep in
  let c81 := InstructionSet.f_81_ECX_ rep in
  let d81 := InstructionSet.f_81_EDX_ rep in
  (vendor <> "GenuineIntel"%string ->
     InstructionSet.HLE rep = false /\ InstructionSet.RTM rep = false
     /\ InstructionSet.LZCNT rep = false /\ InstructionSet.SYSCALL rep = false
     /\ InstructionSet.RDTSCP rep = false)
  /\ (vendor = "GenuineIntel"%string ->
     InstructionSet.HLE rep = Z.testbit b7 4
     /\ InstructionSet.RTM rep = Z.testbit b7 11
     /\ InstructionSet.LZCNT rep = Z.testbit c81 5
     /\ InstructionSet.SYSCALL rep = Z.testbit d81 11
     /\ InstructionSet.RDTSCP rep = Z.testbit d81 27)
  /\ (vendor <> "AuthenticAMD"%string ->
     InstructionSet.ABM rep = false /\ InstructionSet.SSE4a rep = false
     /\ InstructionSet.XOP rep = false /\ InstructionSet.TBM rep = false
     /\ InstructionSet.MMXEXT rep = false
     /\ InstructionSet._3DNOWEXT rep = false
     /\ InstructionSet._3DNOW rep = false)
  /\ (vendor = "AuthenticAMD"%string ->
     InstructionSet.ABM rep = Z.testbit c81 5
     /\ InstructionSet.SSE4a rep = Z.testbit c81 6
     /\ InstructionSet.XOP rep = Z.testbit c81 11
     /\ InstructionSet.TBM rep = Z.testbit c81 21
     /\ InstructionSet.MMXEXT rep = Z.testbit d81 22
     /\ InstructionSet._3DNOWEXT rep = Z.testbit d81 30
     /\ InstructionSet._3DNOW rep = Z.testbit d81 31)
  /\ b7 = (if max_standard hw >=? 7
           then wrap32 (EBX (cpuid_insn hw 7 0)) else 0)
  /\ c81 = (if wrap32 (max_extended hw) >=? 0x80000001
            then wrap32 (ECX (cpuid_insn hw 0x80000001 0)) else 0)
  /\ d81 = (if wrap32 (max_extended hw) >=? 0x80000001
            then wrap32 (EDX (cpuid_insn hw 0x80000001 0)) else 0).
Proof.
  intros H vendor b7 c81 d81. apply CPU_Rep_returned in H.
  destruct H as [-> _].
  assert (Hi : InstructionSet.isIntel_ (Rep.closed_form hw)
               = (vendor =? "GenuineIntel")%string) by reflexivity.
  assert (Ha : InstructionSet.isAMD_ (Rep.closed_form hw)
               = (vendor =? "AuthenticAMD")%string).
  { change (InstructionSet.isAMD_ (Rep.closed_form hw))
      with (negb (vendor =? "GenuineIntel")%string
            && (vendor =? "AuthenticAMD")%string).
    destruct (String.eqb_spec vendor "AuthenticAMD") as [->|_].
    - reflexivity.
    - apply andb_false_r. }
  unfold InstructionSet.HLE, InstructionSet.RTM, InstructionSet.LZCNT,
    InstructionSet.SYSCALL, InstructionSet.RDTSCP, InstructionSet.ABM,
    InstructionSet.SSE4a, InstructionSet.XOP, InstructionSet.TBM,
    InstructionSet.MMXEXT, InstructionSet._3DNOWEXT, InstructionSet._3DNOW.
  rewrite Hi, Ha. fold b7 c81 d81.
  split; [|split; [|split; [|split]]].
  - intros Hv. apply String.eqb_neq in Hv. rewrite Hv. repeat split.
  - intros Hv. apply String.eqb_eq in Hv. rewrite Hv. repeat split.
  - intros Hv. apply String.eqb_neq in Hv. rewrite Hv. repeat split.
  - intros Hv. apply String.eqb_eq in Hv. rewrite Hv. repeat split.
  - apply gated_bitsets.
Qed.

Lemma vendor_gated_features_witness :
  exists rep,
    result (InstructionSet.CPU_Rep authentic_amd) = inr rep
    /\ InstructionSet.Vendor rep = "AuthenticAMD"%string
    /\ InstructionSet.Vendor rep <> "GenuineIntel"%string
    /\ InstructionSet.HLE rep = false
    /\ InstructionSet.ABM rep = Z.testbit (InstructionSet.f_81_ECX_ rep) 5.
Proof.
  eexists. split; [vm_compute; reflexivity|].
  split; [reflexivity|]. split; [discriminate|].
  pose proof (vendor_gated_features authentic_amd _ eq_refl) as T.
  destruct T as (Ti & _ & _ & Ta & _).
  split.
  - apply Ti. discriminate.
  - apply Ta. reflexivity.
Defined.

(** ** End to end: AVX2 *)




(** * Further properties of the code *)

(** ** Bit 31 and the sign of an [int] *)

Lemma testbit_31_of_word u :
  0 <= u < 2 ^ 32 -> Z.testbit u 31 = (2 ^ 31 <=? u).
Proof.
  intros Hu. rewrite Z.testbit_eqb by lia.
  destruct (Z.leb_spec (2 ^ 31) u).
  - replace (u / 2 ^ 31) with 1; [reflexivity|].
    apply Z.div_unique with (r := u - 2 ^ 31); lia.
  - rewrite Z.div_small by lia. reflexivity.
Qed.

Lemma testbit_sign_mask n :
  0 <= n -> Z.testbit (- 2 ^ 31) n = (31 <=? n).
Proof.
  intros Hn. change (- 2 ^ 31) with (Z.shiftl (-1) 31).
  rewrite Z.shiftl_spec by assumption.
  destruct (Z.leb_spec 31 n).
  - apply Z.bits_m1. lia.
  - apply Z.testbit_neg_r. lia.
Qed.

Lemma testbit_above_nonneg x n :
  0 <= x < 2 ^ 31 -> 31 <= n -> Z.testbit x n = false.
Proof.
  intros Hx Hn. rewrite Z.testbit_eqb by lia.
  assert (2 ^ 31 <= 2 ^ n) by (apply Z.pow_le_mono_r; lia).
  rewrite Z.div_small by lia. reflexivity.
Qed.

(** Masking an [int] with [1 << 31] tests its sign. *)
Lemma land_sign_mask v :
  negb (Z.land (to_int v) (- 2 ^ 31) =? 0) = Z.testbit v 31.
Proof.
  rewrite <- (testbit_wrap32 v 31) by lia.
  rewrite testbit_31_of_word by apply wrap32_range.
  pose proof (wrap32_range v) as R. unfold to_int.
  destruct (Z.ltb_spec (wrap32 v) (2 ^ 31)) as [Hlt|Hge].
  - destruct (Z.leb_spec (2 ^ 31) (wrap32 v)); [lia|].
    replace (Z.land (wrap32 v) (- 2 ^ 31)) with 0; [reflexivity|].
    symmetry. apply Z.bits_inj'. intros n Hn.
    rewrite Z.land_spec, Z.bits_0, testbit_sign_mask by assumption.
    destruct (Z.leb_spec 31 n).
    + rewrite testbit_above_nonneg by lia. reflexivity.
    + apply andb_false_r.
  - destruct (Z.leb_spec (2 ^ 31) (wrap32 v)); [|lia].
    assert (N : Z.land (wrap32 v - 2 ^ 32) (- 2 ^ 31) < 0)
      by (apply Z.land_neg; lia).
    destruct (Z.eqb_spec (Z.land (wrap32 v - 2 ^ 32) (- 2 ^ 31)) 0); [lia|].
    reflexivity.
Qed.

(** [x & 1 << b] != 0 on the [int] a register was stored in, for every
    bit of the register. *)
Lemma int_bit v b :
  0 <= b < 32 ->
  negb (Z.land (to_int v) (to_int (Z.shiftl 1 b)) =? 0) = Z.testbit v b.
Proof.
  intros Hb. destruct (Z.eq_dec b 31) as [->|Hne].
  - change (to_int (Z.shiftl 1 31)) with (- 2 ^ 31). apply land_sign_mask.
  - apply (bit_set_to_int v b). lia.
Qed.

Lemma shl1_defined b : 0 <= b < 32 -> shl1 b = ret (to_int (Z.shiftl 1 b)).
Proof.
  intros Hb. unfold shl1.
  destruct (Z.leb_spec 0 b); [|lia]. destruct (Z.ltb_spec b 32); [|lia].
  reflexivity.
Qed.

Lemma index_register q r :
  0 <= r < 4 ->
  index [to_int (EAX q); to_int (EBX q); to_int (ECX q); to_int (EDX q)] r
  = ret (to_int (register q r)).
Proof.
  intros Hr. assert (E : r = 0 \/ r = 1 \/ r = 2 \/ r = 3) by lia.
  destruct E as [-> | [-> | [-> | ->]]]; reflexivity.
Qed.

(** The part of a feature query after the range test: one [cpuid], the
    register, the bit. *)
Lemma read_feature_bit hw f sub r b :
  0 <= r < 4 -> 0 <= b < 32 ->
  (cpu_info <- __cpuidex hw f sub ;;
   v <- index cpu_info r ;;
   m <- shl1 b ;;
   ret (negb (Z.land v m =? 0)))
  = (inr (Z.testbit (register (cpuid_insn hw (wrap32 f) (wrap32 sub)) r) b),
     [Cpuid (wrap32 f) (wrap32 sub)]).
Proof.
  intros Hr Hb. unfold __cpuidex. cbn [bind emit ret app].
  rewrite index_register by assumption. cbn [bind ret app].
  rewrite shl1_defined by assumption. cbn [bind ret app].
  rewrite int_bit by assumption. reflexivity.
Qed.

(** ** Feature queries through [CheckFeature] *)

Lemma bind___cpuidex hw f sub {B} (k : list Z -> M B) :
  bind (__cpuidex hw f sub) k
  = (let q := cpuid_insn hw (wrap32 f) (wrap32 sub) in
     let m := k [to_int (EAX q); to_int (EBX q); to_int (ECX q);
                 to_int (EDX q)] in
     (fst m, Cpuid (wrap32 f) (wrap32 sub) :: snd m)).
Proof.
  unfold __cpuidex. cbn [bind emit ret app].
  destruct (k _). reflexivity.
Qed.

Lemma CheckFeature_run hw f r b :
  0 <= r < 4 -> 0 <= b < 32 ->
  Library.CheckFeature hw f r b
  = (inr (feature_bit hw f r b),
     if 0 <? f then
       Cpuid 0 0 :: (if f <=? max_standard hw then [Cpuid (wrap32 f) 0] else [])
     else if f <? 0 then
       Cpuid 0x80000000 0
       :: (if f <=? max_extended hw then [Cpuid (wrap32 f) 0] else [])
     else []).
Proof.
  intros Hr Hb.
  unfold Library.CheckFeature, feature_bit, selector_in_range,
    max_standard, max_extended, __cpuid.
  pose proof (read_feature_bit hw f 0 r b Hr Hb) as R.
  change (wrap32 0) with 0 in R.
  destruct (Z.ltb_spec 0 f) as [Hpos|Hnpos].
  - destruct (Z.gtb_spec f 0); [|lia].
    destruct (Z.ltb_spec f 0); [lia|].
    rewrite (bind___cpuidex hw 0 0). cbv zeta. cbn [at_ nth andb orb].
    change (wrap32 0) with 0.
    destruct (f <=? to_int (EAX (cpuid_insn hw 0 0))).
    + rewrite R. cbn [fst snd andb]. rewrite orb_false_r. reflexivity.
    + reflexivity.
  - destruct (Z.gtb_spec f 0); [lia|].
    destruct (Z.ltb_spec f 0) as [Hneg|Hz].
    + rewrite (bind___cpuidex hw (to_int 2147483648) 0). cbv zeta.
      cbn [at_ nth andb orb].
      change (wrap32 0) with 0.
      change (wrap32 (to_int 2147483648)) with 2147483648.
      destruct (f <=? to_int (EAX (cpuid_insn hw 2147483648 0))).
      * rewrite R. reflexivity.
      * reflexivity.
    + reflexivity.
Qed.

(** X1.  For a register number below 4 and a bit number below 32,
    [CheckFeature] returns without fault; its answer is the requested bit
    of the requested register when the selector is within the maximum of
    its range, and false otherwise.  For a non-zero selector it first
    queries the base selector of the range (0 or 0x80000000) for the
    maximum, and then queries the selector itself only when it is in
    range; for selector 0 it executes nothing. *)
Theorem CheckFeature_reads_the_bit hw f r b :
  0 <= r < 4 -> 0 <= b < 32 ->
  result (Library.CheckFeature hw f r b)
  = inr (selector_in_range hw f
         && Z.testbit (register (cpuid_insn hw (wrap32 f) 0) r) b)
  /\ trace (Library.CheckFeature hw f r b)
     = (if f =? 0 then []
        else Cpuid (if 0 <? f then 0 else 0x80000000) 0
             :: (if selector_in_range hw f then [Cpuid (wrap32 f) 0] else [])).
Proof.
  intros Hr Hb. rewrite (CheckFeature_run hw f r b Hr Hb).
  unfold selector_in_range. cbn [result trace fst snd].
  split; [reflexivity|].
  destruct (Z.ltb_spec 0 f) as [Hpos|Hnpos]; cbn [andb orb].
  - destruct (Z.eqb_spec f 0); [lia|].
    destruct (Z.ltb_spec f 0); [lia|]. cbn [andb].
    rewrite orb_false_r. reflexivity.
  - destruct (Z.ltb_spec f 0).
    + destruct (Z.eqb_spec f 0); [lia|]. reflexivity.
    + destruct (Z.eqb_spec f 0); [|lia]. reflexivity.
Qed.

Lemma CheckFeature_reads_the_bit_witness :
  0 <= 1 < 4 /\ 0 <= 5 < 32
  /\ result (Library.CheckFeature genuine_intel 7 1 5) = inr true.
Proof.
  split; [lia|]. split; [lia|].
  refine (proj1 (CheckFeature_reads_the_bit genuine_intel 7 1 5 _ _)); lia.
Defined.

(** X2.  [CheckFeature] does not check its register number: for a
    selector within the maximum of its range and a register number of 4 or
    more it indexes outside the four-element [cpu_info] array, after
    having executed both queries.  (The dynamic library's [cpuid] returns
    0 there instead.) *)
Theorem CheckFeature_register_unchecked hw f r b :
  selector_in_range hw f = true -> 4 <= r ->
  Library.CheckFeature hw f r b
  = (inl OutOfBounds,
     [Cpuid (if 0 <? f then 0 else 0x80000000) 0; Cpuid (wrap32 f) 0])
  /\ CpuidDll.cpuid hw (attached hw) f r b = (inr 0, []).
Proof.
  intros Hin Hr.
  assert (Hidx : forall a0 a1 a2 a3,
             index [a0; a1; a2; a3] r = raise OutOfBounds).
  { intros. unfold index. destruct (Z.ltb_spec r 0); [lia|].
    assert (E : exists n, Z.to_nat r = S (S (S (S n)))).
    { exists (Z.to_nat r - 4)%nat. lia. }
    destruct E as [n ->]. destruct n; reflexivity. }
  split.
  - unfold Library.CheckFeature, selector_in_range, max_standard, max_extended,
      __cpuid in *.
    destruct (Z.ltb_spec 0 f) as [Hpos|Hnpos]; cbn [andb orb] in Hin.
    + destruct (Z.gtb_spec f 0); [|lia].
      destruct (Z.ltb_spec f 0); [lia|]. cbn [andb] in Hin.
      rewrite orb_false_r in Hin.
      rewrite (bind___cpuidex hw 0 0). cbv zeta. cbn [at_ nth].
      change (wrap32 0) with 0. rewrite Hin.
      rewrite (bind___cpuidex hw f 0). cbv zeta. rewrite Hidx. reflexivity.
    + destruct (Z.gtb_spec f 0); [lia|].
      destruct (Z.ltb_spec f 0); [|discriminate]. cbn [andb] in Hin.
      rewrite (bind___cpuidex hw (to_int 2147483648) 0). cbv zeta.
      cbn [at_ nth]. change (wrap32 0) with 0.
      change (wrap32 (to_int 2147483648)) with 2147483648. rewrite Hin.
      rewrite (bind___cpuidex hw f 0). cbv zeta. rewrite Hidx. reflexivity.
  - unfold CpuidDll.cpuid.
    destruct (Z.ltb_spec r 4); [lia|].
    destruct (_ || _); reflexivity.
Qed.

Lemma CheckFeature_register_unchecked_witness :
  selector_in_range genuine_intel 1 = true /\ 4 <= 4
  /\ Library.CheckFeature genuine_intel 1 4 0
     = (inl OutOfBounds, [Cpuid 0 0; Cpuid 1 0]).
Proof.
  split; [reflexivity|]. split; [lia|].
  refine (proj1 (CheckFeature_register_unchecked genuine_intel 1 4 0 eq_refl _)).
  lia.
Defined.

(** X3.  Every function of the single-feature library returns without
    fault, and answers exactly the bit its comment names, provided the
    selector is within the reported maximum: bits 25 and 26 of register D
    of selector 1 for SSE and SSE2; bits 0, 9, 19, 20, 28, 25 and 30 of
    register C of selector 1 for SSE3, SSSE3, SSE4.1, SSE4.2, AVX, AES and
    RDRAND; bits 5 and 16 of register B of selector 7 for AVX2 and
    AVX-512F; bit 29 of register D of selector 0x80000001 for long
    mode. *)
Theorem library_functions_read_documented_bits hw :
  let c1 := ECX (cpuid_insn hw 1 0) in
  let d1 := EDX (cpuid_insn hw 1 0) in
  let b7 := EBX (cpuid_insn hw 7 0) in
  let d81 := EDX (cpuid_insn hw 0x80000001 0) in
  let has1 := 1 <=? max_standard hw in
  let has7 := 7 <=? max_standard hw in
  let has81 := to_int 0x80000001 <=? max_extended hw in
  result (Library.SupportSSE hw) = inr (has1 && Z.testbit d1 25)
  /\ result (Library.SupportSSE2 hw) = inr (has1 && Z.testbit d1 26)
  /\ result (Library.SupportSSE3 hw) = inr (has1 && Z.testbit c1 0)
  /\ result (Library.SupportSSSE3 hw) = inr (has1 && Z.testbit c1 9)
  /\ result (Library.SupportSSE41 hw) = inr (has1 && Z.testbit c1 19)
  /\ result (Library.SupportSSE42 hw) = inr (has1 && Z.testbit c1 20)
  /\ result (Library.SupportAVX hw) = inr (has1 && Z.testbit c1 28)
  /\ result (Library.SupportAVX2 hw) = inr (has7 && Z.testbit b7 5)
  /\ result (Library.SupportAVX512 hw) = inr (has7 && Z.testbit b7 16)
  /\ result (Library.SupportAES hw) = inr (has1 && Z.testbit c1 25)
  /\ result (Library.SupportRDRND hw) = inr (has1 && Z.testbit c1 30)
  /\ result (Library.SupportLongMode hw) = inr (has81 && Z.testbit d81 29).
Proof.
  unfold Library.SupportSSE, Library.SupportSSE2, Library.SupportSSE3,
    Library.SupportSSSE3, Library.SupportSSE41, Library.SupportSSE42,
    Library.SupportAVX, Library.SupportAVX2, Library.SupportAVX512,
    Library.SupportAES, Library.SupportRDRND, Library.SupportLongMode.
  cbv zeta.
  rewrite !CheckFeature_run by lia.
  unfold feature_bit, selector_in_range, register.
  cbn [result fst].
  change (wrap32 1) with 1. change (wrap32 7) with 7.
  change (wrap32 (to_int 2147483649)) with 2147483649.
  change (to_int 2147483649) with (-2147483647).
  cbn [Z.ltb Z.eqb Z.compare andb orb].
  rewrite !orb_false_r.
  repeat split.
Qed.

(** ** The dynamic library *)

Lemma cpuid_run hw st f sub r b :
  0 <= r < 4 -> 0 <= b < 32 ->
  ((f >? 0) && (f <=? CpuidDll.max_function_id st))
  || ((f <? 0) && (f <=? CpuidDll.max_extended_function_id st)) = true ->
  exists v,
    CpuidDll.cpuidex hw st f sub r b
    = (inr v, [Cpuid (wrap32 f) (wrap32 sub)])
    /\ negb (v =? 0)
       = Z.testbit (register (cpuid_insn hw (wrap32 f) (wrap32 sub)) r) b.
Proof.
  intros Hr Hb Hin. unfold CpuidDll.cpuidex. rewrite Hin.
  destruct (Z.ltb_spec r 4); [|lia].
  rewrite bind___cpuidex. cbv zeta.
  rewrite index_register by assumption. cbn [bind ret app].
  rewrite shl1_defined by assumption. cbn [bind ret app fst snd].
  eexists. split; [reflexivity|]. apply int_bit. assumption.
Qed.

(** X4.  For a selector within the cached maxima, a register number
    below 4 and a bit number below 32, [cpuid] and [cpuidex] execute
    exactly one identification instruction, the requested one ([cpuid]
    with sub-selector 0), and return a value that is non-zero if and only
    if the requested bit of the requested register is set. *)
Theorem cpuid_nonzero_iff_bit_set hw st f sub r b :
  0 <= r < 4 -> 0 <= b < 32 ->
  ((f >? 0) && (f <=? CpuidDll.max_function_id st))
  || ((f <? 0) && (f <=? CpuidDll.max_extended_function_id st)) = true ->
  (exists v,
     CpuidDll.cpuidex hw st f sub r b
     = (inr v, [Cpuid (wrap32 f) (wrap32 sub)])
     /\ (v <> 0 <->
         Z.testbit (register (cpuid_insn hw (wrap32 f) (wrap32 sub)) r) b
         = true))
  /\ (exists v,
       CpuidDll.cpuid hw st f r b = (inr v, [Cpuid (wrap32 f) 0])
       /\ (v <> 0 <->
           Z.testbit (register (cpuid_insn hw (wrap32 f) 0) r) b = true)).
Proof.
  intros Hr Hb Hin. split.
  - destruct (cpuid_run hw st f sub r b Hr Hb Hin) as (v & E & Hv).
    exists v. split; [exact E|]. rewrite <- Hv.
    destruct (Z.eqb_spec v 0); cbn; split; congruence.
  - destruct (cpuid_run hw st f 0 r b Hr Hb Hin) as (v & E & Hv).
    exists v. split; [exact E|]. change (wrap32 0) with 0 in Hv.
    rewrite <- Hv. destruct (Z.eqb_spec v 0); cbn; split; congruence.
Qed.

Lemma cpuid_nonzero_iff_bit_set_witness :
  0 <= 1 < 4 /\ 0 <= 5 < 32
  /\ exists v,
       CpuidDll.cpuid genuine_intel (attached genuine_intel) 7 1 5
       = (inr v, [Cpuid 7 0]) /\ v <> 0.
Proof.
  split; [lia|]. split; [lia|].
  destruct (proj2 (cpuid_nonzero_iff_bit_set genuine_intel
                     (attached genuine_intel) 7 0 1 5
                     ltac:(lia) ltac:(lia) eq_refl)) as (v & E & Hv).
  exists v. split; [exact E|]. apply Hv. reflexivity.
Defined.

Lemma cpuid_as_bool hw f r b :
  0 <= r < 4 -> 0 <= b < 32 ->
  result (CpuidClient.to_bool (CpuidDll.cpuid hw (attached hw) f r b))
  = result (Library.CheckFeature hw f r b).
Proof.
  intros Hr Hb. rewrite (CheckFeature_run hw f r b Hr Hb).
  unfold feature_bit, selector_in_range. cbn [result fst].
  destruct (((f >? 0) && (f <=? CpuidDll.max_function_id (attached hw)))
            || ((f <? 0)
                && (f <=? CpuidDll.max_extended_function_id (attached hw))))
    eqn:G.
  - destruct (cpuid_run hw (attached hw) f 0 r b Hr Hb G) as (v & E & Hv).
    change (CpuidDll.cpuidex hw (attached hw) f 0 r b)
      with (CpuidDll.cpuid hw (attached hw) f r b) in E.
    unfold CpuidClient.to_bool. rewrite E. cbn [bind ret fst].
    change (wrap32 0) with 0 in Hv. rewrite Hv.
    cbn [attached CpuidDll.max_function_id CpuidDll.max_extended_function_id]
      in G.
    rewrite Z.gtb_ltb in G. rewrite G. reflexivity.
  - unfold CpuidClient.to_bool, CpuidDll.cpuid. rewrite G.
    cbn [attached CpuidDll.max_function_id CpuidDll.max_extended_function_id]
      in G.
    rewrite Z.gtb_ltb in G. rewrite G.
    destruct (r <? 4); reflexivity.
Qed.

(** X5.  Loading the dynamic library caches the two maxima; from then on
    a [cpuid] call, read as a boolean, gives the same answer as the
    library's [CheckFeature] for every selector, every register number
    below 4 and every bit number below 32, without querying the maximum
    again.  In particular the eleven functions of the library's client
    program agree with the single-feature library. *)
Theorem dynamic_library_agrees_with_CheckFeature hw st f r b :
  0 <= r < 4 -> 0 <= b < 32 ->
  result (CpuidDll.DllMain hw CpuidDll.DLL_PROCESS_ATTACH st)
  = inr (CpuidDll.TRUE, attached hw)
  /\ result (CpuidClient.to_bool (CpuidDll.cpuid hw (attached hw) f r b))
     = result (Library.CheckFeature hw f r b)
  /\ (List.length (trace (CpuidDll.cpuid hw (attached hw) f r b)) <= 1)%nat
  /\ result (CpuidClient.SupportLongMode hw (attached hw))
     = result (Library.SupportLongMode hw)
  /\ result (CpuidClient.SupportSSE hw (attached hw))
     = result (Library.SupportSSE hw)
  /\ result (CpuidClient.SupportSSE2 hw (attached hw))
     = result (Library.SupportSSE2 hw)
  /\ result (CpuidClient.SupportSSE3 hw (attached hw))
     = result (Library.SupportSSE3 hw)
  /\ result (CpuidClient.SupportSSSE3 hw (attached hw))
     = result (Library.SupportSSSE3 hw)
  /\ result (CpuidClient.SupportSSE41 hw (attached hw))
     = result (Library.SupportSSE41 hw)
  /\ result (CpuidClient.SupportSSE42 hw (attached hw))
     = result (Library.SupportSSE42 hw)
  /\ result (CpuidClient.SupportAVX hw (attached hw))
     = result (Library.SupportAVX hw)
  /\ result (CpuidClient.SupportAVX2 hw (attached hw))
     = result (Library.SupportAVX2 hw)
  /\ result (CpuidClient.SupportAVX512 hw (attached hw))
     = result (Library.SupportAVX512 hw)
  /\ result (CpuidClient.SupportAES hw (attached hw))
     = result (Library.SupportAES hw).
Proof.
  intros Hr Hb. split; [reflexivity|]. split.
  { apply cpuid_as_bool; assumption. }
  split.
  { unfold CpuidDll.cpuid.
    destruct (_ || _); [|cbn; lia].
    destruct (Z.ltb_spec r 4); [|lia].
    rewrite (bind___cpuidex hw f 0). cbn [trace snd List.length].
    rewrite index_register by assumption. cbn [bind ret app].
    rewrite shl1_defined by assumption. cbn. lia. }
  unfold CpuidClient.SupportLongMode, CpuidClient.SupportSSE,
    CpuidClient.SupportSSE2, CpuidClient.SupportSSE3,
    CpuidClient.SupportSSSE3, CpuidClient.SupportSSE41,
    CpuidClient.SupportSSE42, CpuidClient.SupportAVX,
    CpuidClient.SupportAVX2, CpuidClient.SupportAVX512,
    CpuidClient.SupportAES.
  rewrite !cpuid_as_bool by lia.
  repeat split.
Qed.

Lemma dynamic_library_agrees_with_CheckFeature_witness :
  0 <= 1 < 4 /\ 0 <= 5 < 32
  /\ result (CpuidClient.SupportAVX2 genuine_intel (attached genuine_intel))
     = result (Library.SupportAVX2 genuine_intel).
Proof.
  split; [lia|]. split; [lia|].
  pose proof (dynamic_library_agrees_with_CheckFeature genuine_intel
                CpuidDll.initial 7 1 5 ltac:(lia) ltac:(lia)) as T.
  exact (proj1 (proj2 T)).
Defined.

(** ** The installer custom action *)

(** X6.  Every entry point of the custom action returns [ERROR_SUCCESS]
    exactly when the feature's bit is set and its selector is within the
    reported maximum, and [ERROR_INSTALL_FAILURE] otherwise.  It calls
    [MsiSetProperty] (once, with the value 1) only in the first case, and
    returns [ERROR_SUCCESS] then whatever [MsiSetProperty] returned; in
    the second case the session is left as it was. *)
Theorem custom_action_outcome hw (Session : Type)
    (MsiSetProperty : Session -> wstring -> wstring -> Z * Session)
    f r b name (hInstall : Session) :
  0 <= r < 4 -> 0 <= b < 32 ->
  result (CustomAction.entry_point hw Session MsiSetProperty f r b name
            hInstall)
  = inr (if feature_bit hw f r b
         then (CustomAction.ERROR_SUCCESS,
               snd (MsiSetProperty hInstall name (wide "1")))
         else (CustomAction.ERROR_INSTALL_FAILURE, hInstall))
  /\ trace (CustomAction.entry_point hw Session MsiSetProperty f r b name
              hInstall)
     = trace (Library.CheckFeature hw f r b).
Proof.
  intros Hr Hb. unfold CustomAction.entry_point.
  rewrite (CheckFeature_run hw f r b Hr Hb). cbn [bind].
  destruct (feature_bit hw f r b).
  - destruct (MsiSetProperty hInstall name (wide "1")) as [code h'].
    cbn [ret result trace fst snd]. rewrite app_nil_r. split; reflexivity.
  - cbn [ret result trace fst snd]. rewrite app_nil_r. split; reflexivity.
Qed.

Lemma custom_action_outcome_witness :
  0 <= 1 < 4 /\ 0 <= 5 < 32
  /\ result (CustomAction.SupportAVX2 genuine_intel (list wstring)
               (fun h n v => (1, n :: h)) [])
     = inr (CustomAction.ERROR_SUCCESS, [wide "CPUFEATURE_AVX2"]).
Proof.
  split; [lia|]. split; [lia|].
  refine (proj1 (custom_action_outcome genuine_intel (list wstring)
                   (fun h n v => (1, n :: h)) 7 1 5 (wide "CPUFEATURE_AVX2")
                   [] _ _)); lia.
Defined.

(** ** More on the cross-platform decoder *)

(** X7.  In a successful run the decoder sets each of the fields other
    than the AVX ones to one bit of selector 1, or to 0 when the
    corresponding header macro is not defined: SSE2 is bit 26 of register
    D; SSE3, SSSE3, SSE4.1, PCLMUL, AES-NI and RDRAND are bits 0, 9, 19, 1,
    25 and 30 of register C.  It does not touch [has_neon]. *)
Theorem intel_cpu_features_reads_selector_1 cfg hw stack f :
  result (CrossPlatform._intel_cpu_features cfg hw stack) = inr (0, f) ->
  let c := ECX (cpuid_insn hw 1 0) in
  let d := EDX (cpuid_insn hw 1 0) in
  CrossPlatform.has_sse2 f
  = b2i (CrossPlatform.HAVE_EMMINTRIN_H cfg && Z.testbit d 26)
  /\ CrossPlatform.has_sse3 f
     = b2i (CrossPlatform.HAVE_PMMINTRIN_H cfg && Z.testbit c 0)
  /\ CrossPlatform.has_ssse3 f
     = b2i (CrossPlatform.HAVE_TMMINTRIN_H cfg && Z.testbit c 9)
  /\ CrossPlatform.has_sse41 f
     = b2i (CrossPlatform.HAVE_SMMINTRIN_H cfg && Z.testbit c 19)
  /\ CrossPlatform.has_pclmul f
     = b2i (CrossPlatform.HAVE_WMMINTRIN_H cfg && Z.testbit c 1)
  /\ CrossPlatform.has_aesni f
     = b2i (CrossPlatform.HAVE_WMMINTRIN_H cfg && Z.testbit c 25)
  /\ CrossPlatform.has_rdrand f
     = b2i (CrossPlatform.HAVE_RDRAND cfg && Z.testbit c 30)
  /\ CrossPlatform.has_neon f = CrossPlatform.has_neon stack.
Proof.
  intros H c d. apply intel_cpu_features_status_0 in H. destruct H as [-> _].
  unfold Summary.decoded, Summary.ecx1, Summary.edx1.
  cbn [CrossPlatform.has_sse2 CrossPlatform.has_sse3 CrossPlatform.has_ssse3
       CrossPlatform.has_sse41 CrossPlatform.has_pclmul
       CrossPlatform.has_aesni CrossPlatform.has_rdrand
       CrossPlatform.has_neon].
  change CrossPlatform.CPUID_EDX_SSE2 with (2 ^ 26).
  change CrossPlatform.CPUID_ECX_SSE3 with (2 ^ 0).
  change CrossPlatform.CPUID_ECX_SSSE3 with (2 ^ 9).
  change CrossPlatform.CPUID_ECX_SSE41 with (2 ^ 19).
  change CrossPlatform.CPUID_ECX_PCLMUL with (2 ^ 1).
  change CrossPlatform.CPUID_ECX_AESNI with (2 ^ 25).
  change CrossPlatform.CPUID_ECX_RDRAND with (2 ^ 30).
  rewrite !mask_bit by lia. fold c d.
  destruct (CrossPlatform.HAVE_EMMINTRIN_H cfg),
    (CrossPlatform.HAVE_PMMINTRIN_H cfg), (CrossPlatform.HAVE_TMMINTRIN_H cfg),
    (CrossPlatform.HAVE_SMMINTRIN_H cfg), (CrossPlatform.HAVE_WMMINTRIN_H cfg),
    (CrossPlatform.HAVE_RDRAND cfg); repeat split.
Qed.

Lemma intel_cpu_features_reads_selector_1_witness :
  exists f,
    result (CrossPlatform._intel_cpu_features CrossPlatform.msvc
              genuine_intel stack_garbage) = inr (0, f)
    /\ CrossPlatform.has_sse2 f = 1.
Proof.
  eexists. split; [vm_compute; reflexivity|].
  exact (proj1 (intel_cpu_features_reads_selector_1 CrossPlatform.msvc
                  genuine_intel stack_garbage _ eq_refl)).
Defined.

(** X8.  In a successful run the three AVX fields form a chain:
    [has_avx2] is 1 exactly when the AVX2 block is compiled in, [has_avx]
    is 1 and bit 5 of register B of selector 7 is set; [has_avx512f] is 1
    exactly when its block is compiled in, [has_avx2] is 1 and bit 16 of
    the same register is set.  So AVX-512F is never reported without AVX2,
    nor AVX2 without AVX. *)
Theorem avx_fields_form_a_chain cfg hw stack f :
  result (CrossPlatform._intel_cpu_features cfg hw stack) = inr (0, f) ->
  let b := EBX (cpuid_insn hw 7 0) in
  (CrossPlatform.has_avx2 f = 1 <->
     CrossPlatform.HAVE_AVX2INTRIN_H cfg = true
     /\ CrossPlatform.has_avx f = 1 /\ Z.testbit b 5 = true)
  /\ (CrossPlatform.has_avx512f f = 1 <->
      CrossPlatform.HAVE_AVX512FINTRIN_H cfg = true
      /\ CrossPlatform.has_avx2 f = 1 /\ Z.testbit b 16 = true)
  /\ (CrossPlatform.has_avx512f f = 1 -> CrossPlatform.has_avx2 f = 1)
  /\ (CrossPlatform.has_avx2 f = 1 -> CrossPlatform.has_avx f = 1).
Proof.
  intros H b. apply intel_cpu_features_status_0 in H. destruct H as [-> _].
  cbn [CrossPlatform.has_avx CrossPlatform.has_avx2
       CrossPlatform.has_avx512f Summary.decoded].
  unfold Summary.avx512f_usable, Summary.avx2_usable, Summary.ebx7.
  change CrossPlatform.CPUID_EBX_AVX2 with (2 ^ 5).
  change CrossPlatform.CPUID_EBX_AVX512F with (2 ^ 16).
  rewrite !mask_bit by lia. fold b.
  rewrite !b2i_1, !andb_true_iff. tauto.
Qed.

Lemma avx_fields_form_a_chain_witness :
  exists f,
    result (CrossPlatform._intel_cpu_features CrossPlatform.msvc
              genuine_intel stack_garbage) = inr (0, f)
    /\ CrossPlatform.has_avx2 f = 1
    /\ CrossPlatform.has_avx f = 1.
Proof.
  eexists. split; [vm_compute; reflexivity|]. split; [reflexivity|].
  apply (proj2 (proj2 (proj2 (avx_fields_form_a_chain CrossPlatform.msvc
                                genuine_intel stack_garbage _ eq_refl)))).
  reflexivity.
Defined.

(** X9.  [_get_cpu_features] combines the two detectors' statuses with
    [&=]: it returns 0 as soon as one of them succeeded.  On a build
    without [__arm__] its status is that of the x86 decoder and [has_neon]
    is 0; on an ARM build its status is 0 and [has_neon] is what the
    platform reports, whatever the x86 decoder returned. *)
Theorem get_cpu_features_status cfg hw stack :
  exists f,
    result (CrossPlatform._get_cpu_features cfg hw stack)
    = inr (match CrossPlatform.arm_neon cfg with
           | Some _ => 0
           | None =>
               if negb (CrossPlatform.cpuid_available cfg)
                  || (wrap32 (EAX (cpuid_insn hw 0 0)) =? 0)
               then -1 else 0
           end, f)
    /\ CrossPlatform.has_neon f
       = match CrossPlatform.arm_neon cfg with
         | Some neon => b2i neon
         | None => 0
         end.
Proof.
  unfold CrossPlatform._get_cpu_features, CrossPlatform._arm_cpu_features.
  destruct (negb (CrossPlatform.cpuid_available cfg)
            || (wrap32 (EAX (cpuid_insn hw 0 0)) =? 0)) eqn:G.
  - destruct (CrossPlatform.arm_neon cfg) as [neon|];
      rewrite intel_cpu_features_guard by assumption;
      cbn [bind ret result fst]; eexists; split; reflexivity.
  - apply orb_false_iff in G. destruct G as [Gc Gi].
    apply negb_false_iff in Gc. apply Z.eqb_neq in Gi.
    destruct (CrossPlatform.arm_neon cfg) as [neon|];
      rewrite intel_cpu_features_run by assumption;
      cbn [bind ret result fst]; eexists; split; reflexivity.
Qed.

(** X10.  In the configuration the file selects for Visual C++ the
    AVX-512F block is never compiled, so a successful run reports
    [has_avx512f] as 0 on every processor and executes at most four
    instructions: selector 0, selector 1, [xgetbv] and selector 7. *)
Theorem msvc_build_never_reports_avx512f hw stack f :
  result (CrossPlatform._intel_cpu_features CrossPlatform.msvc hw stack)
  = inr (0, f) ->
  CrossPlatform.has_avx512f f = 0
  /\ exists rest,
       trace (CrossPlatform._intel_cpu_features CrossPlatform.msvc hw stack)
       = Cpuid 0 0 :: Cpuid 1 0 :: rest
       /\ (rest = [] \/ rest = [Xgetbv 0] \/ rest = [Xgetbv 0; Cpuid 7 0]).
Proof.
  intros H. apply intel_cpu_features_status_0 in H. destruct H as [-> ->].
  split; [reflexivity|].
  unfold Summary.executed, Summary.avx_usable.
  cbn [CrossPlatform.msvc CrossPlatform.HAVE_AVXINTRIN_H
       CrossPlatform.HAVE_AVX2INTRIN_H CrossPlatform.HAVE_AVX512FINTRIN_H
       CrossPlatform.xgetbv_available andb app].
  rewrite andb_true_r.
  destruct (Summary.avx_and_xsave_reported hw); cbn [andb app].
  - destruct (Z.land _ _ =? _); eexists; split; try reflexivity; auto.
  - eexists; split; [reflexivity | auto].
Qed.

Lemma msvc_build_never_reports_avx512f_witness :
  exists f,
    result (CrossPlatform._intel_cpu_features CrossPlatform.msvc
              max1_with_avx stack_garbage) = inr (0, f)
    /\ CrossPlatform.has_avx512f f = 0.
Proof.
  eexists. split; [vm_compute; reflexivity|].
  exact (proj1 (msvc_build_never_reports_avx512f max1_with_avx stack_garbage
                  _ eq_refl)).
Defined.

(** ** The AVX-only decoder *)

Lemma bit_set_int v k :
  0 <= k < 32 -> bit_set (to_int v) k = Z.testbit v k.
Proof. intros Hk. unfold bit_set. apply int_bit. assumption. Qed.

Lemma get_avx_features_run hw :
  AvxOnly._get_avx_features hw
  = (let r1 := Rep.registers hw 1 in
     let r7 := Rep.registers hw 7 in
     if 1 <=? max_standard hw then
       if 7 <=? max_standard hw then
         (inr {| AvxOnly.avx := bit_set (at_ r1 2) 28;
                 AvxOnly.avx2 := bit_set (at_ r7 1) 5;
                 AvxOnly.avx512f := bit_set (at_ r7 1) 16;
                 AvxOnly.avx512pf := bit_set (at_ r7 1) 26;
                 AvxOnly.avx512er := bit_set (at_ r7 1) 27;
                 AvxOnly.avx512cd := bit_set (at_ r7 1) 28;
                 AvxOnly.avx512bw := bit_set (at_ r7 1) 30;
                 AvxOnly.avx512dq := bit_set (at_ r7 1) 17;
                 AvxOnly.avx512vl := bit_set (at_ r7 1) 31;
                 AvxOnly.avx512ifma := bit_set (at_ r7 1) 21;
                 AvxOnly.avx512vbmi := bit_set (at_ r7 2) 1;
                 AvxOnly.avx512vnni := bit_set (at_ r7 2) 11;
                 AvxOnly.avx512vbmi2 := bit_set (at_ r7 2) 6;
                 AvxOnly.avx512popcntdq := bit_set (at_ r7 2) 14;
                 AvxOnly.avx512bitalg := bit_set (at_ r7 2) 12;
                 AvxOnly.avx5124vnniw := bit_set (at_ r7 3) 2;
                 AvxOnly.avx5124fmaps := bit_set (at_ r7 3) 3 |},
          [Cpuid 0 0; Cpuid 1 0; Cpuid 7 0])
       else
         (inr {| AvxOnly.avx := bit_set (at_ r1 2) 28;
                 AvxOnly.avx2 := false; AvxOnly.avx512f := false;
                 AvxOnly.avx512pf := false; AvxOnly.avx512er := false;
                 AvxOnly.avx512cd := false; AvxOnly.avx512bw := false;
                 AvxOnly.avx512dq := false; AvxOnly.avx512vl := false;
                 AvxOnly.avx512ifma := false; AvxOnly.avx512vbmi := false;
                 AvxOnly.avx512vnni := false; AvxOnly.avx512vbmi2 := false;
                 AvxOnly.avx512popcntdq := false;
                 AvxOnly.avx512bitalg := false;
                 AvxOnly.avx5124vnniw := false;
                 AvxOnly.avx5124fmaps := false |},
          [Cpuid 0 0; Cpuid 1 0])
     else (inr AvxOnly.default, [Cpuid 0 0])).
Proof.
  cbv zeta. unfold AvxOnly._get_avx_features, __cpuid.
  rewrite (bind___cpuidex hw 0 0). cbv zeta. cbn [at_ nth].
  change (wrap32 0) with 0. fold (max_standard hw).
  rewrite !Z.geb_leb.
  destruct (1 <=? max_standard hw); [|reflexivity].
  rewrite (bind___cpuidex hw 1 0). cbv zeta.
  destruct (7 <=? max_standard hw); [|reflexivity].
  rewrite (bind___cpuidex hw 7 0). reflexivity.
Qed.

(** X11.  The AVX-only decoder never faults.  AVX is bit 28 of register C
    of selector 1 when the maximum selector is at least 1; every other
    flag is its bit of selector 7 when the maximum selector is at least 7:
    in register B, AVX2 5, F 16, DQ 17, IFMA 21, PF 26, ER 27, CD 28, BW 30,
    VL 31; in register C, VBMI 1, VBMI2 6, VNNI 11, BITALG 12, POPCNTDQ 14;
    in register D, 4VNNIW 2, 4FMAPS 3.  Flags whose selector is beyond the
    maximum are false, and their selector is not queried. *)
Theorem get_avx_features_reads_documented_bits hw :
  let has1 := 1 <=? max_standard hw in
  let has7 := (1 <=? max_standard hw) && (7 <=? max_standard hw) in
  let c1 := ECX (cpuid_insn hw 1 0) in
  let b7 := EBX (cpuid_insn hw 7 0) in
  let c7 := ECX (cpuid_insn hw 7 0) in
  let d7 := EDX (cpuid_insn hw 7 0) in
  AvxOnly._get_avx_features hw
  = (inr {| AvxOnly.avx := has1 && Z.testbit c1 28;
            AvxOnly.avx2 := has7 && Z.testbit b7 5;
            AvxOnly.avx512f := has7 && Z.testbit b7 16;
            AvxOnly.avx512pf := has7 && Z.testbit b7 26;
            AvxOnly.avx512er := has7 && Z.testbit b7 27;
            AvxOnly.avx512cd := has7 && Z.testbit b7 28;
            AvxOnly.avx512bw := has7 && Z.testbit b7 30;
            AvxOnly.avx512dq := has7 && Z.testbit b7 17;
            AvxOnly.avx512vl := has7 && Z.testbit b7 31;
            AvxOnly.avx512ifma := has7 && Z.testbit b7 21;
            AvxOnly.avx512vbmi := has7 && Z.testbit c7 1;
            AvxOnly.avx512vnni := has7 && Z.testbit c7 11;
            AvxOnly.avx512vbmi2 := has7 && Z.testbit c7 6;
            AvxOnly.avx512popcntdq := has7 && Z.testbit c7 14;
            AvxOnly.avx512bitalg := has7 && Z.testbit c7 12;
            AvxOnly.avx5124vnniw := has7 && Z.testbit d7 2;
            AvxOnly.avx5124fmaps := has7 && Z.testbit d7 3 |},
     Cpuid 0 0
     :: (if has1 then Cpuid 1 0 :: (if has7 then [Cpuid 7 0] else [])
         else [])).
Proof.
  cbv zeta. rewrite get_avx_features_run. cbv zeta.
  unfold Rep.registers, at_. cbn [nth].
  change (wrap32 1) with 1. change (wrap32 7) with 7.
  rewrite !bit_set_int by lia.
  destruct (1 <=? max_standard hw); [|reflexivity].
  destruct (7 <=? max_standard hw); reflexivity.
Qed.

(** ** The decoders compared *)

Lemma gated_testbit (c : bool) x k :
  0 <= k < 32 ->
  Z.testbit (if c then wrap32 x else 0) k = c && Z.testbit x k.
Proof.
  intros Hk. destruct c; cbn [andb].
  - apply testbit_wrap32. assumption.
  - apply Z.bits_0.
Qed.

Lemma standard_bitsets hw :
  InstructionSet.f_1_ECX_ (Rep.closed_form hw)
  = (if 1 <=? max_standard hw then wrap32 (ECX (cpuid_insn hw 1 0)) else 0)
  /\ InstructionSet.f_1_EDX_ (Rep.closed_form hw)
     = (if 1 <=? max_standard hw then wrap32 (EDX (cpuid_insn hw 1 0)) else 0)
  /\ InstructionSet.f_7_EBX_ (Rep.closed_form hw)
     = (if 7 <=? max_standard hw then wrap32 (EBX (cpuid_insn hw 7 0)) else 0)
  /\ InstructionSet.f_7_ECX_ (Rep.closed_form hw)
     = (if 7 <=? max_standard hw then wrap32 (ECX (cpuid_insn hw 7 0)) else 0).
Proof.
  unfold Rep.closed_form, Rep.registers, at_.
  cbn [InstructionSet.f_1_ECX_ InstructionSet.f_1_EDX_
       InstructionSet.f_7_EBX_ InstructionSet.f_7_ECX_ nth].
  rewrite !wrap32_to_int, !Z.geb_leb. repeat split.
Qed.

(** X12.  The three decoders that look at the hardware bits only agree.
    Whenever the constructor of the Microsoft-specific decoder returns,
    each function of the single-feature library answers what the getter
    of the same feature answers (SSE, SSE2, SSE3, SSSE3, SSE4.1, SSE4.2,
    AVX, AVX2, AVX-512F, AES, RDRAND), and so do the AVX, AVX2, AVX-512F,
    PF, ER and CD flags of the AVX-only decoder. *)
Theorem hardware_decoders_agree hw rep :
  result (InstructionSet.CPU_Rep hw) = inr rep ->
  result (Library.SupportSSE hw) = inr (InstructionSet.SSE rep)
  /\ result (Library.SupportSSE2 hw) = inr (InstructionSet.SSE2 rep)
  /\ result (Library.SupportSSE3 hw) = inr (InstructionSet.SSE3 rep)
  /\ result (Library.SupportSSSE3 hw) = inr (InstructionSet.SSSE3 rep)
  /\ result (Library.SupportSSE41 hw) = inr (InstructionSet.SSE41 rep)
  /\ result (Library.SupportSSE42 hw) = inr (InstructionSet.SSE42 rep)
  /\ result (Library.SupportAVX hw) = inr (InstructionSet.AVX rep)
  /\ result (Library.SupportAVX2 hw) = inr (InstructionSet.AVX2 rep)
  /\ result (Library.SupportAVX512 hw) = inr (InstructionSet.AVX512F rep)
  /\ result (Library.SupportAES hw) = inr (InstructionSet.AES rep)
  /\ result (Library.SupportRDRND hw) = inr (InstructionSet.RDRAND rep)
  /\ exists ft,
       result (AvxOnly._get_avx_features hw) = inr ft
       /\ AvxOnly.avx ft = InstructionSet.AVX rep
       /\ AvxOnly.avx2 ft = InstructionSet.AVX2 rep
       /\ AvxOnly.avx512f ft = InstructionSet.AVX512F rep
       /\ AvxOnly.avx512pf ft = InstructionSet.AVX512PF rep
       /\ AvxOnly.avx512er ft = InstructionSet.AVX512ER rep
       /\ AvxOnly.avx512cd ft = InstructionSet.AVX512CD rep.
Proof.
  intros H. apply CPU_Rep_returned in H. destruct H as [-> Hpos].
  destruct (standard_bitsets hw) as (E1c & E1d & E7b & _).
  unfold InstructionSet.SSE, InstructionSet.SSE2, InstructionSet.SSE3,
    InstructionSet.SSSE3, InstructionSet.SSE41, InstructionSet.SSE42,
    InstructionSet.AVX, InstructionSet.AVX2, InstructionSet.AVX512F,
    InstructionSet.AES, InstructionSet.RDRAND, InstructionSet.AVX512PF,
    InstructionSet.AVX512ER, InstructionSet.AVX512CD.
  rewrite E1c, E1d, E7b, !gated_testbit by lia.
  unfold Library.SupportSSE, Library.SupportSSE2, Library.SupportSSE3,
    Library.SupportSSSE3, Library.SupportSSE41, Library.SupportSSE42,
    Library.SupportAVX, Library.SupportAVX2, Library.SupportAVX512,
    Library.SupportAES, Library.SupportRDRND.
  rewrite !CheckFeature_run by lia.
  unfold feature_bit, selector_in_range, register.
  cbn [result fst].
  change (wrap32 1) with 1. change (wrap32 7) with 7.
  cbn [Z.ltb Z.eqb Z.compare andb orb].
  rewrite !orb_false_r.
  repeat (split; [reflexivity|]).
  rewrite get_avx_features_run. cbv zeta.
  unfold Rep.registers, at_. cbn [nth].
  change (wrap32 1) with 1. change (wrap32 7) with 7.
  rewrite !bit_set_int by lia.
  destruct (Z.leb_spec 1 (max_standard hw)), (Z.leb_spec 7 (max_standard hw));
    try lia; cbn [result fst]; eexists; (split; [reflexivity|]);
    repeat split.
Qed.

Lemma hardware_decoders_agree_witness :
  exists rep,
    result (InstructionSet.CPU_Rep genuine_intel) = inr rep
    /\ result (Library.SupportAVX2 genuine_intel)
       = inr (InstructionSet.AVX2 rep).
Proof.
  eexists. split; [vm_compute; reflexivity|].
  pose proof (hardware_decoders_agree genuine_intel _ eq_refl) as T.
  exact (proj1 (proj2 (proj2 (proj2 (proj2 (proj2 (proj2 (proj2 T)))))))).
Defined.

(** X13.  For long mode the library and the Microsoft-specific decoder
    agree when the processor reports a maximum extended selector with the
    top bit set.  The library compares [int]s: when the reported maximum
    has its top bit clear it still queries selector 0x80000001 and answers
    bit 29 of register D.  The decoder never does so then: its constructor
    does not return unless a vector can hold more than 2^31 elements, and
    if it returned, its unsigned comparison would report long mode as
    absent. *)
Theorem long_mode_agreement hw :
  (max_extended hw < 0 ->
   forall rep, result (InstructionSet.CPU_Rep hw) = inr rep ->
     result (Library.SupportLongMode hw) = inr (InstructionSet.LongMode rep))
  /\ (0 <= max_extended hw ->
      Library.SupportLongMode hw
      = (inr (Z.testbit (EDX (cpuid_insn hw 0x80000001 0)) 29),
         [Cpuid 0x80000000 0; Cpuid 0x80000001 0])
      /\ (forall rep, result (InstructionSet.CPU_Rep hw) = inr rep ->
            InstructionSet.LongMode rep = false)
      /\ (vector_capacity hw <= 2 ^ 31 ->
          exists e, result (InstructionSet.CPU_Rep hw) = inl e)).
Proof.
  pose proof (to_int_range (EAX (cpuid_insn hw 0x80000000 0))) as R.
  fold (max_extended hw) in R. unfold INT_MIN, INT_MAX in R.
  pose proof (wrap32_of_int (max_extended hw)) as W.
  unfold INT_MIN, INT_MAX in W. specialize (W R).
  assert (L : forall rep, result (InstructionSet.CPU_Rep hw) = inr rep ->
                InstructionSet.LongMode rep
                = (wrap32 (max_extended hw) >=? 0x80000001)
                  && Z.testbit (EDX (cpuid_insn hw 0x80000001 0)) 29).
  { intros rep H. apply CPU_Rep_returned in H. destruct H as [-> _].
    unfold InstructionSet.LongMode.
    rewrite (proj2 (proj2 (gated_bitsets hw))), gated_testbit by lia.
    reflexivity. }
  assert (S : Library.SupportLongMode hw
              = (inr ((-2147483647 <=? max_extended hw)
                      && Z.testbit (EDX (cpuid_insn hw 0x80000001 0)) 29),
                 Cpuid 0x80000000 0
                 :: (if -2147483647 <=? max_extended hw
                     then [Cpuid 0x80000001 0] else []))).
  { unfold Library.SupportLongMode. rewrite CheckFeature_run by lia.
    unfold feature_bit, selector_in_range, register.
    change (wrap32 (to_int 2147483649)) with 2147483649.
    change (to_int 2147483649) with (-2147483647).
    cbn [Z.ltb Z.eqb Z.compare andb orb]. reflexivity. }
  split.
  - intros Hsign rep H. rewrite (L rep H), S. cbn [result fst].
    destruct (Z.ltb_spec (max_extended hw) 0); [|lia]. rewrite W.
    destruct (Z.leb_spec (-2147483647) (max_extended hw)),
      (Z.geb_spec (max_extended hw + 2 ^ 32) 2147483649);
      try lia; reflexivity.
  - intros Hsign. split; [|split].
    + rewrite S.
      destruct (Z.leb_spec (-2147483647) (max_extended hw)); [|lia].
      reflexivity.
    + intros rep H. rewrite (L rep H).
      destruct (Z.ltb_spec (max_extended hw) 0); [lia|]. rewrite W.
      destruct (Z.geb_spec (max_extended hw) 2147483649); [lia|].
      reflexivity.
    + intros Hcap.
      destruct (result (InstructionSet.CPU_Rep hw)) as [e|rep] eqn:E.
      * exists e. reflexivity.
      * apply CPU_Rep_returned_within in E. unfold INT_MIN in E.
        exfalso. lia.
Qed.

Lemma long_mode_agreement_witness :
  0 <= max_extended zero_extended_maximum
  /\ result (Library.SupportLongMode zero_extended_maximum) = inr true
  /\ exists e,
       result (InstructionSet.CPU_Rep zero_extended_maximum) = inl e.
Proof.
  assert (H0 : 0 <= max_extended zero_extended_maximum)
    by (vm_compute; discriminate).
  destruct (proj2 (long_mode_agreement zero_extended_maximum) H0)
    as (T1 & _ & T3).
  split; [exact H0|]. split.
  - rewrite T1. reflexivity.
  - apply T3. vm_compute. discriminate.
Defined.

(** X14.  What the cross-platform decoder reports as usable is present in
    hardware according to the library: in a successful run on a processor
    whose maximum selector is at least 1, [has_avx] = 1 implies that
    [SupportAVX] answers true; and if the maximum selector is at least 7,
    [has_avx2] = 1 implies that [SupportAVX2] answers true.  (The converse
    fails when the operating system has not enabled the AVX state.) *)
Theorem usable_avx_is_hardware_avx cfg hw stack f :
  result (CrossPlatform._intel_cpu_features cfg hw stack) = inr (0, f) ->
  1 <= max_standard hw ->
  (CrossPlatform.has_avx f = 1 ->
   result (Library.SupportAVX hw) = inr true)
  /\ (CrossPlatform.has_avx2 f = 1 -> 7 <= max_standard hw ->
      result (Library.SupportAVX2 hw) = inr true).
Proof.
  intros H Hmax. apply intel_cpu_features_status_0 in H. destruct H as [-> _].
  cbn [CrossPlatform.has_avx CrossPlatform.has_avx2 Summary.decoded].
  unfold Library.SupportAVX, Library.SupportAVX2.
  rewrite !CheckFeature_run by lia.
  unfold feature_bit, selector_in_range, register. cbn [result fst].
  change (wrap32 1) with 1. change (wrap32 7) with 7.
  cbn [Z.ltb Z.eqb Z.compare Pos.eqb andb orb]. rewrite !orb_false_r.
  destruct (Z.leb_spec 1 (max_standard hw)); [|lia]. cbn [andb].
  split.
  - rewrite b2i_1. unfold Summary.avx_usable.
    rewrite avx_and_xsave_reported_bits, !andb_true_iff.
    intros ((_ & ((H28 & _) & _)) & _). rewrite H28. reflexivity.
  - rewrite b2i_1. unfold Summary.avx2_usable, Summary.ebx7.
    change CrossPlatform.CPUID_EBX_AVX2 with (2 ^ 5).
    rewrite mask_bit, !andb_true_iff by lia.
    intros (_ & H5) H7. rewrite H5.
    destruct (Z.leb_spec 7 (max_standard hw)); [reflexivity | lia].
Qed.

Lemma usable_avx_is_hardware_avx_witness :
  exists f,
    result (CrossPlatform._intel_cpu_features CrossPlatform.msvc
              genuine_intel stack_garbage) = inr (0, f)
    /\ 1 <= max_standard genuine_intel
    /\ CrossPlatform.has_avx f = 1
    /\ result (Library.SupportAVX genuine_intel) = inr true.
Proof.
  eexists. split; [vm_compute; reflexivity|].
  split; [vm_compute; discriminate|]. split; [reflexivity|].
  refine (proj1 (usable_avx_is_hardware_avx CrossPlatform.msvc genuine_intel
                   stack_garbage _ eq_refl _) eq_refl).
  vm_compute. discriminate.
Defined.

(** ** The constructor of the Microsoft-specific decoder *)

(** X15.  The constructor fails in exactly three ways.  When the
    processor reports a maximum standard selector with the top bit set
    (negative as an [int]) the first loop does not run and [data_[0]]
    indexes an empty vector.  When a loop needs more elements than a
    vector can hold, [push_back] throws.  When a loop ends at [INT_MAX]
    and the vector could hold all its elements, the loop counter
    overflows.  In every other case the constructor returns.  So it never
    returns for a maximum extended selector with the top bit clear unless
    a vector can hold more than 2^31 elements. *)
Theorem constructor_failure_modes hw :
  let standard := max_standard hw + 1 in
  let extended := max_extended hw - INT_MIN + 1 in
  let capacity := vector_capacity hw in
  (result (InstructionSet.CPU_Rep hw) = inl OutOfBounds
   <-> max_standard hw < 0)
  /\ (result (InstructionSet.CPU_Rep hw) = inl AllocationFailure
      <-> 0 <= max_standard hw
          /\ (capacity < standard
              \/ (max_standard hw <> INT_MAX /\ capacity < extended)))
  /\ (result (InstructionSet.CPU_Rep hw) = inl CounterOverflow
      <-> 0 <= max_standard hw /\ standard <= capacity
          /\ (max_standard hw = INT_MAX
              \/ (extended <= capacity /\ max_extended hw = INT_MAX)))
  /\ ((exists rep, result (InstructionSet.CPU_Rep hw) = inr rep)
      <-> 0 <= max_standard hw < INT_MAX /\ standard <= capacity
          /\ max_extended hw <> INT_MAX /\ extended <= capacity)
  /\ result (InstructionSet.CPU_Rep hw) <> inl ShiftTooWide
  /\ (0 <= max_extended hw -> capacity <= 2 ^ 31 ->
      forall rep, result (InstructionSet.CPU_Rep hw) <> inr rep).
Proof.
  intros standard extended capacity. subst standard extended capacity.
  rewrite CPU_Rep_result.
  pose proof (to_int_range (EAX (cpuid_insn hw 0 0))) as R0.
  fold (max_standard hw) in R0.
  pose proof (to_int_range (EAX (cpuid_insn hw 0x80000000 0))) as R1.
  fold (max_extended hw) in R1.
  destruct (Z.ltb_spec (max_standard hw) 0);
    [|destruct (Z.ltb_spec (vector_capacity hw) (max_standard hw + 1));
      [|destruct (Z.eqb_spec (max_standard hw) INT_MAX);
        [|destruct (Z.ltb_spec (vector_capacity hw)
                      (max_extended hw - INT_MIN + 1));
          [|destruct (Z.eqb_spec (max_extended hw) INT_MAX)]]]].
  all: unfold INT_MAX, INT_MIN in *.
  all: repeat match goal with
              | |- _ /\ _ => split
              | |- _ <-> _ => split
              end.
  all: intros.
  all: repeat match goal with H : ex _ |- _ => destruct H end.
  all: try congruence.
  all: try (eexists; reflexivity).
  all: try lia.
  all: exfalso; lia.
Qed.

(** On a processor that reports 0x80000001 as its maximum standard
    selector the constructor indexes the empty vector; on one that reports
    0 as its maximum extended selector it runs out of room. *)
Lemma constructor_failure_modes_witness :
  result (InstructionSet.CPU_Rep negative_maximum) = inl OutOfBounds
  /\ result (InstructionSet.CPU_Rep zero_extended_maximum)
     = inl AllocationFailure.
Proof.
  split.
  - apply (proj2 (proj1 (constructor_failure_modes negative_maximum))).
    vm_compute. reflexivity.
  - apply (proj2 (proj1 (proj2
             (constructor_failure_modes zero_extended_maximum)))).
    vm_compute. intuition congruence.
Defined.

Lemma trace_bind_inr {A B} (m : M A) (f : A -> M B) a :
  result m = inr a -> trace (bind m f) = (trace m ++ trace (f a))%list.
Proof.
  unfold result, trace, bind. destruct m as [[e|a'] t]; simpl; intros H.
  - discriminate.
  - injection H as ->. destruct (f a); reflexivity.
Qed.

Lemma asked_S n i : asked (S n) i = Cpuid (wrap32 i) 0 :: asked n (i + 1).
Proof.
  unfold asked. cbn [seq map]. rewrite Z.add_0_r. f_equal.
  rewrite <- seq_shift, map_map. apply map_ext. intros k.
  f_equal. f_equal. lia.
Qed.

Lemma query_range_trace hw n : forall i v,
  Z.of_nat (List.length v) + Z.of_nat n <= vector_capacity hw ->
  trace (InstructionSet.query_range hw n i v) = asked n i.
Proof.
  induction n as [|n IH]; intros i v Hc; cbn [InstructionSet.query_range].
  - reflexivity.
  - rewrite (trace_bind_inr _ _ (Rep.registers hw i)) by reflexivity.
    rewrite push_back_ok by lia. rewrite bind_ret_l.
    rewrite IH by (rewrite length_app; cbn [List.length]; lia).
    rewrite asked_S. reflexivity.
Qed.

Lemma for_each_id_trace hw first last :
  first <= last -> last - first + 1 <= vector_capacity hw ->
  trace (InstructionSet.for_each_id hw first last)
  = asked (Z.to_nat (last - first + 1)) first.
Proof.
  intros Hle Hc. unfold InstructionSet.for_each_id.
  assert (Hq : Z.of_nat (List.length (@nil (list Z)))
               + Z.of_nat (Z.to_nat (last - first + 1))
               <= vector_capacity hw) by (cbn [List.length]; lia).
  rewrite (trace_bind_inr _ _ _ (query_range_run hw _ first [] Hq)).
  rewrite (query_range_trace hw _ first [] Hq).
  destruct (last =? INT_MAX); apply app_nil_r.
Qed.

Lemma for_each_id_returns hw first last :
  first <= last -> last - first + 1 <= vector_capacity hw ->
  last <> INT_MAX ->
  result (InstructionSet.for_each_id hw first last)
  = inr (Rep.answers hw (Z.to_nat (last - first + 1)) first).
Proof.
  intros Hle Hc H. rewrite for_each_id_run.
  destruct (Z.leb_spec first last); [|lia].
  destruct (Z.ltb_spec (vector_capacity hw) (last - first + 1)); [lia|].
  destruct (Z.eqb_spec last INT_MAX); [contradiction | reflexivity].
Qed.

Lemma CPU_Rep_trace hw :
  0 <= max_standard hw < INT_MAX ->
  max_standard hw + 1 <= vector_capacity hw ->
  max_extended hw <> INT_MAX ->
  max_extended hw - INT_MIN + 1 <= vector_capacity hw ->
  trace (InstructionSet.CPU_Rep hw)
  = (Cpuid 0 0 :: asked (Z.to_nat (max_standard hw + 1)) 0
     ++ Cpuid 0x80000000 0
        :: asked (Z.to_nat (max_extended hw - INT_MIN + 1)) INT_MIN)%list.
Proof.
  intros [Hpos Hmax] Hcap Hemax Hecap.
  pose proof (to_int_range (EAX (cpuid_insn hw 0x80000000 0))) as Rx.
  fold (max_extended hw) in Rx.
  unfold InstructionSet.CPU_Rep, __cpuid.
  rewrite (trace_bind_inr _ _ (Rep.registers hw 0)) by reflexivity.
  change (trace (__cpuidex hw 0 0)) with [Cpuid 0 0].
  change (at_ (Rep.registers hw 0) 0) with (max_standard hw).
  rewrite (trace_bind_inr _ _ _
             (for_each_id_returns hw 0 (max_standard hw)
                ltac:(lia) ltac:(lia) ltac:(lia))).
  rewrite for_each_id_trace by lia. rewrite Z.sub_0_r at 1.
  cbn [app]. f_equal. f_equal.
  rewrite (vindex_answers hw _ _ 0%nat) by lia.
  repeat (rewrite bind_ret_l; cbv beta).
  destruct (Z.geb_spec (max_standard hw) 1) as [H1|H1];
    [rewrite (vindex_answers hw _ _ 1%nat) by lia|];
    repeat (rewrite bind_ret_l; cbv beta); cbv beta iota;
    (destruct (Z.geb_spec (max_standard hw) 7) as [H7|H7];
     [rewrite (vindex_answers hw _ _ 7%nat) by lia|]);
    repeat (rewrite bind_ret_l; cbv beta); cbv beta iota.
  all: rewrite (trace_bind_inr _ _ (Rep.registers hw 0x80000000))
    by reflexivity.
  all: change (trace (__cpuidex hw (to_int 2147483648) 0))
    with [Cpuid 0x80000000 0].
  all: change (at_ (Rep.registers hw 0x80000000) 0) with (max_extended hw).
  all: change (to_int 2147483648) with INT_MIN.
  all: rewrite (trace_bind_inr _ _ _
                  (for_each_id_returns hw INT_MIN (max_extended hw)
                     (proj1 Rx) Hecap Hemax)).
  all: rewrite for_each_id_trace by (exact (proj1 Rx) || exact Hecap).
  all: cbn [app]; f_equal; rewrite <- app_nil_r; f_equal.
  all: pose proof (to_int_range (EAX (cpuid_insn hw 0x80000000 0))) as R1.
  all: fold (max_extended hw) in R1.
  all: pose proof (wrap32_of_int _ R1) as Hw.
  all: unfold INT_MIN, INT_MAX in R1, Hemax.
  all: destruct (Z.geb_spec (wrap32 (max_extended hw)) 2147483649) as [G1|G1];
    [ destruct (Z.ltb_spec (max_extended hw) 0); [|lia];
      rewrite (vindex_answers hw _ _ 1%nat) by (unfold INT_MIN; lia) | ];
    repeat (rewrite bind_ret_l; cbv beta); cbv beta iota.
  all: destruct (Z.geb_spec (wrap32 (max_extended hw)) 2147483652) as [G4|G4];
    [ destruct (Z.ltb_spec (max_extended hw) 0); [|lia];
      rewrite (vindex_answers hw _ _ 2%nat) by (unfold INT_MIN; lia);
      rewrite (vindex_answers hw _ _ 3%nat) by (unfold INT_MIN; lia);
      rewrite (vindex_answers hw _ _ 4%nat) by (unfold INT_MIN; lia) | ];
    repeat (rewrite bind_ret_l; cbv beta).
  all: reflexivity.
Qed.

Lemma in_asked n i e :
  In e (asked n i)
  <-> exists k, 0 <= k < Z.of_nat n /\ e = Cpuid (wrap32 (i + k)) 0.
Proof.
  unfold asked. rewrite in_map_iff. split.
  - intros (k & <- & Hk). apply in_seq in Hk.
    exists (Z.of_nat k). split; [lia | reflexivity].
  - intros (k & Hk & ->). exists (Z.to_nat k). split.
    + rewrite Z2Nat.id by lia. reflexivity.
    + apply in_seq. lia.
Qed.

Lemma asked_length n i : List.length (asked n i) = n.
Proof. unfold asked. rewrite length_map, length_seq. reflexivity. Qed.

(** A constructor that returned has not executed [xgetbv]. *)
Lemma constructor_executes_cpuid_only hw rep :
  result (InstructionSet.CPU_Rep hw) = inr rep ->
  forall idx, ~ In (Xgetbv idx) (trace (InstructionSet.CPU_Rep hw)).
Proof.
  intros Hret.
  destruct (CPU_Rep_returned_within hw rep Hret) as (_ & Hs & Hsc & He & Hec).
  rewrite (CPU_Rep_trace hw Hs Hsc He Hec).
  intros idx [C|C]; [discriminate|].
  apply in_app_or in C. destruct C as [C|[C|C]]; [|discriminate|].
  - apply in_asked in C. destruct C as (k & _ & C). discriminate.
  - apply in_asked in C. destruct C as (k & _ & C). discriminate.
Qed.

(** X16.  A constructor that returned has executed CPUID only: selector 0,
    then every selector from 0 up to the maximum it reported (selector 0
    a second time), then 0x80000000, then every selector from 0x80000000
    up to the maximum that one reported, compared as [int]s; always with
    subleaf 0.  When the extended maximum has its top bit set, no selector
    outside the two reported ranges is executed and the number of
    instructions is the sum of the two range sizes plus two. *)
Theorem constructor_queries hw rep :
  result (InstructionSet.CPU_Rep hw) = inr rep ->
  trace (InstructionSet.CPU_Rep hw)
  = (Cpuid 0 0 :: asked (Z.to_nat (max_standard hw + 1)) 0
     ++ Cpuid 0x80000000 0
        :: asked (Z.to_nat (max_extended hw - INT_MIN + 1)) INT_MIN)%list
  /\ (forall idx, ~ In (Xgetbv idx) (trace (InstructionSet.CPU_Rep hw)))
  /\ (max_extended hw < 0 ->
      (forall s u, In (Cpuid s u) (trace (InstructionSet.CPU_Rep hw)) ->
         u = 0
         /\ (0 <= s <= max_standard hw
             \/ 0x80000000 <= s <= wrap32 (max_extended hw)))
      /\ Z.of_nat (List.length (trace (InstructionSet.CPU_Rep hw)))
         = (max_standard hw + 1)
           + (wrap32 (max_extended hw) - 0x80000000 + 1) + 2).
Proof.
  intros Hret.
  destruct (CPU_Rep_returned_within hw rep Hret) as (_ & Hs & Hsc & He & Hec).
  rewrite (CPU_Rep_trace hw Hs Hsc He Hec).
  pose proof (to_int_range (EAX (cpuid_insn hw 0x80000000 0))) as R1.
  fold (max_extended hw) in R1.
  unfold INT_MAX, INT_MIN in *.
  split; [reflexivity|]. split.
  - intros idx [C|C]; [discriminate|].
    apply in_app_or in C. destruct C as [C|[C|C]]; [|discriminate|].
    + apply in_asked in C. destruct C as (k & _ & C). discriminate.
    + apply in_asked in C. destruct C as (k & _ & C). discriminate.
  - intros Hneg.
    assert (Hw : wrap32 (max_extended hw) = max_extended hw + 2 ^ 32).
    { unfold wrap32. symmetry. apply (Z.mod_unique _ _ (-1)); lia. }
    rewrite Hw. split.
    + intros s u [C|C].
      { injection C as <- <-. split; [reflexivity | left; lia]. }
      apply in_app_or in C. destruct C as [C|[C|C]].
      * apply in_asked in C. destruct C as (k & Hk & C).
        injection C as -> ->. split; [reflexivity|]. left.
        unfold wrap32. rewrite Z.mod_small by lia. lia.
      * injection C as <- <-. split; [reflexivity | right; lia].
      * apply in_asked in C. destruct C as (k & Hk & C).
        assert (Es : s = wrap32 (- 2 ^ 31 + k)) by congruence.
        assert (Eu : u = 0) by congruence.
        clear C. subst s u. split; [reflexivity|]. right.
        assert (Hk' : wrap32 (- 2 ^ 31 + k) = 2 ^ 31 + k).
        { unfold wrap32. symmetry. apply (Z.mod_unique _ _ (-1)); lia. }
        rewrite Hk'. lia.
    + cbn [List.length]. rewrite length_app. cbn [List.length].
      rewrite !asked_length. lia.
Qed.

Lemma constructor_queries_witness :
  Z.of_nat (List.length (trace (InstructionSet.CPU_Rep genuine_intel)))
  = (max_standard genuine_intel + 1)
    + (wrap32 (max_extended genuine_intel) - 0x80000000 + 1) + 2.
Proof.
  refine (proj2 (proj2 (proj2
    (constructor_queries genuine_intel (Rep.closed_form genuine_intel) _)) _)).
  - apply CPU_Rep_returns; vm_compute; intuition congruence.
  - vm_compute. reflexivity.
Defined.

(** ** The strings of the Microsoft-specific decoder *)

Lemma brand_buffer_layout hw :
  let quad s :=
    let q := cpuid_insn hw s 0 in
    (bytes_of_int (EAX q) ++ bytes_of_int (EBX q)
     ++ bytes_of_int (ECX q) ++ bytes_of_int (EDX q))%list in
  Rep.brand_buffer hw
  = (quad 0x80000002 ++ quad 0x80000003 ++ quad 0x80000004
     ++ 0 :: repeat 0 15)%list.
Proof.
  unfold Rep.brand_buffer, Rep.registers. cbn [flat_map].
  rewrite !bytes_of_int_to_int. reflexivity.
Qed.

Lemma c_str_no_nul l : Forall (fun b => b <> 0) l -> c_str l = l.
Proof.
  induction 1 as [|b l Hb _ IH]; cbn [c_str].
  - reflexivity.
  - destruct (Z.eqb_spec b 0); [contradiction | rewrite IH; reflexivity].
Qed.

Lemma c_str_stops l r : Forall (fun b => b <> 0) l -> c_str (l ++ 0 :: r) = l.
Proof.
  intros H. rewrite c_str_app_nul. apply c_str_no_nul. exact H.
Qed.

(** X17.  When the constructor returns, the brand string is empty unless
    the maximum extended selector, compared as unsigned, is at least
    0x80000004; then it is the NUL-terminated string held in the 48 bytes
    made of registers A, B, C, D (four little-endian bytes each) of
    selectors 0x80000002, 0x80000003 and 0x80000004, in that order.  It
    has at most 48 characters. *)
Theorem brand_string_layout hw rep :
  result (InstructionSet.CPU_Rep hw) = inr rep ->
  let quad s :=
    let q := cpuid_insn hw s 0 in
    (bytes_of_int (EAX q) ++ bytes_of_int (EBX q)
     ++ bytes_of_int (ECX q) ++ bytes_of_int (EDX q))%list in
  InstructionSet.Brand rep
  = (if wrap32 (max_extended hw) >=? 0x80000004
     then std_string (quad 0x80000002 ++ quad 0x80000003 ++ quad 0x80000004)
     else EmptyString)
  /\ (String.length (InstructionSet.Brand rep) <= 48)%nat.
Proof.
  intros H quad. apply CPU_Rep_returned in H. destruct H as [-> _].
  assert (E : InstructionSet.Brand (Rep.closed_form hw)
              = if wrap32 (max_extended hw) >=? 0x80000004
                then std_string (quad 0x80000002 ++ quad 0x80000003
                                 ++ quad 0x80000004)
                else EmptyString).
  { unfold InstructionSet.Brand, Rep.closed_form.
    cbn [InstructionSet.brand_].
    destruct (wrap32 (max_extended hw) >=? 0x80000004); [|reflexivity].
    unfold std_string. rewrite brand_buffer_layout. cbv zeta. fold quad.
    rewrite !app_assoc, c_str_app_nul, <- !app_assoc. reflexivity. }
  split; [exact E|]. rewrite E.
  destruct (wrap32 (max_extended hw) >=? 0x80000004).
  - unfold std_string. rewrite string_of_bytes_length.
    etransitivity; [apply c_str_length|]. reflexivity.
  - cbn [String.length]. lia.
Qed.

Lemma brand_string_layout_witness :
  InstructionSet.Brand (Rep.closed_form genuine_intel) = "Intel(R)"%string.
Proof.
  refine (eq_trans (proj1 (brand_string_layout genuine_intel _ _)) _).
  - apply CPU_Rep_returns; vm_compute; intuition congruence.
  - vm_compute. reflexivity.
Defined.

(** X18.  The vendor string is cut at the first zero byte of the twelve
    bytes of registers B, D and C of selector 0: it is the bytes before
    that zero, and all twelve when none of them is zero. *)
Theorem vendor_string_stops_at_first_zero hw rep :
  result (InstructionSet.CPU_Rep hw) = inr rep ->
  let q := cpuid_insn hw 0 0 in
  let bytes := (bytes_of_int (EBX q) ++ bytes_of_int (EDX q)
                ++ bytes_of_int (ECX q))%list in
  (forall l r, bytes = (l ++ 0 :: r)%list -> Forall (fun b => b <> 0) l ->
     InstructionSet.Vendor rep = string_of_bytes l)
  /\ (Forall (fun b => b <> 0) bytes ->
      InstructionSet.Vendor rep = string_of_bytes bytes
      /\ String.length (InstructionSet.Vendor rep) = 12%nat).
Proof.
  intros H q bytes. apply CPU_Rep_returned in H. destruct H as [-> _].
  assert (E : InstructionSet.Vendor (Rep.closed_form hw)
              = string_of_bytes (c_str (bytes ++ 0 :: repeat 0 19))).
  { unfold InstructionSet.Vendor, Rep.closed_form, std_string.
    cbn [InstructionSet.vendor_]. rewrite vendor_buffer_layout.
    unfold bytes. rewrite <- !app_assoc. reflexivity. }
  split.
  - intros l r Hb Hl. rewrite E, Hb, <- app_assoc. cbn [app].
    rewrite c_str_stops by exact Hl. reflexivity.
  - intros Hall. rewrite E, c_str_stops by exact Hall.
    split; [reflexivity|]. rewrite string_of_bytes_length. reflexivity.
Qed.

Lemma vendor_string_stops_at_first_zero_witness :
  InstructionSet.Vendor (Rep.closed_form short_vendor) = "QVM"%string
  /\ String.length (InstructionSet.Vendor (Rep.closed_form genuine_intel))
     = 12%nat.
Proof.
  split.
  - refine (proj1 (vendor_string_stops_at_first_zero short_vendor
                     _ _) [81; 86; 77] (repeat 0 8) _ _).
    + apply CPU_Rep_returns; vm_compute; intuition congruence.
    + vm_compute. reflexivity.
    + repeat constructor; discriminate.
  - refine (proj2 (proj2 (vendor_string_stops_at_first_zero genuine_intel
                            _ _) _)).
    + apply CPU_Rep_returns; vm_compute; intuition congruence.
    + vm_compute. repeat constructor; discriminate.
Defined.

(** ** Printing *)

Lemma get_cpu_features_returns cfg hw stack :
  exists s f,
    result (CrossPlatform._get_cpu_features cfg hw stack) = inr (s, f).
Proof.
  unfold CrossPlatform._get_cpu_features, CrossPlatform._arm_cpu_features.
  destruct (negb (CrossPlatform.cpuid_available cfg)
            || (wrap32 (EAX (cpuid_insn hw 0 0)) =? 0)) eqn:G.
  - destruct (CrossPlatform.arm_neon cfg) as [neon|];
      rewrite intel_cpu_features_guard by assumption;
      cbn [bind ret result fst]; eexists; eexists; reflexivity.
  - apply orb_false_iff in G. destruct G as [Gc Gi].
    apply negb_false_iff in Gc. apply Z.eqb_neq in Gi.
    destruct (CrossPlatform.arm_neon cfg) as [neon|];
      rewrite intel_cpu_features_run by assumption;
      cbn [bind ret result fst]; eexists; eexists; reflexivity.
Qed.

Lemma get_avx_features_returns hw :
  exists f, result (AvxOnly._get_avx_features hw) = inr f.
Proof.
  rewrite get_avx_features_run. cbv zeta.
  destruct (1 <=? max_standard hw); [destruct (7 <=? max_standard hw)|];
    eexists; reflexivity.
Qed.

Lemma filter_other_sink (s : sink) (l : list line) :
  Forall (fun x => written_to s x = false) l -> filter (written_to s) l = [].
Proof.
  induction 1 as [|x l Hx _ IH]; cbn [filter].
  - reflexivity.
  - rewrite Hx. exact IH.
Qed.

Lemma filter_same_sink (s : sink) (l : list line) :
  Forall (fun x => written_to s x = true) l -> filter (written_to s) l = l.
Proof.
  induction 1 as [|x l Hx _ IH]; cbn [filter].
  - reflexivity.
  - rewrite Hx, IH. reflexivity.
Qed.

Lemma default_feature_line s name b ps pu xml :
  Forall (fun x => fst x = s)
    (DefaultMode._print_feature_support s name b ps pu xml)
  /\ (List.length (DefaultMode._print_feature_support s name b ps pu xml)
      = if (b && ps) || (negb b && pu) then 1 else 0)%nat.
Proof.
  unfold DefaultMode._print_feature_support.
  destruct ((b && ps) || (negb b && pu)); [|split; [constructor|reflexivity]].
  destruct xml; [|destruct (ps && pu)];
    (split; [repeat constructor | reflexivity]).
Qed.

Lemma avx_feature_line s name b ps pu xml :
  Forall (fun x => fst x = s)
    (AvxMode._print_feature_support s name b ps pu xml)
  /\ (List.length (AvxMode._print_feature_support s name b ps pu xml)
      = if (b && ps) || (negb b && pu) then 1 else 0)%nat.
Proof.
  unfold AvxMode._print_feature_support.
  destruct ((b && ps) || (negb b && pu)); [|split; [constructor|reflexivity]].
  destruct xml; (split; [repeat constructor | reflexivity]).
Qed.

Lemma support_message_line s name b ps pu xml :
  Forall (fun x => fst x = s)
    (MicrosoftMode.support_message s name b ps pu xml)
  /\ (List.length (MicrosoftMode.support_message s name b ps pu xml)
      = if (b && ps) || (negb b && pu) then 1 else 0)%nat.
Proof.
  unfold MicrosoftMode.support_message.
  destruct ((b && ps) || (negb b && pu)); [|split; [constructor|reflexivity]].
  destruct xml; (split; [repeat constructor | reflexivity]).
Qed.

Lemma at_most_one_line (k : nat) (c : bool) :
  k = (if c then 1 else 0)%nat -> (k <= 1)%nat.
Proof. intros ->. destruct c; lia. Qed.

Lemma default_features_to_wcout s cf ps pu xml :
  Forall (fun x => fst x = Wcout)
    (DefaultMode._print_cpu_features s cf ps pu xml).
Proof.
  unfold DefaultMode._print_cpu_features.
  repeat (apply Forall_app; split); apply default_feature_line.
Qed.

Lemma avx_features_to_wcout s f ps pu xml :
  Forall (fun x => fst x = Wcout) (AvxMode._print_avx_features s f ps pu xml).
Proof.
  unfold AvxMode._print_avx_features.
  repeat (apply Forall_app; split); apply avx_feature_line.
Qed.

Lemma microsoft_features_to_stream rep s ps pu xml :
  Forall (fun x => fst x = s)
    (MicrosoftMode._print_cpu_features rep s ps pu xml).
Proof.
  unfold MicrosoftMode._print_cpu_features.
  induction (MicrosoftMode.table rep) as [|e t IH]; cbn [flat_map].
  - constructor.
  - apply Forall_app. split; [apply support_message_line | exact IH].
Qed.

Lemma to_wcout_not_stream n (l : list line) :
  Forall (fun x => fst x = Wcout) l ->
  filter (written_to (Stream n)) l = [] /\ filter (written_to Wcout) l = l.
Proof.
  intros H. split.
  - apply filter_other_sink. eapply Forall_impl; [|exact H].
    intros [k t] E. cbn in E. subst k. reflexivity.
  - apply filter_same_sink. eapply Forall_impl; [|exact H].
    intros [k t] E. cbn in E. subst k. reflexivity.
Qed.

(** X19.  The default and the AVX printer always return, and write their
    feature lines to [std::wcout] whatever stream they are given: a
    stream other than [std::wcout] receives the four XML wrapper lines
    in XML mode and nothing otherwise.  The Microsoft printer writes all
    its lines to the stream it is given. *)
Theorem feature_lines_bypass_the_stream cfg hw rep n stack
    (ps pu xml : bool) :
  let wrappers :=
    if xml
    then [ (Stream n, wide "<cpu>"); (Stream n, wide "<features>");
           (Stream n, wide "</features>"); (Stream n, wide "</cpu>") ]
    else [] in
  (exists lines,
     result (DefaultMode.print_cpu_features cfg hw (Stream n) stack ps pu xml)
     = inr lines
     /\ filter (written_to (Stream n)) lines = wrappers
     /\ (List.length (filter (written_to Wcout) lines) <= 11)%nat)
  /\ (exists lines,
        result (AvxMode.print_avx_features hw (Stream n) ps pu xml)
        = inr lines
        /\ filter (written_to (Stream n)) lines = wrappers
        /\ (List.length (filter (written_to Wcout) lines) <= 17)%nat)
  /\ Forall (fun x => written_to (Stream n) x = true)
       (MicrosoftMode.print_cpu_features_microsoft rep (Stream n) ps pu xml).
Proof.
  intros wrappers. split; [|split].
  - destruct (get_cpu_features_returns cfg hw stack) as (s & f & Hf).
    unfold DefaultMode.print_cpu_features.
    rewrite (result_bind_inr _ _ _ Hf). cbn [result ret fst].
    eexists. split; [reflexivity|].
    pose proof (to_wcout_not_stream n _
                  (default_features_to_wcout Wcout f ps pu xml)) as [E1 E2].
    rewrite !filter_app, E1, E2. split.
    + unfold wrappers. destruct xml; cbn [filter written_to fst app];
        rewrite ?Nat.eqb_refl; reflexivity.
    + destruct xml; cbn [filter written_to fst app]; rewrite ?app_nil_r;
        unfold DefaultMode._print_cpu_features; rewrite !length_app;
        repeat match goal with
        | |- context [List.length
                        (DefaultMode._print_feature_support ?s ?m ?b ?p ?u ?x)] =>
            let H := fresh in
            let k := fresh "k" in
            pose proof (at_most_one_line _ _
                          (proj2 (default_feature_line s m b p u x))) as H;
            set (k := List.length
                        (DefaultMode._print_feature_support s m b p u x)) in *;
            clearbody k
        end; lia.
  - destruct (get_avx_features_returns hw) as (f & Hf).
    unfold AvxMode.print_avx_features.
    rewrite (result_bind_inr _ _ _ Hf). cbn [result ret fst].
    eexists. split; [reflexivity|].
    pose proof (to_wcout_not_stream n _
                  (avx_features_to_wcout Wcout f ps pu xml)) as [E1 E2].
    rewrite !filter_app, E1, E2. split.
    + unfold wrappers. destruct xml; cbn [filter written_to fst app];
        rewrite ?Nat.eqb_refl; reflexivity.
    + destruct xml; cbn [filter written_to fst app]; rewrite ?app_nil_r;
        unfold AvxMode._print_avx_features; rewrite !length_app;
        repeat match goal with
        | |- context [List.length
                        (AvxMode._print_feature_support ?s ?m ?b ?p ?u ?x)] =>
            let H := fresh in
            let k := fresh "k" in
            pose proof (at_most_one_line _ _
                          (proj2 (avx_feature_line s m b p u x))) as H;
            set (k := List.length
                        (AvxMode._print_feature_support s m b p u x)) in *;
            clearbody k
        end; lia.
  - unfold MicrosoftMode.print_cpu_features_microsoft.
    assert (S : forall l : list line,
               Forall (fun x => fst x = Stream n) l ->
               Forall (fun x => written_to (Stream n) x = true) l).
    { intros l H. eapply Forall_impl; [|exact H].
      intros [k t] E. cbn in E. subst k. cbn. apply Nat.eqb_refl. }
    apply S. apply Forall_app. split; [|apply Forall_app; split].
    + destruct xml; repeat constructor.
    + apply microsoft_features_to_stream.
    + destruct xml; repeat constructor.
Qed.

Lemma default_supported_only s (t : list (wstring * bool)) :
  flat_map (fun e => DefaultMode._print_feature_support s (fst e) (snd e)
                       true false false) t
  = map (fun e => (s, fst e)) (filter snd t).
Proof.
  induction t as [|[name b] t IH]; cbn [flat_map filter fst snd].
  - reflexivity.
  - rewrite IH. destruct b; reflexivity.
Qed.

Lemma default_unsupported_only s (t : list (wstring * bool)) :
  flat_map (fun e => DefaultMode._print_feature_support s (fst e) (snd e)
                       false true false) t
  = map (fun e => (s, fst e)) (filter (fun e => negb (snd e)) t).
Proof.
  induction t as [|[name b] t IH]; cbn [flat_map filter fst snd].
  - reflexivity.
  - rewrite IH. destruct b; reflexivity.
Qed.

Lemma default_full_listing s (t : list (wstring * bool)) :
  flat_map (fun e => DefaultMode._print_feature_support s (fst e) (snd e)
                       true true false) t
  = map (fun e : wstring * bool =>
           (s, (fst e ++ (if snd e then wide " supported"
                          else wide " not supported"))%list)) t.
Proof.
  induction t as [|[name b] t IH]; cbn [flat_map map fst snd].
  - reflexivity.
  - rewrite IH. destruct b; reflexivity.
Qed.

Lemma filter_partition {A} (p : A -> bool) (t : list A) :
  Permutation (filter p t ++ filter (fun e => negb (p e)) t) t.
Proof.
  induction t as [|a t IH]; cbn [filter app].
  - constructor.
  - destruct (p a); cbn [negb app].
    + constructor. exact IH.
    + apply Permutation_sym, Permutation_cons_app, Permutation_sym, IH.
Qed.

(** X20.  In plain text the default printer lists, with the supported
    flag alone, the bare names of the features whose field is non-zero,
    in the order NEON, SSE2, SSE3, SSSE3, SSE4.1, AVX, AVX2, AVX512F,
    PCLMUL, AES-NI, RDRAND; with the unsupported flag alone the bare names
    of the others; with both flags every name followed by its verdict.
    The two partial listings together name every feature exactly once. *)
Theorem default_mode_lists_each_feature_once s cf :
  let yes v := negb (v =? 0) in
  let features :=
    [ (wide "NEON", yes (CrossPlatform.has_neon cf));
      (wide "SSE2", yes (CrossPlatform.has_sse2 cf));
      (wide "SSE3", yes (CrossPlatform.has_sse3 cf));
      (wide "SSSE3", yes (CrossPlatform.has_ssse3 cf));
      (wide "SSE4.1", yes (CrossPlatform.has_sse41 cf));
      (wide "AVX", yes (CrossPlatform.has_avx cf));
      (wide "AVX2", yes (CrossPlatform.has_avx2 cf));
      (wide "AVX512F", yes (CrossPlatform.has_avx512f cf));
      (wide "PCLMUL", yes (CrossPlatform.has_pclmul cf));
      (wide "AES-NI", yes (CrossPlatform.has_aesni cf));
      (wide "RDRAND", yes (CrossPlatform.has_rdrand cf)) ] in
  let text ps pu :=
    map snd (DefaultMode._print_cpu_features s cf ps pu false) in
  text true false = map fst (filter snd features)
  /\ text false true = map fst (filter (fun e => negb (snd e)) features)
  /\ text true true
     = map (fun e : wstring * bool =>
              (fst e ++ (if snd e then wide " supported"
                         else wide " not supported"))%list) features
  /\ Permutation (text true false ++ text false true) (map fst features).
Proof.
  intros yes features text.
  assert (E : forall ps pu,
             DefaultMode._print_cpu_features s cf ps pu false
             = flat_map (fun e => DefaultMode._print_feature_support Wcout
                                    (fst e) (snd e) ps pu false) features).
  { intros ps pu. unfold DefaultMode._print_cpu_features, features.
    cbn [flat_map fst snd]. rewrite app_nil_r. reflexivity. }
  assert (E1 : text true false = map fst (filter snd features)).
  { unfold text. rewrite E, default_supported_only, map_map.
    reflexivity. }
  assert (E2 : text false true
               = map fst (filter (fun e => negb (snd e)) features)).
  { unfold text. rewrite E, default_unsupported_only, map_map.
    reflexivity. }
  split; [exact E1|]. split; [exact E2|]. split.
  - unfold text. rewrite E, default_full_listing, map_map. reflexivity.
  - rewrite E1, E2, <- map_app. apply Permutation_map, filter_partition.
Qed.

Lemma flat_map_split {A B} (f g h : A -> list B) (t : list A) :
  (forall a, (f a ++ g a)%list = h a) ->
  Permutation (flat_map f t ++ flat_map g t) (flat_map h t).
Proof.
  intros H. induction t as [|a t IH]; cbn [flat_map app].
  - constructor.
  - rewrite <- H, <- !app_assoc. apply Permutation_app_head.
    rewrite !app_assoc.
    apply Permutation_trans
      with (l' := ((g a ++ flat_map f t) ++ flat_map g t)%list).
    + apply Permutation_app_tail, Permutation_app_comm.
    + rewrite <- app_assoc. apply Permutation_app_head, IH.
Qed.

Lemma flat_map_length_1 {A B} (f : A -> list B) (t : list A) :
  (forall a, List.length (f a) = 1%nat) ->
  List.length (flat_map f t) = List.length t.
Proof.
  intros H. induction t as [|a t IH]; cbn [flat_map List.length].
  - reflexivity.
  - rewrite length_app, H, IH. reflexivity.
Qed.

Lemma flat_map_nil {A B} (f : A -> list B) (t : list A) :
  (forall a, f a = []) -> flat_map f t = [].
Proof.
  intros H. induction t as [|a t IH]; cbn [flat_map].
  - reflexivity.
  - rewrite H, IH. reflexivity.
Qed.

(** X21.  In the Microsoft and the AVX printer a line has the same text
    whichever flags select it, so the listing of the supported features
    and the listing of the unsupported ones are together exactly the
    lines of the full listing, which has one line for each of the 52
    (Microsoft) or 17 (AVX) features; with neither flag nothing is
    listed. *)
Theorem partial_listings_split_the_full_listing rep f s (xml : bool) :
  let ms ps pu := MicrosoftMode._print_cpu_features rep s ps pu xml in
  let avx ps pu := AvxMode._print_avx_features s f ps pu xml in
  (Permutation (ms true false ++ ms false true) (ms true true)
   /\ List.length (ms true true) = 52%nat
   /\ ms false false = [])
  /\ (Permutation (avx true false ++ avx false true) (avx true true)
      /\ List.length (avx true true) = 17%nat
      /\ avx false false = []).
Proof.
  intros ms avx. split.
  - unfold ms, MicrosoftMode._print_cpu_features. split; [|split].
    + apply flat_map_split. intros [name b].
      unfold MicrosoftMode.support_message. destruct b, xml; reflexivity.
    + rewrite flat_map_length_1; [reflexivity|].
      intros [name b]. unfold MicrosoftMode.support_message.
      destruct b, xml; reflexivity.
    + apply flat_map_nil. intros [name b].
      unfold MicrosoftMode.support_message. destruct b; reflexivity.
  - set (table :=
           [ (wide "AVX", AvxOnly.avx f); (wide "AVX2", AvxOnly.avx2 f);
             (wide "AVX-512 (F)", AvxOnly.avx512f f);
             (wide "AVX-512 CD", AvxOnly.avx512cd f);
             (wide "AVX-512 ER", AvxOnly.avx512er f);
             (wide "AVX-512 PF", AvxOnly.avx512pf f);
             (wide "AVX-512 VL", AvxOnly.avx512vl f);
             (wide "AVX-512 BW", AvxOnly.avx512bw f);
             (wide "AVX-512 DQ", AvxOnly.avx512dq f);
             (wide "AVX-512 IFMA", AvxOnly.avx512ifma f);
             (wide "AVX-512 VBMI", AvxOnly.avx512vbmi f);
             (wide "AVX-512 VNNI", AvxOnly.avx512vnni f);
             (wide "AVX-512 VBMI2", AvxOnly.avx512vbmi2 f);
             (wide "AVX-512 POPCNTDQ", AvxOnly.avx512popcntdq f);
             (wide "AVX-512 BITALG", AvxOnly.avx512bitalg f);
             (wide "AVX-512 4VNNIW", AvxOnly.avx5124vnniw f);
             (wide "AVX-512 4FMAPS", AvxOnly.avx5124fmaps f) ]).
    assert (E : forall ps pu,
               avx ps pu
               = flat_map (fun e => AvxMode._print_feature_support Wcout
                                      (fst e) (snd e) ps pu xml) table).
    { intros ps pu. unfold avx, AvxMode._print_avx_features, table.
      cbn [flat_map fst snd]. rewrite app_nil_r. reflexivity. }
    rewrite !E. split; [|split].
    + apply flat_map_split. intros [name b].
      unfold AvxMode._print_feature_support. destruct b, xml; reflexivity.
    + rewrite flat_map_length_1; [reflexivity|].
      intros [name b]. unfold AvxMode._print_feature_support.
      destruct b, xml; reflexivity.
    + apply flat_map_nil. intros [name b].
      unfold AvxMode._print_feature_support. destruct b; reflexivity.
Qed.

(** ** The command line *)

Lemma towlower_0 c : Main.towlower c = 0 <-> c = 0.
Proof.
  unfold Main.towlower.
  destruct (Z.leb_spec 65 c); destruct (Z.leb_spec c 90); cbn [andb]; lia.
Qed.

Lemma wcsicmp_spec (a : wstring) : forall b : wstring,
  ~ In 0 a -> ~ In 0 b ->
  (Main._wcsicmp a b = 0 <-> map Main.towlower a = map Main.towlower b).
Proof.
  induction a as [|x a IH]; intros [|y b] Ha Hb; cbn [Main._wcsicmp map].
  - split; reflexivity.
  - split; [|discriminate]. intros E. exfalso. apply Hb. left.
    apply towlower_0. lia.
  - split; [|discriminate]. intros E. exfalso. apply Ha. left.
    apply towlower_0. lia.
  - destruct (Z.eqb_spec (Main.towlower x) (Main.towlower y)) as [E|E].
    + rewrite IH by (intros C; (apply Ha + apply Hb); right; exact C).
      split; [intros ->; rewrite E; reflexivity | intros H; injection H; auto].
    + split; [lia | intros H; injection H; intros; contradiction].
Qed.

Lemma is_option_spec (arg : wstring) :
  ~ In 0 arg ->
  (Main.is_option arg = true
   <-> exists c rest, arg = c :: rest /\ (c = 45 \/ c = 47) /\ rest <> []).
Proof.
  intros H0. unfold Main.is_option, Main.char_at.
  rewrite andb_true_iff, orb_true_iff, negb_true_iff, !Z.eqb_eq, Z.eqb_neq.
  destruct arg as [|c [|d rest]]; cbn [nth].
  - split; [intros [[C|C] _]; discriminate | intros (c & r & E & _); discriminate].
  - split; [intros [_ C]; contradiction|].
    intros (c' & r & E & _ & Hr). injection E as <- <-. contradiction.
  - split.
    + intros [Hc _]. exists c, (d :: rest). repeat split; [exact Hc | discriminate].
    + intros (c' & r & E & Hc & _). injection E as <- <-. split; [exact Hc|].
      intros ->. apply H0. right. left. reflexivity.
Qed.

(** X22.  An argument selects an option exactly when it is a dash or a
    slash followed by at least one character, and the characters after
    the first equal one of the option's names up to the case of the
    letters A to Z.  A lone dash or slash selects nothing. *)
Theorem match_option_spec (arg full short : wstring) (alt : option wstring) :
  ~ In 0 arg -> ~ In 0 full -> ~ In 0 short ->
  (forall a, alt = Some a -> ~ In 0 a) ->
  let lower := map Main.towlower in
  Main.match_option arg (Some full) (Some short) alt = true
  <-> exists c rest,
        arg = c :: rest /\ (c = 45 \/ c = 47) /\ rest <> []
        /\ (lower rest = lower full \/ lower rest = lower short
            \/ exists a, alt = Some a /\ lower rest = lower a).
Proof.
  intros Harg Hfull Hshort Halt lower. unfold Main.match_option.
  rewrite andb_true_iff, !orb_true_iff, is_option_spec by exact Harg.
  assert (Htl : forall c rest, arg = c :: rest -> ~ In 0 rest).
  { intros c rest -> C. apply Harg. right. exact C. }
  split.
  - intros [(c & rest & E & Hc & Hr) Hm]. exists c, rest.
    split; [exact E|]. split; [exact Hc|]. split; [exact Hr|].
    pose proof (Htl c rest E) as H0. subst arg.
    unfold Main.match_option_name in Hm. cbn [tl] in Hm.
    destruct Hm as [[Hm|Hm]|Hm].
    + left. apply Z.eqb_eq in Hm. apply wcsicmp_spec in Hm; assumption.
    + right. left. apply Z.eqb_eq in Hm.
      apply wcsicmp_spec in Hm; assumption.
    + right. right. destruct alt as [a|]; [|discriminate].
      exists a. split; [reflexivity|]. apply Z.eqb_eq in Hm.
      apply wcsicmp_spec in Hm; [exact Hm | exact H0 | apply Halt; reflexivity].
  - intros (c & rest & E & Hc & Hr & Hm).
    split; [exists c, rest; auto|].
    pose proof (Htl c rest E) as H0. subst arg.
    unfold Main.match_option_name. cbn [tl].
    destruct Hm as [Hm|[Hm|(a & -> & Hm)]].
    + left. left. apply Z.eqb_eq. apply wcsicmp_spec; assumption.
    + left. right. apply Z.eqb_eq. apply wcsicmp_spec; assumption.
    + right. apply Z.eqb_eq.
      apply wcsicmp_spec; [exact H0 | apply Halt; reflexivity | exact Hm].
Qed.

Lemma match_option_spec_witness :
  Main.match_option (wide "/XML") (Some (wide "xml")) (Some (wide "x")) None
  = true.
Proof.
  refine (proj2 (match_option_spec (wide "/XML") (wide "xml") (wide "x")
                   None _ _ _ _) _).
  - vm_compute. intuition discriminate.
  - vm_compute. intuition discriminate.
  - vm_compute. intuition discriminate.
  - intros a C. discriminate C.
  - exists 47, (wide "XML"). split; [reflexivity|].
    split; [right; reflexivity|]. split; [discriminate|].
    left. vm_compute. reflexivity.
Defined.

(** X23.  The options are read in a fixed order, each at most once:
    after the program name an optional method, then an optional supported
    flag, then an optional unsupported flag, then an optional XML flag;
    reading stops at the first argument that is not the next one
    expected, and what follows it is ignored.  The printer never receives
    both flags cleared.  So an argument that selects the unsupported flag
    in first place leaves the supported flag cleared whatever follows it,
    and only the argument right after it can select XML; and a first
    argument that selects neither a method nor a flag is only tried as
    the XML option, and every later argument is ignored. *)
Theorem options_are_positional (exe a : wstring) (rest : list wstring) :
  let microsoft x :=
    Main.match_option x (Some (wide "microsoft")) (Some (wide "m"))
      (Some (wide "ms")) in
  let avx x :=
    Main.match_option x (Some (wide "avx")) (Some (wide "a")) None in
  let supported x :=
    Main.match_option x (Some (wide "supported")) (Some (wide "s")) None in
  let unsupported x :=
    Main.match_option x (Some (wide "unsupported")) (Some (wide "u")) None in
  let xml x :=
    Main.match_option x (Some (wide "xml")) (Some (wide "x")) None in
  (forall argv, Main.options argv = options_in_order argv)
  /\ (forall argv,
       let '(_, print_supported, print_unsupported, _) := Main.options argv in
       print_supported || print_unsupported = true)
  /\ (microsoft a = false -> avx a = false -> supported a = false ->
      (unsupported a = true ->
       Main.options (exe :: a :: rest)
       = (Main.Default, false, true,
          match rest with x :: _ => xml x | [] => false end))
      /\ (unsupported a = false ->
          Main.options (exe :: a :: rest)
          = (Main.Default, true, true, xml a))).
Proof.
  intros microsoft avx supported unsupported xml.
  assert (E : forall argv, Main.options argv = options_in_order argv).
  { intros argv. unfold Main.options, options_in_order, accept.
    destruct argv as [|exe0 [|a1 [|a2 [|a3 [|a4 more]]]]];
      cbn [List.length nth Nat.ltb Nat.leb tl andb negb];
      repeat (match goal with
              | |- context [if ?c then _ else _] => destruct c
              end; cbv beta iota zeta;
              cbn [List.length nth Nat.ltb Nat.leb tl andb negb]);
      reflexivity. }
  split; [exact E|]. split.
  - intros argv. unfold Main.options.
    repeat (match goal with
            | |- context [if ?c then _ else _] => destruct c
            end; cbv beta iota zeta; cbn [negb andb orb]).
    all: reflexivity.
  - intros Hm Ha Hs. unfold microsoft, avx, supported, unsupported, xml in *.
    rewrite E. unfold options_in_order, accept. cbn [tl].
    rewrite Hm, Ha. cbv beta iota zeta. rewrite Hs. cbv beta iota zeta.
    split; intros Hu; rewrite Hu; cbv beta iota zeta.
    + destruct rest as [|x rest]; cbn [negb andb]; [reflexivity|].
      destruct (Main.match_option x (Some (wide "xml")) (Some (wide "x")) None);
        reflexivity.
    + cbn [negb andb].
      destruct (Main.match_option a (Some (wide "xml")) (Some (wide "x")) None);
        reflexivity.
Qed.

Lemma options_are_positional_witness :
  Main.options [wide "cpufeatures"; wide "-u"; wide "-s"; wide "-x"]
  = (Main.Default, false, true, false)
  /\ Main.options [wide "cpufeatures"; wide "-q"; wide "-m"; wide "-x"]
     = (Main.Default, true, true, false)
  /\ Main.options [wide "cpufeatures"; wide "-ms"; wide "-s"; wide "-x"]
     = (Main.Microsoft, true, false, true).
Proof.
  split; [|split].
  - refine (proj1 (proj2 (proj2 (options_are_positional (wide "cpufeatures")
                            (wide "-u") [wide "-s"; wide "-x"])) _ _ _) _);
      vm_compute; reflexivity.
  - refine (proj2 (proj2 (proj2 (options_are_positional (wide "cpufeatures")
                            (wide "-q") [wide "-m"; wide "-x"])) _ _ _) _);
      vm_compute; reflexivity.
  - rewrite (proj1 (options_are_positional [] [] [])).
    vm_compute. reflexivity.
Defined.

Lemma wcsrchr_absent (s : wstring) c : ~ In c s -> Main.wcsrchr s c = None.
Proof.
  induction s as [|x s IH]; intros H; cbn [Main.wcsrchr].
  - reflexivity.
  - rewrite IH by (intros C; apply H; right; exact C).
    destruct (Z.eqb_spec x c) as [->|]; [|reflexivity].
    exfalso. apply H. left. reflexivity.
Qed.

Lemma wcsrchr_last (dir name : wstring) c :
  ~ In c name -> Main.wcsrchr (dir ++ c :: name) c = Some (c :: name).
Proof.
  intros H. induction dir as [|x dir IH]; cbn [app Main.wcsrchr].
  - rewrite wcsrchr_absent by exact H. rewrite Z.eqb_refl. reflexivity.
  - rewrite IH. reflexivity.
Qed.

(** [wmain] on a help option: the usage text, nothing executed. *)
Lemma wmain_help cfg hw rep version (dir name h : wstring)
    (rest : list wstring) stack :
  Main.match_option h (Some (wide "help")) (Some (wide "h"))
    (Some (wide "?")) = true ->
  ~ In 92 name ->
  Main.wmain cfg hw rep version ((dir ++ 92 :: name)%list :: h :: rest) stack
  = (inr (Main.EXIT_SUCCESS, Main.usage version name), [])
  /\ Main.wmain cfg hw rep version (name :: h :: rest) stack
     = (inr (Main.EXIT_SUCCESS, Main.usage version name), []).
Proof.
  intros Hh Hname. unfold Main.wmain.
  cbn [List.length nth Nat.ltb Nat.leb andb]. rewrite Hh.
  rewrite wcsrchr_last by exact Hname.
  rewrite wcsrchr_absent by exact Hname. split; reflexivity.
Qed.

(** The program is the static constructor followed by [wmain]. *)
Lemma program_run cfg hw version argv stack :
  Main.program cfg hw version argv stack
  = match result (InstructionSet.CPU_Rep hw) with
    | inl e => (inl e, trace (InstructionSet.CPU_Rep hw))
    | inr rep =>
        (result (Main.wmain cfg hw rep version argv stack),
         (trace (InstructionSet.CPU_Rep hw)
          ++ trace (Main.wmain cfg hw rep version argv stack))%list)
    end.
Proof.
  unfold Main.program, bind, result, trace.
  destruct (InstructionSet.CPU_Rep hw) as [[e|rep] t]; cbn [fst snd].
  - reflexivity.
  - destruct (Main.wmain cfg hw rep version argv stack). reflexivity.
Qed.

(** X24.  With a help option in first place [wmain] executes no
    instruction, prints the usage text and returns [EXIT_SUCCESS],
    whatever follows; the name it prints is what follows the last
    backslash of [argv[0]], or the whole of it when it has none.  The
    program as a whole still runs the static constructor first: it
    executes exactly the constructor's instructions, and prints the usage
    text only if the constructor returns; otherwise it ends with the
    constructor's fault and prints nothing. *)
Theorem help_prints_usage cfg hw version (dir name h : wstring)
    (rest : list wstring) stack argv :
  Main.match_option h (Some (wide "help")) (Some (wide "h"))
    (Some (wide "?")) = true ->
  ~ In 92 name ->
  argv = (dir ++ 92 :: name)%list :: h :: rest \/ argv = name :: h :: rest ->
  (forall rep,
     Main.wmain cfg hw rep version argv stack
     = (inr (Main.EXIT_SUCCESS, Main.usage version name), []))
  /\ Main.program cfg hw version argv stack
     = (match result (InstructionSet.CPU_Rep hw) with
        | inl e => inl e
        | inr _ => inr (Main.EXIT_SUCCESS, Main.usage version name)
        end,
        trace (InstructionSet.CPU_Rep hw)).
Proof.
  intros Hh Hname Hargv.
  assert (W : forall rep,
             Main.wmain cfg hw rep version argv stack
             = (inr (Main.EXIT_SUCCESS, Main.usage version name), [])).
  { intros rep.
    destruct (wmain_help cfg hw rep version dir name h rest stack Hh Hname)
      as [W1 W2].
    destruct Hargv as [-> | ->]; assumption. }
  split; [exact W|]. rewrite program_run.
  destruct (result (InstructionSet.CPU_Rep hw)) as [e|rep]; [reflexivity|].
  rewrite W. cbn [result trace fst snd]. rewrite app_nil_r. reflexivity.
Qed.

Lemma help_prints_usage_witness :
  result (Main.program CrossPlatform.msvc genuine_intel (wide "1.0")
            [wide "C:\bin\CPUFeatures64.exe"; wide "/?"; wide "-xml"]
            stack_garbage)
  = inr (Main.EXIT_SUCCESS,
         Main.usage (wide "1.0") (wide "CPUFeatures64.exe"))
  /\ result (Main.program CrossPlatform.msvc zero_extended_maximum
               (wide "1.0") [wide "CPUFeatures64.exe"; wide "-h"]
               stack_garbage)
     = inl AllocationFailure.
Proof.
  split.
  - rewrite (proj2 (help_prints_usage CrossPlatform.msvc genuine_intel
                      (wide "1.0") (wide "C:\bin") (wide "CPUFeatures64.exe")
                      (wide "/?") [wide "-xml"] stack_garbage
                      [wide "C:\bin\CPUFeatures64.exe"; wide "/?";
                       wide "-xml"]
                      eq_refl
                      ltac:(vm_compute; intuition discriminate)
                      (or_introl eq_refl))).
    vm_compute. reflexivity.
  - rewrite (proj2 (help_prints_usage CrossPlatform.msvc zero_extended_maximum
                      (wide "1.0") [] (wide "CPUFeatures64.exe")
                      (wide "-h") [] stack_garbage
                      [wide "CPUFeatures64.exe"; wide "-h"]
                      eq_refl
                      ltac:(vm_compute; intuition discriminate)
                      (or_intror eq_refl))).
    cbn [result fst]. rewrite CPU_Rep_result. reflexivity.
Defined.

Lemma usage_to_wcout version exeName :
  Forall (fun x => written_to Wcout x = true) (Main.usage version exeName).
Proof.
  unfold Main.usage. apply Forall_forall. intros x Hx.
  apply in_map_iff in Hx. destruct Hx as (t & <- & _). reflexivity.
Qed.

Lemma fst_wcout (l : list line) :
  Forall (fun x => fst x = Wcout) l ->
  Forall (fun x => written_to Wcout x = true) l.
Proof.
  intros H. eapply Forall_impl; [|exact H].
  intros [k t] E. cbn in E. subst k. reflexivity.
Qed.

(** [wmain] once the static constructor has returned. *)
Lemma wmain_returns cfg hw rep version argv stack :
  exists lines,
    result (Main.wmain cfg hw rep version argv stack)
    = inr (Main.EXIT_SUCCESS, lines)
    /\ Forall (fun x => written_to Wcout x = true) lines
    /\ (forall ps pu xml,
          Main.options argv = (Main.Microsoft, ps, pu, xml) ->
          trace (Main.wmain cfg hw rep version argv stack) = [])
    /\ (forall ps pu xml,
          Main.options argv = (Main.AVX, ps, pu, xml) ->
          forall idx,
            ~ In (Xgetbv idx)
                (trace (Main.wmain cfg hw rep version argv stack))).
Proof.
  unfold Main.wmain.
  destruct (Nat.ltb 1 (List.length argv)
            && Main.match_option (nth 1 argv [])
                 (Some (wide "help")) (Some (wide "h")) (Some (wide "?"))).
  { eexists. split; [reflexivity|]. split; [apply usage_to_wcout|].
    split; [reflexivity|]. intros _ _ _ _ idx C. exact C. }
  destruct (Main.options argv) as [[[method ps] pu] xml].
  destruct method.
  - destruct (get_cpu_features_returns cfg hw stack) as (s & f & Hf).
    assert (Hp : exists lines,
               result (DefaultMode.print_cpu_features cfg hw Wcout stack
                         ps pu xml) = inr lines
               /\ Forall (fun x => written_to Wcout x = true) lines).
    { unfold DefaultMode.print_cpu_features.
      rewrite (result_bind_inr _ _ _ Hf). cbn [result ret fst].
      eexists. split; [reflexivity|].
      apply Forall_app. split; [destruct xml; repeat constructor|].
      apply Forall_app. split; [|destruct xml; repeat constructor].
      apply fst_wcout, default_features_to_wcout. }
    destruct Hp as (lines & Hp & Hw).
    rewrite (result_bind_inr _ _ _ Hp). cbn [result ret fst].
    exists lines. split; [reflexivity|].
    split; [exact Hw | split; intros; discriminate].
  - rewrite bind_ret_l. eexists. split; [reflexivity|].
    split; [|split; [reflexivity | intros ? ? ? C; discriminate C]].
    unfold MicrosoftMode.print_cpu_features_microsoft.
    apply Forall_app. split; [destruct xml; repeat constructor|].
    apply Forall_app. split; [|destruct xml; repeat constructor].
    apply fst_wcout, microsoft_features_to_stream.
  - destruct (get_avx_features_returns hw) as (f & Hf).
    assert (Hp : exists lines,
               result (AvxMode.print_avx_features hw Wcout ps pu xml)
               = inr lines
               /\ Forall (fun x => written_to Wcout x = true) lines).
    { unfold AvxMode.print_avx_features.
      rewrite (result_bind_inr _ _ _ Hf). cbn [result ret fst].
      eexists. split; [reflexivity|].
      apply Forall_app. split; [destruct xml; repeat constructor|].
      apply Forall_app. split; [|destruct xml; repeat constructor].
      apply fst_wcout, avx_features_to_wcout. }
    destruct Hp as (lines & Hp & Hw).
    rewrite (result_bind_inr _ _ _ Hp). cbn [result ret fst].
    exists lines. split; [reflexivity|].
    split; [exact Hw | split; [intros; discriminate|]].
    intros _ _ _ _ idx.
    rewrite (trace_bind_inr _ _ _ Hp). cbn [trace ret snd].
    rewrite app_nil_r. unfold AvxMode.print_avx_features.
    rewrite (trace_bind_inr _ _ _ Hf). cbn [trace ret snd].
    rewrite app_nil_r. rewrite get_avx_features_run. cbv zeta.
    destruct (1 <=? max_standard hw); [destruct (7 <=? max_standard hw)|];
      cbn [trace snd In]; intuition discriminate.
Qed.

(** X25.  The program returns exactly when the static constructor of
    the Microsoft-specific decoder returns, whatever the arguments and the
    method they select: if the constructor ends in a fault or an
    exception, so does the program, having executed the constructor's
    instructions only and printed nothing.  If the constructor returns,
    the program returns [EXIT_SUCCESS] and writes to [std::wcout] only; an
    argument it does not recognise is never reported.  With the Microsoft
    method it executes no instruction beyond the constructor's, and with
    the AVX method it executes no [xgetbv]. *)
Theorem program_outcome cfg hw version argv stack :
  (forall e, result (InstructionSet.CPU_Rep hw) = inl e ->
     Main.program cfg hw version argv stack
     = (inl e, trace (InstructionSet.CPU_Rep hw)))
  /\ (forall rep, result (InstructionSet.CPU_Rep hw) = inr rep ->
      exists lines,
        result (Main.program cfg hw version argv stack)
        = inr (Main.EXIT_SUCCESS, lines)
        /\ Forall (fun x => written_to Wcout x = true) lines
        /\ (forall ps pu xml,
              Main.options argv = (Main.Microsoft, ps, pu, xml) ->
              trace (Main.program cfg hw version argv stack)
              = trace (InstructionSet.CPU_Rep hw))
        /\ (forall ps pu xml,
              Main.options argv = (Main.AVX, ps, pu, xml) ->
              forall idx,
                ~ In (Xgetbv idx)
                    (trace (Main.program cfg hw version argv stack)))).
Proof.
  split.
  - intros e He. rewrite program_run, He. reflexivity.
  - intros rep Hrep. rewrite program_run, Hrep.
    destruct (wmain_returns cfg hw rep version argv stack)
      as (lines & Hr & Hw & Hms & Havx).
    pose proof (constructor_executes_cpuid_only hw rep Hrep) as Hc.
    unfold result, trace in *. cbn [fst snd].
    exists lines. split; [exact Hr|]. split; [exact Hw|]. split.
    + intros ps pu xml Ho. rewrite (Hms ps pu xml Ho). apply app_nil_r.
    + intros ps pu xml Ho idx Hin. apply in_app_or in Hin.
      destruct Hin as [Hin|Hin].
      * exact (Hc idx Hin).
      * exact (Havx ps pu xml Ho idx Hin).
Qed.

Lemma program_outcome_witness :
  (exists lines,
     result (Main.program CrossPlatform.msvc genuine_intel (wide "1.0")
               [wide "CPUFeatures64.exe"; wide "-ms"; wide "-s"]
               stack_garbage)
     = inr (Main.EXIT_SUCCESS, lines))
  /\ result (Main.program CrossPlatform.msvc negative_maximum (wide "1.0")
               [wide "CPUFeatures64.exe"] stack_garbage)
     = inl OutOfBounds.
Proof.
  split.
  - destruct (proj2 (program_outcome CrossPlatform.msvc genuine_intel
                       (wide "1.0")
                       [wide "CPUFeatures64.exe"; wide "-ms"; wide "-s"]
                       stack_garbage)
                (Rep.closed_form genuine_intel))
      as (lines & H & _).
    + apply CPU_Rep_returns; vm_compute; intuition congruence.
    + exists lines. exact H.
  - rewrite (proj1 (program_outcome CrossPlatform.msvc negative_maximum
                      (wide "1.0") [wide "CPUFeatures64.exe"] stack_garbage)
               OutOfBounds).
    + reflexivity.
    + rewrite CPU_Rep_result. reflexivity.
Defined.
